(** * h5pBuilder: the Markdown-to-Interactive-Book compiler

    A shallow embedding of [services/h5pBuilder.ts]: the chapter splitter
    at the head of [buildH5P], the segmentation parser
    [parseChapterSegments], the block builders, the library version
    resolver [getLibVersion] and the directory-entry repair that closes
    [buildH5P]; and of the file check [validateAndSetFile] of
    [components/FileUpload.tsx].

    Conventions.
    - A JavaScript string is a [string]; each [ascii] stands for one
      UTF-16 code unit below 256.  The white space of [trim] and of the
      regular-expression class [\s] is, in that range, the code units
      9 to 13, 32 and 160.
    - [uuidv4()] draws from a supply of identifiers, threaded through the
      builders by the state monad [M].  The supply stands for the order
      of the draws of one builder; the code starts the chapters of a
      book together under [Promise.all], so that across chapters the
      draws may come in another order than the one [buildH5P] threads
      here.  No statement below compares the identifiers of two
      chapters.
    - The versions a manifest declares are natural numbers below 2^53,
      which a template literal prints in decimal.  A manifest whose
      version fields hold anything else (no number, a fraction, a
      number beyond that bound) is outside the model: the statements
      about a declared library fix its versions, all others are about
      libraries the manifest does not declare.
    - The content document of a template, where [JSON.parse] accepts
      it, is an object: the assignment of its [chapters] does not
      throw.
    - [marked.parse], [JSON.stringify], [JSON.parse] and the JSZip method
      [file(name, data)] belong to other packages; they are the
      [Variable]s of the sections that call them. *)

From Stdlib Require Import String Ascii List Bool Arith NArith Lia.
From Stdlib Require Import DecimalString.
Import ListNotations.
Open Scope string_scope.

(** ** JavaScript string primitives *)

Module JS.

Definition code (c : ascii) : nat := nat_of_ascii c.

(** White space of [String.prototype.trim] and of [\s]. *)
Definition is_ws (c : ascii) : bool :=
  let n := code c in
  (((9 <=? n) && (n <=? 13)) || (n =? 32) || (n =? 160))%nat.

(** Line terminators, which [.] in a regular expression refuses. *)
Definition is_lt (c : ascii) : bool :=
  let n := code c in ((n =? 10) || (n =? 13))%nat.

Definition is_digit (c : ascii) : bool :=
  let n := code c in ((48 <=? n) && (n <=? 57))%nat.

Definition isEmpty (s : string) : bool :=
  match s with EmptyString => true | String _ _ => false end.

(** Truthiness of a string: every string but the empty one. *)
Definition truthy (s : string) : bool := negb (isEmpty s).

Fixpoint trimStart (s : string) : string :=
  match s with
  | EmptyString => EmptyString
  | String c r => if is_ws c then trimStart r else s
  end.

Fixpoint trimEnd (s : string) : string :=
  match s with
  | EmptyString => EmptyString
  | String c r =>
      let r' := trimEnd r in
      if is_ws c && isEmpty r' then EmptyString else String c r'
  end.

Definition trim (s : string) : string := trimEnd (trimStart s).

(** [s.startsWith(p)] *)
Fixpoint startsWith (s p : string) : bool :=
  match p with
  | EmptyString => true
  | String a p' =>
      match s with
      | EmptyString => false
      | String b s' => Ascii.eqb a b && startsWith s' p'
      end
  end.

(** [s.includes(p)] *)
Fixpoint includes (s p : string) : bool :=
  startsWith s p ||
  match s with
  | EmptyString => false
  | String _ s' => includes s' p
  end.

(** [s.endsWith(p)] *)
Fixpoint endsWith (s p : string) : bool :=
  String.eqb s p ||
  match s with
  | EmptyString => false
  | String _ s' => endsWith s' p
  end.

(** [s.substring(1)] *)
Definition substring1 (s : string) : string :=
  match s with EmptyString => EmptyString | String _ r => r end.

Fixpoint drop (n : nat) (s : string) : string :=
  match n, s with
  | O, _ => s
  | S _, EmptyString => EmptyString
  | S n', String _ r => drop n' r
  end.

(** [s.replace(p, r)] with a string pattern: the first occurrence. *)
Fixpoint replaceFirst (s p r : string) : string :=
  if startsWith s p then r ++ drop (String.length p) s
  else match s with
       | EmptyString => EmptyString
       | String c s' => String c (replaceFirst s' p r)
       end.

(** [s.split(sep)] for a one-character separator: never empty. *)
Fixpoint split (sep : ascii) (s : string) : list string :=
  match s with
  | EmptyString => [EmptyString]
  | String c r =>
      if Ascii.eqb c sep then EmptyString :: split sep r
      else match split sep r with
           | [] => [String c EmptyString]
           | w :: ws => String c w :: ws
           end
  end.

(** [xs.join(sep)] *)
Definition join (sep : string) (xs : list string) : string :=
  String.concat sep xs.

Definition LF : ascii := ascii_of_nat 10.
Definition CR : ascii := ascii_of_nat 13.

(** The string ['\n']. *)
Definition NL : string := String LF EmptyString.

(** [s.replace(/\r\n/g, '\n')] *)
Fixpoint replaceCRLF (s : string) : string :=
  match s with
  | EmptyString => EmptyString
  | String c r =>
      match r with
      | String d r' =>
          if Ascii.eqb c CR && Ascii.eqb d LF
          then String LF (replaceCRLF r')
          else String c (replaceCRLF r)
      | EmptyString => s
      end
  end.

(** [s.replace(/\r/g, '\n')] *)
Fixpoint replaceCR (s : string) : string :=
  match s with
  | EmptyString => EmptyString
  | String c r => String (if Ascii.eqb c CR then LF else c) (replaceCR r)
  end.

Definition normalizeNewlines (s : string) : string :=
  replaceCR (replaceCRLF s).

(** The lines of a text: normalise the line ends, split on [\n]. *)
Definition linesOf (text : string) : list string :=
  split LF (normalizeNewlines text).

(** Template-literal rendering of a non-negative integer. *)
Definition showN (n : N) : string := NilZero.string_of_uint (N.to_uint n).

(** [xs.length > 0] *)
Definition nonEmpty {A} (xs : list A) : bool :=
  match xs with [] => false | _ :: _ => true end.

End JS.
Import JS.

(** ** Chapter splitter (the first phase of [buildH5P]) *)

Record ChapterData := mkChapterData { title : string; content : string }.

Module Splitter.

(** The variables the [forEach] callback closes over. *)
Record state := mkState {
  chaptersData : list ChapterData;
  currentTitle : string;
  currentLines : list string;
  isImplicit   : bool
}.

(** [line.trim().startsWith('# ')] *)
Definition isHeading (line : string) : bool :=
  startsWith (trim line) "# ".

(** [line.replace(/^#\s+/, '')]: the pattern is anchored at the start
    of the line as given, not of the trimmed line. *)
Definition stripHash (line : string) : string :=
  match line with
  | String "#" (String c _ as r) => if is_ws c then trimStart r else line
  | _ => line
  end.

Definition headingTitle (line : string) : string := trim (stripHash line).

Definition pushChapter (st : state) : list ChapterData :=
  chaptersData st ++
    [mkChapterData (currentTitle st) (join NL (currentLines st))].

Definition init (lines : list string) : state :=
  match lines with
  | l0 :: _ =>
      if isHeading l0 then mkState [] "" [] false
      else mkState [] "Introduction" [] true
  | [] => mkState [] "Introduction" [] true
  end.

Definition step (st : state) (line : string) : state :=
  if isHeading line then
    mkState
      (if truthy (currentTitle st)
          && (nonEmpty (currentLines st) || negb (isImplicit st))
       then pushChapter st else chaptersData st)
      (headingTitle line) [] false
  else
    mkState (chaptersData st) (currentTitle st)
            (currentLines st ++ [line]) (isImplicit st).

Definition finish (st : state) : list ChapterData :=
  if truthy (currentTitle st) && nonEmpty (currentLines st)
  then pushChapter st else chaptersData st.

Definition run (lines : list string) : list ChapterData :=
  finish (fold_left step lines (init lines)).

End Splitter.

(** The chapters [buildH5P] reads off its input text. *)
Definition splitChapters (text : string) : list ChapterData :=
  Splitter.run (linesOf text).

(** ** Segmentation parser *)

Module Block.
(** [ContentBlock['type']] *)
Inductive kind := text | accordion | quiz | image | video | fill | drag.

Definition isText (k : kind) : bool :=
  match k with text => true | _ => false end.
End Block.

Record ContentBlock := mkBlock { type : Block.kind; lines : list string }.

(** The image pattern [/^!\[(.*?)\]\((.*?)\)/]. *)
Module ImageRegex.

(** [(.*?)\)]: characters other than line terminators, up to a [)]. *)
Fixpoint closes (s : string) : bool :=
  match s with
  | EmptyString => false
  | String c r =>
      if Ascii.eqb c ")" then true
      else if is_lt c then false
      else closes r
  end.

(** [(.*?)\]\((.*?)\)] after the opening [![]: the first capture group,
    the shortest prefix after which the rest of the pattern matches. *)
Fixpoint alt (s : string) : option string :=
  match s with
  | EmptyString => None
  | String c r =>
      if Ascii.eqb c "]" && startsWith r "(" && closes (substring1 r)
      then Some EmptyString
      else if is_lt c then None
      else option_map (String c) (alt r)
  end.

(** [line.match(imageRegex)], reduced to its first group. *)
Definition exec (s : string) : option string :=
  match s with
  | String "!" (String "[" r) => alt r
  | _ => None
  end.

(** [imageRegex.test(s)] *)
Definition test (s : string) : bool :=
  match exec s with Some _ => true | None => false end.

End ImageRegex.

Module Segments.

(** The variables the loop of [parseChapterSegments] updates. *)
Record state := mkState {
  blocks       : list ContentBlock;
  currentLines : list string;
  currentType  : Block.kind
}.

Definition init : state := mkState [] [] Block.text.

(** [currentLines.some(l => l.trim() !== "")] *)
Definition hasContent (ls : list string) : bool :=
  existsb (fun l => negb (String.eqb (trim l) "")) ls.

Definition flush (st : state) (newType : Block.kind) : state :=
  mkState
    (if nonEmpty (currentLines st)
     then if negb (Block.isText (currentType st))
             || hasContent (currentLines st)
          then blocks st ++ [mkBlock (currentType st) (currentLines st)]
          else blocks st
     else blocks st)
    [] newType.

Definition step (st : state) (line : string) : state :=
  let trimmed := trim line in
  if String.eqb trimmed "[ACCORDION]" then flush st Block.accordion
  else if String.eqb trimmed "[QUIZ]" then flush st Block.quiz
  else if String.eqb trimmed "[VIDEO]" then flush st Block.video
  else if String.eqb trimmed "[FILL]" then flush st Block.fill
  else if String.eqb trimmed "[DRAG]" then flush st Block.drag
  else if String.eqb trimmed "[TEXT]" then flush st Block.text
  else if ImageRegex.test trimmed && Block.isText (currentType st) then
    let st' := flush st Block.text in
    mkState (blocks st' ++ [mkBlock Block.image [trimmed]]) [] Block.text
  else
    mkState (blocks st) (currentLines st ++ [line]) (currentType st).

Definition run (st : state) (ls : list string) : state :=
  fold_left step ls st.

(** The loop over the lines, then the closing [flush('text')]. *)
Definition parseLines (ls : list string) : list ContentBlock :=
  blocks (flush (run init ls) Block.text).

End Segments.

Definition parseChapterSegments (markdown : string) : list ContentBlock :=
  Segments.parseLines (linesOf markdown).

(** ** The template archive and the library version resolver *)

(** An entry of [zip.files]: JSZip's [dir] flag and the entry's bytes. *)
Record ZipObject := mkZipObject { dir : bool; data : string }.

(** [zip.files], an object used as a map from entry names to entries.
    The list holds the keys in the order [Object.keys] enumerates them;
    [zip.files[key]] is the first pair of that key. *)
Definition ZipFiles := list (string * ZipObject).

Module Zip.

Definition keys (files : ZipFiles) : list string := map fst files.

(** [files[key]] *)
Fixpoint get (key : string) (files : ZipFiles) : option ZipObject :=
  match files with
  | [] => None
  | (k, e) :: rest => if String.eqb k key then Some e else get key rest
  end.

(** [delete files[key]] *)
Definition delete (key : string) (files : ZipFiles) : ZipFiles :=
  filter (fun p => negb (String.eqb (fst p) key)) files.

End Zip.

(** An entry of [preloadedDependencies]; the two versions are printed
    by [showN] where the code prints them in a template literal. *)
Record H5PDependency := mkDependency {
  machineName  : string;
  majorVersion : N;
  minorVersion : N
}.

(** [/^\d+\.\d+$/] *)
Module VersionRegex.

Fixpoint skipDigits (s : string) : string :=
  match s with
  | EmptyString => EmptyString
  | String c r => if is_digit c then skipDigits r else s
  end.

Definition test (s : string) : bool :=
  match s with
  | String c r =>
      is_digit c &&
      match skipDigits r with
      | String "." (String d r') => is_digit d && isEmpty (skipDigits r')
      | _ => false
      end
  | EmptyString => false
  end.

End VersionRegex.

Definition getLibVersion (zip : ZipFiles) (deps : list H5PDependency)
    (name defaultVersion : string) : string :=
  (* 1. Look in h5p.json dependencies *)
  match find (fun d => String.eqb (machineName d) name) deps with
  | Some dep =>
      machineName dep ++ " " ++ showN (majorVersion dep)
                      ++ "." ++ showN (minorVersion dep)
  | None =>
      (* 2. Look for folder in ZIP *)
      let prefix := name ++ "-" in
      let fallback := name ++ " " ++ defaultVersion in
      match find (fun path => startsWith path prefix && includes path "/")
                 (Zip.keys zip) with
      | Some foundFolder =>
          if truthy foundFolder then
            let folderName := hd EmptyString (split "/" foundFolder) in
            let versionPart := replaceFirst folderName prefix "" in
            if VersionRegex.test versionPart
            then name ++ " " ++ versionPart
            else fallback
          else fallback
      (* 3. Fallback *)
      | None => fallback
      end
  end.

(** [LibraryVersions]: the six optional entries have type
    [string | null]. *)
Record LibraryVersions := mkLibraryVersions {
  column         : string;
  text           : string;
  isAdvancedText : bool;
  accordion      : option string;
  singleChoice   : option string;
  image          : option string;
  video          : option string;
  blanks         : option string;
  dragText       : option string
}.

(** Step 4 of [buildH5P]. *)
Definition resolveLibs (zip : ZipFiles) (deps : list H5PDependency)
    : LibraryVersions :=
  let advancedTextFound := getLibVersion zip deps "H5P.AdvancedText" "" in
  let textLib :=
    if truthy advancedTextFound
       && negb (includes advancedTextFound "undefined")
    then advancedTextFound
    else getLibVersion zip deps "H5P.Text" "1.0" in
  mkLibraryVersions
    (getLibVersion zip deps "H5P.Column" "1.13")
    textLib
    (startsWith textLib "H5P.AdvancedText")
    (Some (getLibVersion zip deps "H5P.Accordion" "1.0"))
    (Some (getLibVersion zip deps "H5P.SingleChoiceSet" "1.11"))
    (Some (getLibVersion zip deps "H5P.Image" "1.1"))
    (Some (getLibVersion zip deps "H5P.Video" "1.5"))
    (Some (getLibVersion zip deps "H5P.Blanks" "1.12"))
    (Some (getLibVersion zip deps "H5P.DragText" "1.8")).

(** The test every builder opens with,
    [if (!libs.x || libs.x.includes("null")) return null]: the library
    name the builder goes on with, or [None] where it returns [null]. *)
Definition available (lib : option string) : option string :=
  match lib with
  | None => None
  | Some s => if isEmpty s || includes s "null" then None else Some s
  end.

(** ** Fresh identifiers *)

Definition uuid := nat.

(** Computations that draw identifiers from a supply. *)
Definition M (A : Type) : Type := nat -> A * nat.

Definition ret {A} (a : A) : M A := fun n => (a, n).

Definition bind {A B} (m : M A) (k : A -> M B) : M B :=
  fun n => let (a, n') := m n in k a n'.

Notation "x <- m ;; k" := (bind m (fun x => k))
  (at level 61, m at next level, right associativity).

(** [uuidv4()] *)
Definition uuidv4 : M uuid := fun n => (n, S n).

Fixpoint mapM {A B} (f : A -> M B) (xs : list A) : M (list B) :=
  match xs with
  | [] => ret []
  | x :: xs' => y <- f x ;; ys <- mapM f xs' ;; ret (y :: ys)
  end.

Fixpoint foldM {A S} (f : S -> A -> M S) (xs : list A) (s : S) : M S :=
  match xs with
  | [] => ret s
  | x :: xs' => s' <- f s x ;; foldM f xs' s'
  end.

(** ** Content objects *)

Module Metadata.
Record t := make {
  license     : string;
  title       : string;
  authors     : list string;
  changes     : list string;
  contentType : string
}.
End Metadata.

Definition createMetadata (title contentType : string) : Metadata.t :=
  Metadata.make "U" title [] [] contentType.

(** [H5PContentObject], over the type of its [params]. *)
Record ContentObjectOf (P : Type) := mkObject {
  library      : string;
  params       : P;
  subContentId : uuid;
  metadata     : Metadata.t
}.
Arguments mkObject {P}.
Arguments library {P}.
Arguments params {P}.
Arguments subContentId {P}.
Arguments metadata {P}.

Module Accordion.
(** [AccordionPanel]; its content is a text object, whose [params]
    is the HTML text. *)
Record panel := mkPanel {
  title   : string;
  content : ContentObjectOf string
}.
Record params := mkParams { panels : list panel; hTag : string }.
End Accordion.

Module Quiz.
Record SingleChoice := mkChoice {
  question     : string;
  answers      : list string;
  subContentId : uuid
}.
Record behaviour := mkBehaviour {
  autoContinue          : bool;
  enableRetry           : bool;
  enableSolutionsButton : bool;
  passPercentage        : N;
  soundEffectsEnabled   : bool;
  timeoutCorrect        : N;
  timeoutWrong          : N
}.
Record params := mkParams {
  choices    : list SingleChoice;
  behaviour_ : behaviour
}.
End Quiz.

Module Image.
Record file := mkFile { path : string; mime : string; copyright : string }.
Record params := mkParams {
  alt         : string;
  contentName : string;
  file_       : file
}.
End Image.

Module Video.
Record params := mkParams {
  sources  : list string;
  fit      : bool;
  controls : bool;
  autoplay : bool;
  loop     : bool
}.
End Video.

Module Blanks.
Record behaviour := mkBehaviour {
  enableRetry                : bool;
  enableSolutionsButton      : bool;
  autoRetry                  : bool;
  caseSensitive              : bool;
  showSolutionsRequiresInput : bool;
  separateLines              : bool
}.
Record params := mkParams {
  questions  : list string;
  behaviour_ : behaviour
}.
End Blanks.

Module DragText.
Record behaviour := mkBehaviour {
  enableRetry           : bool;
  enableSolutionsButton : bool;
  instantFeedback       : bool
}.
Record params := mkParams {
  textField       : string;
  taskDescription : string;
  behaviour_      : behaviour
}.
End DragText.

(** The [params] of the objects the builders return. *)
Inductive Params :=
| TextParams (html : string)
| AccordionParams (p : Accordion.params)
| SingleChoiceSetParams (p : Quiz.params)
| ImageParams (p : Image.params)
| VideoParams (p : Video.params)
| BlanksParams (p : Blanks.params)
| DragTextParams (p : DragText.params).

Definition H5PContentObject := ContentObjectOf Params.

Record ColumnContentWrapper := mkWrapper {
  wrapped      : H5PContentObject;
  useSeparator : string
}.

(** [Chapter]: a content object whose [params.content] is the list of
    wrappers. *)
Definition Chapter := ContentObjectOf (list ColumnContentWrapper).

(** ** The accordion and quiz loops *)

Module AccordionLoop.

Record panel := mkPanel { title : string; markdownLines : list string }.

(** [panels] is the store of panel objects; [currentPanel] refers to
    one of them by its index, as the source's variable refers to the
    object it has just pushed. *)
Record state := mkState {
  panels       : list panel;
  currentPanel : option nat
}.

Definition init : state := mkState [] None.

(** [line.trim().startsWith('+++')] *)
Definition isMarker (line : string) : bool :=
  startsWith (trim line) "+++".

Fixpoint skipPlus (s : string) : string :=
  match s with
  | String "+" r => skipPlus r
  | _ => s
  end.

(** [line.replace(/^\+{3,}\s*/, '')]: anchored at the start of the
    line as given. *)
Definition stripMarker (line : string) : string :=
  if startsWith line "+++" then trimStart (skipPlus line) else line.

(** The title text of a marker line, trimmed. *)
Definition titleText (line : string) : string := trim (stripMarker line).

(** [titleText || "Panel"] *)
Definition panelTitle (line : string) : string :=
  if truthy (titleText line) then titleText line else "Panel".

(** [panels[i].markdownLines.push(line)] *)
Fixpoint pushLine (i : nat) (line : string) (ps : list panel) : list panel :=
  match ps, i with
  | [], _ => []
  | p :: ps', O => mkPanel (title p) (markdownLines p ++ [line]) :: ps'
  | p :: ps', S i' => p :: pushLine i' line ps'
  end.

Definition step (st : state) (line : string) : state :=
  if isMarker line then
    mkState (panels st ++ [mkPanel (panelTitle line) []])
            (Some (length (panels st)))
  else
    match currentPanel st with
    | Some i => mkState (pushLine i line (panels st)) (Some i)
    | None => st
    end.

Definition run (ls : list string) : list panel :=
  panels (fold_left step ls init).

End AccordionLoop.

Module QuizLoop.
Import Quiz.

Record state := mkState {
  choices       : list SingleChoice;
  currentChoice : option SingleChoice
}.

Definition init : state := mkState [] None.

Definition isQuestion (line : string) : bool := startsWith (trim line) "?".
Definition isCorrect (line : string) : bool := startsWith (trim line) "*".
Definition isWrong (line : string) : bool := startsWith (trim line) "-".

(** [trimmed.substring(1).trim()] *)
Definition markedText (line : string) : string :=
  trim (substring1 (trim line)).

Definition close (st : state) : list SingleChoice :=
  match currentChoice st with
  | Some c => choices st ++ [c]
  | None => choices st
  end.

Definition step (st : state) (line : string) : M state :=
  if isQuestion line then
    id <- uuidv4 ;;
    ret (mkState (close st) (Some (mkChoice (markedText line) [] id)))
  else
    match currentChoice st with
    | Some c =>
        if isCorrect line then
          (* answers.unshift(ans) *)
          ret (mkState (choices st)
                 (Some (mkChoice (question c)
                          (markedText line :: answers c)
                          (Quiz.subContentId c))))
        else if isWrong line then
          (* answers.push(ans) *)
          ret (mkState (choices st)
                 (Some (mkChoice (question c)
                          (answers c ++ [markedText line])
                          (Quiz.subContentId c))))
        else ret st
    | None => ret st
    end.

(** The loop, then the push of the question still open. *)
Definition run (ls : list string) : M (list SingleChoice) :=
  st <- foldM step ls init ;; ret (close st).

End QuizLoop.

(** ** Content builders *)

(** The double quote, for the HTML the builders emit. *)
Definition dq : string := String (ascii_of_nat 34) EmptyString.

(** [s || d] on strings. *)
Definition orElse (s d : string) : string := if truthy s then s else d.

Section Builders.

(** [marked.parse], of the package marked. *)
Variable marked_parse : string -> string.

(** [processHtmlContent]: the rewriting of [<img>] and [<table>] tags
    in the rendered HTML. *)
Variable processHtmlContent : string -> string.

Definition missingLibraryBanner (fallbackTitle : string) : string :=
  "<div style=" ++ dq ++
  "border:1px solid #e2e8f0; padding: 10px; background: #fff1f2; border-radius: 4px; color: #be123c; margin-bottom: 10px;"
  ++ dq ++ "><strong>Missing Library:</strong> " ++ fallbackTitle
  ++ "</div>".

Definition buildTextObject (markdown : string) (libs : LibraryVersions)
    (fallbackTitle : option string) : M H5PContentObject :=
  let parsed := marked_parse markdown in
  let htmlContent := processHtmlContent parsed in
  let htmlContent :=
    match fallbackTitle with
    | Some t =>
        if truthy t then missingLibraryBanner t ++ htmlContent
        else htmlContent
    | None => htmlContent
    end in
  id <- uuidv4 ;;
  ret (mkObject (text libs)
         (TextParams (orElse htmlContent "<p>&nbsp;</p>"))
         id (createMetadata "Text" "Text")).

(** The callback of [panels.map] in [buildAccordionObject]. *)
Definition processPanel (libs : LibraryVersions)
    (p : AccordionLoop.panel) : M Accordion.panel :=
  let parsedHtml :=
    marked_parse (join NL (AccordionLoop.markdownLines p)) in
  let finalHtml := processHtmlContent parsedHtml in
  id <- uuidv4 ;;
  ret (Accordion.mkPanel (AccordionLoop.title p)
         (mkObject (text libs) (orElse finalHtml "<p></p>") id
            (createMetadata "Panel Content" "Text"))).

Definition buildAccordionObject (ls : list string) (libs : LibraryVersions)
    : M (option H5PContentObject) :=
  match available (accordion libs) with
  | None => ret None
  | Some lib =>
      let panels := AccordionLoop.run ls in
      processedPanels <- mapM (processPanel libs) panels ;;
      id <- uuidv4 ;;
      ret (Some (mkObject lib
                   (AccordionParams
                      (Accordion.mkParams processedPanels "h2"))
                   id (createMetadata "Accordion" "Accordion")))
  end.

Definition quizBehaviour : Quiz.behaviour :=
  Quiz.mkBehaviour true true true 100 true 2000 3000.

Definition buildQuizObject (ls : list string) (libs : LibraryVersions)
    : M (option H5PContentObject) :=
  match available (singleChoice libs) with
  | None => ret None
  | Some lib =>
      choices <- QuizLoop.run ls ;;
      id <- uuidv4 ;;
      ret (Some (mkObject lib
                   (SingleChoiceSetParams
                      (Quiz.mkParams choices quizBehaviour))
                   id (createMetadata "Quiz" "Single Choice Set")))
  end.

Definition buildImageObject (line : string) (libs : LibraryVersions)
    : M (option H5PContentObject) :=
  match available (image libs) with
  | None => ret None
  | Some lib =>
      let altText :=
        match ImageRegex.exec line with
        | Some a => a
        | None => "Image"
        end in
      id <- uuidv4 ;;
      ret (Some (mkObject lib
                   (ImageParams
                      (Image.mkParams altText "Image"
                         (Image.mkFile "images/missing.jpg"
                                       "image/jpeg" "U")))
                   id (createMetadata "Image Placeholder" "Image")))
  end.

Definition buildVideoObject (libs : LibraryVersions)
    : M (option H5PContentObject) :=
  match available (video libs) with
  | None => ret None
  | Some lib =>
      id <- uuidv4 ;;
      ret (Some (mkObject lib
                   (VideoParams (Video.mkParams [] true true false false))
                   id (createMetadata "Video Placeholder" "Video")))
  end.

Definition buildBlanksObject (ls : list string) (libs : LibraryVersions)
    : M (option H5PContentObject) :=
  match available (blanks libs) with
  | None => ret None
  | Some lib =>
      let questions :=
        map (fun l => "<p>" ++ trim l ++ "</p>")
            (filter (fun l => negb (String.eqb (trim l) "")) ls) in
      id <- uuidv4 ;;
      ret (Some (mkObject lib
                   (BlanksParams
                      (Blanks.mkParams questions
                         (Blanks.mkBehaviour true true true false
                                             true false)))
                   id (createMetadata "Cloze Test" "Fill in the Blanks")))
  end.

Definition buildDragTextObject (ls : list string) (libs : LibraryVersions)
    : M (option H5PContentObject) :=
  match available (dragText libs) with
  | None => ret None
  | Some lib =>
      let textField := join NL ls in
      id <- uuidv4 ;;
      ret (Some (mkObject lib
                   (DragTextParams
                      (DragText.mkParams textField
                         "Drag the words into the correct boxes."
                         (DragText.mkBehaviour true true false)))
                   id (createMetadata "Drag Text" "Drag the Words")))
  end.

(** [contentObj] of one segment, with the text fallback where the
    builder returned [null]. *)
Definition orFallback (built : M (option H5PContentObject))
    (markdown fallbackTitle : string) (libs : LibraryVersions)
    : M H5PContentObject :=
  o <- built ;;
  match o with
  | Some obj => ret obj
  | None => buildTextObject markdown libs (Some fallbackTitle)
  end.

Definition buildSegment (libs : LibraryVersions) (segment : ContentBlock)
    : M H5PContentObject :=
  let ls := lines segment in
  match type segment with
  | Block.text => buildTextObject (join NL ls) libs None
  | Block.accordion =>
      orFallback (buildAccordionObject ls libs) (join NL ls)
                 "Accordion (Library missing)" libs
  | Block.quiz =>
      orFallback (buildQuizObject ls libs) (join NL ls)
                 "Quiz (Library missing)" libs
  | Block.image =>
      (* an image block holds one line *)
      orFallback (buildImageObject (hd EmptyString ls) libs)
                 (hd EmptyString ls) "Image (Library missing)" libs
  | Block.video =>
      orFallback (buildVideoObject libs) "[VIDEO PLACEHOLDER]"
                 "Video (Library missing)" libs
  | Block.fill =>
      orFallback (buildBlanksObject ls libs) (join NL ls)
                 "Fill in the Blanks (Library missing)" libs
  | Block.drag =>
      orFallback (buildDragTextObject ls libs) (join NL ls)
                 "Drag the Words (Library missing)" libs
  end.

Definition createChapterStructure (title markdownContent : string)
    (libs : LibraryVersions) : M Chapter :=
  let segments := parseChapterSegments markdownContent in
  contentObjs <- mapM (buildSegment libs) segments ;;
  let contentWrappers := map (fun o => mkWrapper o "auto") contentObjs in
  contentWrappers <-
    (if nonEmpty contentWrappers then ret contentWrappers
     else
       empty <- buildTextObject "<p>(Empty Chapter)</p>" libs None ;;
       ret [mkWrapper empty "auto"]) ;;
  id <- uuidv4 ;;
  ret (mkObject (column libs) contentWrappers id
         (createMetadata title "Column")).

End Builders.

(** ** Package assembly *)

(** The "Moodle fix" of [buildH5P]: delete the folder entries under
    [content/] from [zip.files], key by key. *)
Module Repair.

(** One call of the [forEach] callback.  A key of the snapshot is
    still in the table when its turn comes: a call deletes no key but
    its own. *)
Definition step (files : ZipFiles) (key : string) : ZipFiles :=
  match Zip.get key files with
  | Some e =>
      if startsWith key "content/" && endsWith key "/" && dir e
      then Zip.delete key files
      else files
  | None => files
  end.

Definition run (files : ZipFiles) : ZipFiles :=
  (* 1. Delete the main content folder entry if it exists *)
  let files1 :=
    match Zip.get "content/" files with
    | Some _ => Zip.delete "content/" files
    | None => files
    end in
  (* 2. Scan for any other folder entries inside content *)
  fold_left step (Zip.keys files1) files1.

End Repair.

(** What [buildH5P] throws. *)
Inductive BuildError :=
| NoChaptersFound (message : string)
| TemplateUnreadable.

Section Build.

Variable marked_parse : string -> string.
Variable processHtmlContent : string -> string.

(** The fields of [content/content.json] other than [chapters]. *)
Variable Extra : Type.
(** [{ chapters: [] }] has none. *)
Variable noExtra : Extra.
(** [JSON.parse] of the template's content document; [None] where it
    throws, and otherwise the fields of the object it returns. *)
Variable parseContent : string -> option Extra.
(** [JSON.stringify(contentJson)] *)
Variable stringifyContent : list Chapter -> Extra -> string.
(** [JSON.parse] of [h5p.json], then [preloadedDependencies || []];
    [None] where it throws. *)
Variable parseManifest : string -> option (list H5PDependency).
(** JSZip's [zip.file(name, data)]. *)
Variable zip_file : string -> string -> ZipFiles -> ZipFiles.
(** The bytes of the placeholder image. *)
Variable dummyImage : string.

(** JSZip's [zip.file(name)]: the entry, unless it is a folder. *)
Definition zip_read (name : string) (zip : ZipFiles) : option string :=
  match Zip.get name zip with
  | Some e => if dir e then None else Some (data e)
  | None => None
  end.

(** [buildH5P], from the text of the Markdown file and the entries of
    the loaded template to the entries handed to [generateAsync]. *)
Definition buildH5P (text : string) (zip : ZipFiles)
    : M (BuildError + ZipFiles) :=
  (* 1. Parse Markdown *)
  let chaptersData := splitChapters text in
  if nonEmpty chaptersData then
    (* 3. Parse h5p.json *)
    match option_map parseManifest (zip_read "h5p.json" zip) with
    | Some (Some deps) =>
        (* 4. Resolve versions *)
        let libs := resolveLibs zip deps in
        (* 5. Generate Content *)
        let extra :=
          match option_map parseContent
                  (zip_read "content/content.json" zip) with
          | Some (Some e) => e
          | _ => noExtra
          end in
        chapters <-
          mapM (fun ch =>
                  createChapterStructure marked_parse processHtmlContent
                    (title ch) (content ch) libs)
               chaptersData ;;
        (* 6. Inject into Zip *)
        let contentJsonString := stringifyContent chapters extra in
        let zip1 := zip_file "content/content.json" contentJsonString zip in
        let zip2 :=
          if includes contentJsonString "images/missing.jpg"
          then zip_file "content/images/missing.jpg" dummyImage zip1
          else zip1 in
        ret (inr (Repair.run zip2))
    | _ => ret (inl TemplateUnreadable)
    end
  else
    ret (inl (NoChaptersFound
                "No chapters found. Use '# Chapter Title' to create pages.")).

End Build.

(** ** File names: the upload check and the name of the package *)

(** [toLowerCase] on one code unit below 256: the letters A to Z and
    the capital letters of Latin-1, the multiplication sign apart. *)
Definition lowerChar (c : ascii) : ascii :=
  let n := code c in
  if (((65 <=? n) && (n <=? 90))
      || ((192 <=? n) && (n <=? 222) && negb (n =? 215)))%nat
  then ascii_of_nat (n + 32)
  else c.

(** [s.toLowerCase()] *)
Fixpoint toLowerCase (s : string) : string :=
  match s with
  | EmptyString => EmptyString
  | String c r => String (lowerChar c) (toLowerCase r)
  end.

(** The whole string matches [/\.md/i]. *)
Definition isDotMd (s : string) : bool :=
  match s with
  | String a (String b (String c EmptyString)) =>
      Ascii.eqb a "."
      && (Ascii.eqb b "m" || Ascii.eqb b "M")
      && (Ascii.eqb c "d" || Ascii.eqb c "D")
  | _ => false
  end.

(** [name.replace(/\.md$/i, '')]: the pattern matches at the end of the
    name only. *)
Fixpoint stripMd (s : string) : string :=
  if isDotMd s then EmptyString
  else match s with
       | EmptyString => EmptyString
       | String c r => String c (stripMd r)
       end.

(** The name [buildH5P] saves the package under. *)
Definition outputName (name : string) : string := stripMd name ++ ".h5p".

(** The file chooser of [FileUpload]. *)
Module Upload.

Record File := mkFile { name : string; contents : string }.

(** The state of the component that [validateAndSetFile] writes. *)
Record state := mkState {
  error        : option string;
  selectedFile : option File
}.

(** [validateAndSetFile]: the state it sets, and the file it hands to
    [onFileSelect], if any. *)
Definition validateAndSetFile (file : File) : state * option File :=
  if negb (endsWith (toLowerCase (name file)) ".md") then
    (mkState (Some "Please upload a .md (Markdown) file.") None, None)
  else
    (mkState None (Some file), Some file).

End Upload.

(** ** Vocabulary of the statements *)

(** A line that is empty once trimmed. *)
Definition isBlank (line : string) : bool := String.eqb (trim line) "".

(** The lines up to the next heading. *)
Fixpoint untilHeading (ls : list string) : list string :=
  match ls with
  | [] => []
  | l :: ls' => if Splitter.isHeading l then [] else l :: untilHeading ls'
  end.

(** Every character of the string is white space. *)
Fixpoint allWs (s : string) : bool :=
  match s with
  | EmptyString => true
  | String c r => is_ws c && allWs r
  end.

(** A sentinel tag line of the segmentation parser. *)
Definition isTag (line : string) : bool :=
  let trimmed := trim line in
  String.eqb trimmed "[ACCORDION]" || String.eqb trimmed "[QUIZ]"
  || String.eqb trimmed "[VIDEO]" || String.eqb trimmed "[FILL]"
  || String.eqb trimmed "[DRAG]" || String.eqb trimmed "[TEXT]".

(** The lines up to the next sentinel tag. *)
Fixpoint untilTag (ls : list string) : list string :=
  match ls with
  | [] => []
  | l :: ls' => if isTag l then [] else l :: untilTag ls'
  end.

(** The lines from the next sentinel tag on. *)
Fixpoint fromTag (ls : list string) : list string :=
  match ls with
  | [] => []
  | l :: ls' => if isTag l then ls else fromTag ls'
  end.

(** What the parser guarantees of a block it has emitted: a text block
    has a line that is not blank, an image block has one line. *)
Definition wellFormedBlock (b : ContentBlock) : Prop :=
  match type b with
  | Block.text => Segments.hasContent (lines b) = true
  | Block.image => length (lines b) = 1
  | _ => True
  end.

(** The invariant of the parser's loop: the current kind is never
    [image], and the blocks emitted so far are well formed. *)
Definition parserInvariant (st : Segments.state) : Prop :=
  Segments.currentType st <> Block.image
  /\ Forall wellFormedBlock (Segments.blocks st).

(** The archive library's rule for entry names: an entry whose name
    ends in [/] is a folder and carries the [dir] flag.  JSZip sets the
    flag on such entries when it loads an archive and when it creates
    the folders of a file it is given. *)
Definition foldersAreMarked (files : ZipFiles) : bool :=
  forallb (fun p => implb (endsWith (fst p) "/") (dir (snd p))) files.

(** The entries the repair deletes in its scan. *)
Definition isContentFolder (key : string) (e : ZipObject) : bool :=
  startsWith key "content/" && endsWith key "/" && dir e.

(** The texts of the correct ([*]) and of the wrong ([-]) answer lines
    among the lines of a question, in source order. *)
Definition correctTexts (body : list string) : list string :=
  map QuizLoop.markedText (filter QuizLoop.isCorrect body).

Definition wrongTexts (body : list string) : list string :=
  map QuizLoop.markedText (filter QuizLoop.isWrong body).

(** The number of question lines. *)
Definition countQuestions (ls : list string) : nat :=
  length (filter QuizLoop.isQuestion ls).

(** No line of the list opens a question. *)
Definition noQuestion (ls : list string) : bool :=
  forallb (fun l => negb (QuizLoop.isQuestion l)) ls.

(** The list is empty or starts with a question line: a question ends
    here. *)
Definition questionEnds (post : list string) : bool :=
  match post with
  | [] => true
  | l :: _ => QuizLoop.isQuestion l
  end.

(** The choices of a built quiz object. *)
Definition quizChoices (o : H5PContentObject) : list Quiz.SingleChoice :=
  match params o with
  | SingleChoiceSetParams p => Quiz.choices p
  | _ => []
  end.

(** No line of the list is a panel marker. *)
Definition noMarker (ls : list string) : bool :=
  forallb (fun l => negb (AccordionLoop.isMarker l)) ls.

(** The title that a marker line which starts with its plus signs asks
    for: the text after them, trimmed, or "Panel" where nothing but
    white space follows them. *)
Definition markerTitle (line : string) : string :=
  if allWs (AccordionLoop.skipPlus line) then "Panel"
  else trim (AccordionLoop.skipPlus line).

(** The panels of a built accordion object. *)
Definition accordionPanels (o : H5PContentObject) : list Accordion.panel :=
  match params o with
  | AccordionParams p => Accordion.panels p
  | _ => []
  end.

(** A line of the image syntax. *)
Definition isImageLine (line : string) : bool :=
  ImageRegex.test (trim line).

(** The title of the implicit chapter, when the first line of the
    document opens one. *)
Definition implicitTitle (first : string) : list string :=
  if Splitter.isHeading first then [] else ["Introduction"].

(** The titles the heading lines give, in source order. *)
Definition headingTitles (ls : list string) : list string :=
  map Splitter.headingTitle (filter Splitter.isHeading ls).

(** No heading among the lines. *)
Definition noHeading (ls : list string) : bool :=
  forallb (fun l => negb (Splitter.isHeading l)) ls.

(** The string holds neither a carriage return nor a line feed. *)
Fixpoint noLineEnd (s : string) : bool :=
  match s with
  | EmptyString => true
  | String c r => negb (is_lt c) && noLineEnd r
  end.

(** What every block of the parser's output is: it holds a line; an
    image block holds one line of the image syntax; a block of another
    kind holds no sentinel tag line. *)
Definition soundBlock (b : ContentBlock) : Prop :=
  lines b <> []
  /\ match type b with
     | Block.image => exists l, lines b = [l] /\ ImageRegex.test l = true
     | _ => forallb (fun l => negb (isTag l)) (lines b) = true
     end.

(** The loop of the parser keeps its blocks sound and no tag line among
    the lines it is gathering. *)
Definition soundState (st : Segments.state) : Prop :=
  Segments.currentType st <> Block.image
  /\ forallb (fun l => negb (isTag l)) (Segments.currentLines st) = true
  /\ Forall soundBlock (Segments.blocks st).

(** A line that is neither a sentinel tag nor of the image syntax. *)
Definition isPlainLine (line : string) : bool :=
  negb (isTag line) && negb (isImageLine line).

(** Every character of the string passes the test. *)
Fixpoint allChars (P : ascii -> bool) (s : string) : bool :=
  match s with
  | EmptyString => true
  | String c r => P c && allChars P r
  end.

(** The characters of a version: digits and the dot. *)
Definition isVersionChar (c : ascii) : bool :=
  is_digit c || Ascii.eqb c ".".

Definition versionChars (s : string) : bool := allChars isVersionChar s.

Definition allDigits (s : string) : bool := allChars is_digit s.

(** The string holds no [/]. *)
Definition noSlash (s : string) : bool :=
  allChars (fun c => negb (Ascii.eqb c "/")) s.

(** The manifest declares the library. *)
Definition declared (deps : list H5PDependency) (name : string)
    : option H5PDependency :=
  find (fun d => String.eqb (machineName d) name) deps.

(** The first archive path the resolver takes for a folder of the
    library. *)
Definition folderPath (zip : ZipFiles) (name : string) : option string :=
  find (fun path => startsWith path (name ++ "-") && includes path "/")
       (Zip.keys zip).

(** The entries the repair removes: the entry [content/] itself and the
    folder entries under it. *)
Definition isRemoved (p : string * ZipObject) : bool :=
  String.eqb (fst p) "content/" || isContentFolder (fst p) (snd p).

(** The lines after the first panel marker. *)
Fixpoint afterFirstMarker (ls : list string) : list string :=
  match ls with
  | [] => []
  | l :: ls' => if AccordionLoop.isMarker l then ls' else afterFirstMarker ls'
  end.

(** The string holds no closing square bracket. *)
Definition noCloseBracket (s : string) : bool :=
  allChars (fun c => negb (Ascii.eqb c "]")) s.

(** The parameters of a built image object. *)
Definition imageParams (o : H5PContentObject) : option Image.params :=
  match params o with
  | ImageParams p => Some p
  | _ => None
  end.

(** The questions of a built fill-in-the-blanks object. *)
Definition blanksQuestions (o : H5PContentObject) : list string :=
  match params o with
  | BlanksParams p => Blanks.questions p
  | _ => []
  end.

(** The HTML of a text object. *)
Definition textHtml (o : H5PContentObject) : option string :=
  match params o with
  | TextParams html => Some html
  | _ => None
  end.

(** * Properties *)

(** ** String primitives *)

Lemma isEmpty_true s : isEmpty s = true -> s = "".
Proof. destruct s; [reflexivity | discriminate]. Qed.

Lemma trimEnd_empty s : isEmpty (trimEnd s) = allWs s.
Proof.
  induction s as [|c r IH]; simpl; [reflexivity|].
  rewrite IH. destruct (is_ws c), (allWs r); reflexivity.
Qed.

Lemma allWs_trimStart s : allWs (trimStart s) = allWs s.
Proof.
  induction s as [|c r IH]; simpl; [reflexivity|].
  destruct (is_ws c) eqn:E; simpl; [exact IH | rewrite E; reflexivity].
Qed.

Lemma trim_empty s : isEmpty (trim s) = allWs s.
Proof. unfold trim. rewrite trimEnd_empty. apply allWs_trimStart. Qed.

Lemma trimStart_idem s : trimStart (trimStart s) = trimStart s.
Proof.
  induction s as [|c r IH]; simpl; [reflexivity|].
  destruct (is_ws c) eqn:E; [exact IH | simpl; rewrite E; reflexivity].
Qed.

Lemma split_nonEmpty sep s : nonEmpty (split sep s) = true.
Proof.
  destruct s as [|c r]; simpl; [reflexivity|].
  destruct (Ascii.eqb c sep); [reflexivity|].
  destruct (split sep r); reflexivity.
Qed.

Lemma linesOf_nonEmpty text : nonEmpty (linesOf text) = true.
Proof. apply split_nonEmpty. Qed.

Lemma isBlank_spec l : isBlank l = true <-> trim l = "".
Proof. unfold isBlank. apply String.eqb_eq. Qed.

(** ** Chapter splitter *)

Module SplitterFacts.
Import Splitter.

Lemma blank_not_heading l : isBlank l = true -> isHeading l = false.
Proof.
  intros H. apply isBlank_spec in H. unfold isHeading. rewrite H.
  reflexivity.
Qed.

(** Lines that are no headings only accumulate. *)
Lemma run_body ls : forall st,
  forallb (fun l => negb (isHeading l)) ls = true ->
  fold_left step ls st =
    mkState (chaptersData st) (currentTitle st)
            (currentLines st ++ ls) (isImplicit st).
Proof.
  induction ls as [|l ls IH]; intros st H; simpl.
  - rewrite app_nil_r. destruct st; reflexivity.
  - simpl in H. apply andb_prop in H as [Hl Hls].
    rewrite IH by exact Hls. unfold step.
    apply negb_true_iff in Hl. rewrite Hl. simpl.
    rewrite <- app_assoc. reflexivity.
Qed.

(** The chapters already pushed stay, in place. *)
Lemma step_extends st l :
  exists ext, chaptersData (step st l) = (chaptersData st ++ ext)%list.
Proof.
  unfold step. destruct (isHeading l); simpl.
  - destruct (truthy (currentTitle st) &&
              (nonEmpty (currentLines st) || negb (isImplicit st))).
    + unfold pushChapter. eexists. reflexivity.
    + exists []. rewrite app_nil_r. reflexivity.
  - exists []. rewrite app_nil_r. reflexivity.
Qed.

Lemma run_extends ls : forall st,
  exists ext,
    chaptersData (fold_left step ls st) = (chaptersData st ++ ext)%list.
Proof.
  induction ls as [|l ls IH]; intros st; simpl.
  - exists []. rewrite app_nil_r. reflexivity.
  - destruct (IH (step st l)) as [e1 H1].
    destruct (step_extends st l) as [e2 H2].
    exists (e2 ++ e1)%list. rewrite H1, H2, app_assoc. reflexivity.
Qed.

Lemma finish_extends st :
  exists ext, finish st = (chaptersData st ++ ext)%list.
Proof.
  unfold finish.
  destruct (truthy (currentTitle st) && nonEmpty (currentLines st)).
  - unfold pushChapter. eexists. reflexivity.
  - exists []. rewrite app_nil_r. reflexivity.
Qed.

(** Off a line that does not start with [#] and white space,
    [stripHash] takes nothing. *)
Lemma stripHash_other a r :
  Ascii.eqb a "#" = false -> stripHash (String a r) = String a r.
Proof.
  intros H. unfold stripHash.
  destruct a as [[] [] [] [] [] [] [] []]; try reflexivity.
  discriminate H.
Qed.

(** A heading never has an empty title. *)
Lemma headingTitle_truthy h :
  isHeading h = true -> truthy (headingTitle h) = true.
Proof.
  unfold isHeading, headingTitle, truthy. intros H.
  assert (Hwhole : negb (isEmpty (trim h)) = true).
  { destruct (trim h); [discriminate H | reflexivity]. }
  destruct h as [|a r]; [exact Hwhole|].
  destruct (Ascii.eqb a "#") eqn:Ea;
    [|rewrite stripHash_other by exact Ea; exact Hwhole].
  apply Ascii.eqb_eq in Ea. subst a.
  destruct r as [|c r']; [exact Hwhole|].
  unfold stripHash.
  destruct (is_ws c) eqn:Ec; [|exact Hwhole].
  (* the title is what follows the white space, and is not all white *)
  rewrite trim_empty, allWs_trimStart.
  unfold trim in H. simpl in H. rewrite Ec in H. simpl in H.
  destruct (isEmpty (trimEnd r')) eqn:Er; simpl in H; [discriminate H|].
  simpl. rewrite Ec, <- trimEnd_empty, Er. reflexivity.
Qed.

End SplitterFacts.

Module SplitterRun.
Import Splitter SplitterFacts.

(** A document without headings is one implicit chapter. *)
Lemma run_no_heading ls :
  nonEmpty ls = true ->
  forallb (fun l => negb (isHeading l)) ls = true ->
  run ls = [mkChapterData "Introduction" (join NL ls)].
Proof.
  intros Hne Hno. unfold run.
  assert (Hinit : init ls = mkState [] "Introduction" [] true).
  { destruct ls as [|l0 ls']; [reflexivity|]. simpl in Hno.
    apply andb_prop in Hno as [H0 _]. apply negb_true_iff in H0.
    simpl. rewrite H0. reflexivity. }
  rewrite Hinit, run_body by exact Hno. simpl.
  unfold finish. simpl. rewrite Hne. reflexivity.
Qed.

(** From an explicit chapter with a title, the first chapter pushed is
    that one, with the lines up to the next heading. *)
Lemma run_from_heading t rest : forall acc,
  truthy t = true ->
  nonEmpty acc || nonEmpty rest = true ->
  exists more,
    finish (fold_left step rest (mkState [] t acc false)) =
      mkChapterData t (join NL (acc ++ untilHeading rest)) :: more.
Proof.
  induction rest as [|l rest IH]; intros acc Ht Hne.
  - simpl in *. rewrite orb_false_r in Hne.
    unfold finish. simpl. rewrite Ht, Hne. simpl.
    rewrite app_nil_r. exists []. reflexivity.
  - simpl. unfold step at 2. destruct (isHeading l) eqn:Hl; simpl.
    + rewrite Ht, orb_true_r. simpl. rewrite app_nil_r.
      unfold pushChapter. simpl.
      match goal with
      | |- context [fold_left step rest ?s] =>
          destruct (run_extends rest s) as [e1 H1];
          destruct (finish_extends (fold_left step rest s)) as [e2 H2]
      end.
      rewrite H2, H1. simpl. eexists. reflexivity.
    + destruct (IH (acc ++ [l])%list Ht) as [more Hmore].
      { destruct acc; reflexivity. }
      exists more. rewrite Hmore, <- app_assoc. reflexivity.
Qed.

(** Lines before the first heading make the implicit chapter. *)
Lemma run_leading_lines pre h rest :
  nonEmpty pre = true ->
  forallb (fun l => negb (isHeading l)) pre = true ->
  isHeading h = true ->
  exists more,
    run (pre ++ h :: rest) =
      mkChapterData "Introduction" (join NL pre) :: more.
Proof.
  intros Hne Hno Hh. unfold run.
  assert (Hinit : init (pre ++ h :: rest) =
                  mkState [] "Introduction" [] true).
  { destruct pre as [|l0 pre']; [discriminate Hne|]. simpl in Hno.
    apply andb_prop in Hno as [H0 _]. apply negb_true_iff in H0.
    simpl. rewrite H0. reflexivity. }
  rewrite Hinit, fold_left_app, (run_body pre) by exact Hno. simpl.
  unfold step at 2. rewrite Hh. simpl. rewrite Hne. simpl.
  match goal with
  | |- context [fold_left step rest ?s] =>
      destruct (run_extends rest s) as [e1 H1];
      destruct (finish_extends (fold_left step rest s)) as [e2 H2]
  end.
  rewrite H2, H1. unfold pushChapter. simpl. eexists. reflexivity.
Qed.

End SplitterRun.

(** C1 (amended).  A document whose lines are all blank, and which so
    holds no level-1 heading, is not rejected: the chapter splitter
    returns exactly one chapter, the implicit one titled "Introduction",
    whose content is the lines of the document joined by newlines, and
    [buildH5P] does not throw the no-chapters error. *)
Theorem blank_document_is_one_introduction_chapter :
  forall text : string,
    forallb isBlank (linesOf text) = true ->
    splitChapters text =
      [mkChapterData "Introduction" (join NL (linesOf text))]
    /\ forall marked_parse processHtmlContent (Extra : Type) noExtra
              parseContent stringifyContent parseManifest zip_file
              dummyImage zip n message,
         fst (buildH5P marked_parse processHtmlContent Extra noExtra
                parseContent stringifyContent parseManifest zip_file
                dummyImage text zip n)
         <> inl (NoChaptersFound message).
Proof.
  intros text Hblank.
  assert (Hsplit : splitChapters text =
                   [mkChapterData "Introduction" (join NL (linesOf text))]).
  { unfold splitChapters. apply SplitterRun.run_no_heading.
    - apply linesOf_nonEmpty.
    - rewrite forallb_forall in *. intros l Hl.
      rewrite (SplitterFacts.blank_not_heading l (Hblank l Hl)).
      reflexivity. }
  split; [exact Hsplit|].
  intros. unfold buildH5P. rewrite Hsplit. cbv beta iota delta [nonEmpty].
  destruct (option_map parseManifest (zip_read "h5p.json" zip))
    as [[deps|]|]; try (simpl; discriminate).
  unfold bind.
  match goal with |- context [mapM ?f ?l n] => destruct (mapM f l n) end.
  simpl. discriminate.
Qed.

Lemma blank_document_is_one_introduction_chapter_witness :
  splitChapters (NL ++ "  ") =
    [mkChapterData "Introduction" (NL ++ "  ")].
Proof.
  apply (blank_document_is_one_introduction_chapter (NL ++ "  ")).
  reflexivity.
Defined.

(** C1, as stated, fails on the empty document: its one line is blank
    and is no heading, yet the splitter returns a chapter and the build
    goes on to return an archive. *)
Lemma empty_document_is_not_rejected :
  forallb isBlank (linesOf "") = true
  /\ forallb (fun l => negb (Splitter.isHeading l)) (linesOf "") = true
  /\ splitChapters "" = [mkChapterData "Introduction" ""]
  /\ splitChapters "" <> []
  /\ exists files,
       fst (buildH5P (fun s => s) (fun s => s) unit tt (fun _ => Some tt)
              (fun _ _ => "{}") (fun _ => Some [])
              (fun name bytes z => (z ++ [(name, mkZipObject false bytes)])%list)
              "" "" [("h5p.json", mkZipObject false "{}")] 0)
       = inr files.
Proof.
  repeat split; try reflexivity; try discriminate.
  eexists. vm_compute. reflexivity.
Qed.

(** C4 (amended).  When the very first line of the document is a
    level-1 heading and at least one line follows it, no implicit
    chapter is emitted: the first chapter is the one that heading
    introduces, titled by it and holding the lines up to the next
    heading.  When lines that are no headings, blank or not, come before
    the first heading, the first chapter is the implicit one, titled
    "Introduction" and holding those lines. *)
Theorem first_chapter_of_document :
  (forall text h rest,
     linesOf text = h :: rest ->
     Splitter.isHeading h = true ->
     rest <> [] ->
     exists more,
       splitChapters text =
         mkChapterData (Splitter.headingTitle h)
                       (join NL (untilHeading rest)) :: more)
  /\
  (forall text pre h rest,
     linesOf text = (pre ++ h :: rest)%list ->
     pre <> [] ->
     forallb (fun l => negb (Splitter.isHeading l)) pre = true ->
     Splitter.isHeading h = true ->
     exists more,
       splitChapters text =
         mkChapterData "Introduction" (join NL pre) :: more).
Proof.
  split.
  - intros text h rest Hlines Hh Hrest.
    unfold splitChapters, Splitter.run. rewrite Hlines. simpl.
    rewrite Hh. unfold Splitter.step at 2. rewrite Hh. simpl.
    destruct (SplitterRun.run_from_heading (Splitter.headingTitle h) rest [])
      as [more Hmore].
    + apply SplitterFacts.headingTitle_truthy, Hh.
    + destruct rest; [contradiction | reflexivity].
    + exists more. exact Hmore.
  - intros text pre h rest Hlines Hpre Hno Hh.
    unfold splitChapters. rewrite Hlines.
    apply SplitterRun.run_leading_lines; try assumption.
    destruct pre; [contradiction | reflexivity].
Qed.

Lemma first_chapter_of_document_witness :
  (exists more,
     splitChapters ("# A" ++ NL ++ "x" ++ NL ++ "# B") =
       mkChapterData "A" "x" :: more)
  /\
  (exists more,
     splitChapters (NL ++ "# A" ++ NL ++ "x") =
       mkChapterData "Introduction" "" :: more).
Proof.
  split.
  - apply (proj1 first_chapter_of_document
             ("# A" ++ NL ++ "x" ++ NL ++ "# B") "# A" ["x"; "# B"]).
    + reflexivity.
    + reflexivity.
    + discriminate.
  - apply (proj2 first_chapter_of_document
             (NL ++ "# A" ++ NL ++ "x") [""] "# A" ["x"]).
    + reflexivity.
    + discriminate.
    + reflexivity.
    + reflexivity.
Defined.

(** C4, as stated, fails when a blank line precedes the heading: the
    first non-blank line is the heading [# A], yet the first chapter is
    the implicit "Introduction". *)
Lemma blank_line_before_heading_makes_introduction :
  linesOf (NL ++ "# A" ++ NL ++ "x") = [""; "# A"; "x"]
  /\ isBlank "" = true
  /\ Splitter.isHeading "# A" = true
  /\ splitChapters (NL ++ "# A" ++ NL ++ "x") =
       [mkChapterData "Introduction" ""; mkChapterData "A" "x"].
Proof. repeat split; reflexivity. Qed.

(** ** Segmentation parser *)

Module SegmentsFacts.
Import Segments.

(** What [step] does on a line that is no tag. *)
Lemma step_not_tag st line :
  isTag line = false ->
  step st line =
    if isImageLine line && Block.isText (currentType st) then
      mkState (blocks (flush st Block.text)
                 ++ [mkBlock Block.image [trim line]]) [] Block.text
    else mkState (blocks st) (currentLines st ++ [line]) (currentType st).
Proof.
  unfold isTag, step, isImageLine. cbv zeta. intros H.
  repeat (apply orb_false_elim in H as [H ?]).
  repeat match goal with E : String.eqb _ _ = false |- _ =>
    rewrite E; clear E end.
  reflexivity.
Qed.

(** What [step] does on a tag. *)
Lemma step_tag line :
  isTag line = true ->
  exists k, k <> Block.image /\ forall st, step st line = flush st k.
Proof.
  unfold isTag, step. cbv zeta. intros H.
  destruct (String.eqb (trim line) "[ACCORDION]");
    [exists Block.accordion; split; [discriminate | reflexivity]|].
  destruct (String.eqb (trim line) "[QUIZ]");
    [exists Block.quiz; split; [discriminate | reflexivity]|].
  destruct (String.eqb (trim line) "[VIDEO]");
    [exists Block.video; split; [discriminate | reflexivity]|].
  destruct (String.eqb (trim line) "[FILL]");
    [exists Block.fill; split; [discriminate | reflexivity]|].
  destruct (String.eqb (trim line) "[DRAG]");
    [exists Block.drag; split; [discriminate | reflexivity]|].
  destruct (String.eqb (trim line) "[TEXT]");
    [exists Block.text; split; [discriminate | reflexivity]|].
  discriminate H.
Qed.

(** A tag is no image line: it starts with a bracket. *)
Lemma tag_not_image line : isTag line = true -> isImageLine line = false.
Proof.
  unfold isTag, isImageLine. cbv zeta. intros H.
  repeat (apply orb_prop in H as [H|H]);
    apply String.eqb_eq in H; rewrite H; reflexivity.
Qed.

Lemma flush_extends st k :
  exists ext, blocks (flush st k) = (blocks st ++ ext)%list.
Proof.
  unfold flush. simpl.
  destruct (nonEmpty (currentLines st));
    [destruct (negb (Block.isText (currentType st))
               || hasContent (currentLines st))|];
    try (exists []; rewrite app_nil_r; reflexivity).
  eexists. reflexivity.
Qed.

(** The blocks of a state are a prefix the parser carries along: a run
    from [B] is [B] followed by the run from no blocks. *)
Lemma flush_prefix B L k k' :
  flush (mkState B L k) k' =
    mkState (B ++ blocks (flush (mkState [] L k) k'))
            (currentLines (flush (mkState [] L k) k'))
            (currentType (flush (mkState [] L k) k')).
Proof.
  unfold flush. simpl.
  destruct (nonEmpty L); [destruct (negb (Block.isText k) || hasContent L)|];
    simpl; rewrite ?app_nil_r; reflexivity.
Qed.

Lemma step_prefix B L k line :
  step (mkState B L k) line =
    mkState (B ++ blocks (step (mkState [] L k) line))
            (currentLines (step (mkState [] L k) line))
            (currentType (step (mkState [] L k) line)).
Proof.
  destruct (isTag line) eqn:Ht.
  - destruct (step_tag line Ht) as [k1 [_ H1]].
    rewrite !H1. apply flush_prefix.
  - rewrite !step_not_tag by exact Ht.
    cbn [blocks currentLines currentType].
    destruct (isImageLine line && Block.isText k);
      cbn [blocks currentLines currentType].
    + rewrite flush_prefix. cbn [blocks currentLines currentType].
      rewrite app_assoc. reflexivity.
    + rewrite app_nil_r. reflexivity.
Qed.

End SegmentsFacts.

Module SegmentsRun.
Import Segments SegmentsFacts.

Lemma run_prefix ls : forall B L k,
  run (mkState B L k) ls =
    mkState (B ++ blocks (run (mkState [] L k) ls))
            (currentLines (run (mkState [] L k) ls))
            (currentType (run (mkState [] L k) ls)).
Proof.
  unfold run.
  induction ls as [|l ls IH]; intros B L k; simpl.
  - rewrite app_nil_r. reflexivity.
  - rewrite step_prefix.
    destruct (step (mkState [] L k) l) as [B1 L1 k1].
    cbn [blocks currentLines currentType].
    rewrite IH, (IH B1). cbn [blocks currentLines currentType].
    rewrite app_assoc. reflexivity.
Qed.

(** The output from a state with blocks [B]. *)
Lemma parse_from B L k ls :
  blocks (flush (run (mkState B L k) ls) Block.text) =
    (B ++ blocks (flush (run (mkState [] L k) ls) Block.text))%list.
Proof.
  rewrite run_prefix.
  destruct (run (mkState [] L k) ls) as [B1 L1 k1].
  cbn [blocks currentLines currentType].
  rewrite (flush_prefix (B ++ B1)), (flush_prefix B1). cbn [blocks].
  rewrite app_assoc. reflexivity.
Qed.

Lemma not_text_isText k : k <> Block.text -> Block.isText k = false.
Proof. destruct k; intros H; try reflexivity. contradiction. Qed.

(** Outside text, lines pile up until the next tag closes the block;
    what follows is parsed as from the start. *)
Lemma parse_open_block k : k <> Block.text ->
  forall post B L,
    nonEmpty L = true ->
    blocks (flush (run (mkState B L k) post) Block.text) =
      (B ++ mkBlock k (L ++ untilTag post) :: parseLines (fromTag post))%list.
Proof.
  intros Hk. pose proof (not_text_isText k Hk) as Hk'.
  induction post as [|l post IH]; intros B L HL.
  - unfold run, flush. simpl. rewrite HL, Hk'. simpl.
    rewrite app_nil_r. reflexivity.
  - unfold run in *. simpl fold_left. simpl untilTag. simpl fromTag.
    destruct (isTag l) eqn:Ht.
    + destruct (step_tag l Ht) as [k' [_ Hstep]].
      unfold parseLines, run. simpl fold_left. rewrite !Hstep.
      unfold flush at 2. cbn [blocks currentLines currentType].
      rewrite HL, Hk'. cbn [negb orb].
      pose proof (parse_from (B ++ [mkBlock k L]) [] k' post) as P.
      unfold run in P. rewrite P. rewrite app_nil_r, <- app_assoc.
      reflexivity.
    + rewrite step_not_tag by exact Ht.
      cbn [blocks currentLines currentType]. rewrite Hk', andb_false_r.
      rewrite IH by (destruct L; reflexivity).
      rewrite <- app_assoc. reflexivity.
Qed.

Lemma flush_inv st k : k <> Block.image -> parserInvariant st -> parserInvariant (flush st k).
Proof.
  intros Hk [Hty Hbl]. split; [exact Hk|].
  unfold flush. cbn [blocks].
  destruct (nonEmpty (currentLines st)); [|exact Hbl].
  destruct (negb (Block.isText (currentType st))
            || hasContent (currentLines st)) eqn:E; [|exact Hbl].
  apply Forall_app. split; [exact Hbl|].
  constructor; [|constructor].
  unfold wellFormedBlock. cbn [type lines].
  destruct (currentType st); try exact I.
  - exact E.
  - contradiction.
Qed.

Lemma step_inv st l : parserInvariant st -> parserInvariant (step st l).
Proof.
  intros Hinv. destruct (isTag l) eqn:Ht.
  - destruct (step_tag l Ht) as [k [Hk Hstep]]. rewrite Hstep.
    apply flush_inv; assumption.
  - rewrite step_not_tag by exact Ht.
    destruct (isImageLine l && Block.isText (currentType st)).
    + split; [discriminate|]. cbn [blocks].
      apply Forall_app. split.
      * apply (flush_inv st Block.text); [discriminate | exact Hinv].
      * constructor; [reflexivity | constructor].
    + destruct Hinv as [Hty Hbl]. split; assumption.
Qed.

Lemma run_inv ls : forall st, parserInvariant st -> parserInvariant (run st ls).
Proof.
  unfold run. induction ls as [|l ls IH]; intros st H; simpl.
  - exact H.
  - apply IH, step_inv, H.
Qed.

Lemma parseLines_wellFormed ls : Forall wellFormedBlock (parseLines ls).
Proof.
  unfold parseLines.
  apply (flush_inv (run init ls) Block.text); [discriminate|].
  apply run_inv. split; [discriminate | constructor].
Qed.

End SegmentsRun.

(** C7.  An image line met while the parser's current kind is [text]
    flushes the text block gathered so far, emits an image block holding
    that one line (trimmed), and the lines after it are parsed as from a
    fresh text block.  An image line met while the current kind is not
    [text] is appended to the current block like any other line: the
    block of that kind is emitted with the line in it, up to the next
    tag, and no image block stands for it.  Every image block of the
    output holds exactly one line. *)
Theorem image_line_in_text_and_elsewhere :
  (forall markdown pre line post,
     linesOf markdown = (pre ++ line :: post)%list ->
     isImageLine line = true ->
     Segments.currentType (Segments.run Segments.init pre) = Block.text ->
     parseChapterSegments markdown =
       (Segments.blocks
          (Segments.flush (Segments.run Segments.init pre) Block.text)
        ++ mkBlock Block.image [trim line]
        :: Segments.parseLines post)%list)
  /\
  (forall markdown pre line post,
     linesOf markdown = (pre ++ line :: post)%list ->
     isImageLine line = true ->
     Segments.currentType (Segments.run Segments.init pre) <> Block.text ->
     parseChapterSegments markdown =
       (Segments.blocks (Segments.run Segments.init pre)
        ++ mkBlock (Segments.currentType (Segments.run Segments.init pre))
             (Segments.currentLines (Segments.run Segments.init pre)
              ++ line :: untilTag post)
        :: Segments.parseLines (fromTag post))%list)
  /\
  (forall markdown b,
     In b (parseChapterSegments markdown) ->
     type b = Block.image ->
     length (lines b) = 1).
Proof.
  split; [|split].
  - intros markdown pre line post Hlines Himg Hty.
    unfold parseChapterSegments, Segments.parseLines. rewrite Hlines.
    unfold Segments.run at 1. rewrite fold_left_app. simpl fold_left.
    fold (Segments.run Segments.init pre).
    assert (Ht : isTag line = false).
    { destruct (isTag line) eqn:E; [|reflexivity].
      rewrite (SegmentsFacts.tag_not_image line E) in Himg.
      discriminate Himg. }
    rewrite SegmentsFacts.step_not_tag by exact Ht.
    rewrite Himg, Hty. cbn [Block.isText andb].
    match goal with
    | |- context [fold_left Segments.step post ?s] =>
        change (fold_left Segments.step post s) with (Segments.run s post)
    end.
    rewrite SegmentsRun.parse_from. rewrite <- app_assoc. reflexivity.
  - intros markdown pre line post Hlines Himg Hty.
    unfold parseChapterSegments, Segments.parseLines. rewrite Hlines.
    unfold Segments.run at 1. rewrite fold_left_app. simpl fold_left.
    fold (Segments.run Segments.init pre).
    assert (Ht : isTag line = false).
    { destruct (isTag line) eqn:E; [|reflexivity].
      rewrite (SegmentsFacts.tag_not_image line E) in Himg.
      discriminate Himg. }
    rewrite SegmentsFacts.step_not_tag by exact Ht.
    rewrite (SegmentsRun.not_text_isText _ Hty), andb_false_r.
    match goal with
    | |- context [fold_left Segments.step post ?s] =>
        change (fold_left Segments.step post s) with (Segments.run s post)
    end.
    rewrite (SegmentsRun.parse_open_block _ Hty).
    + rewrite <- app_assoc. reflexivity.
    + destruct (Segments.currentLines (Segments.run Segments.init pre));
        reflexivity.
  - intros markdown b Hin Hty.
    pose proof (SegmentsRun.parseLines_wellFormed (linesOf markdown)) as H.
    rewrite Forall_forall in H. specialize (H b Hin).
    unfold wellFormedBlock in H. rewrite Hty in H. exact H.
Qed.

Lemma image_line_in_text_and_elsewhere_witness :
  parseChapterSegments ("Hello" ++ NL ++ "![a](b.png)" ++ NL ++ "Bye") =
    [mkBlock Block.text ["Hello"]; mkBlock Block.image ["![a](b.png)"];
     mkBlock Block.text ["Bye"]]
  /\
  parseChapterSegments
    ("[QUIZ]" ++ NL ++ "? Q" ++ NL ++ "![a](b.png)" ++ NL ++ "* yes"
     ++ NL ++ "[TEXT]" ++ NL ++ "Bye") =
    [mkBlock Block.quiz ["? Q"; "![a](b.png)"; "* yes"];
     mkBlock Block.text ["Bye"]]
  /\
  length (lines (mkBlock Block.image ["![a](b.png)"])) = 1.
Proof.
  split; [|split].
  - apply (proj1 image_line_in_text_and_elsewhere
             ("Hello" ++ NL ++ "![a](b.png)" ++ NL ++ "Bye")
             ["Hello"] "![a](b.png)" ["Bye"]); reflexivity.
  - apply (proj1 (proj2 image_line_in_text_and_elsewhere)
             ("[QUIZ]" ++ NL ++ "? Q" ++ NL ++ "![a](b.png)" ++ NL ++ "* yes"
              ++ NL ++ "[TEXT]" ++ NL ++ "Bye")
             ["[QUIZ]"; "? Q"] "![a](b.png)" ["* yes"; "[TEXT]"; "Bye"]).
    + reflexivity.
    + reflexivity.
    + discriminate.
  - apply (proj2 (proj2 image_line_in_text_and_elsewhere)
             ("Hello" ++ NL ++ "![a](b.png)")).
    + right. left. reflexivity.
    + reflexivity.
Defined.

(** C9.  No text block of the parser's output is blank: every block of
    kind [text] it returns holds at least one line that is not empty
    once trimmed. *)
Theorem text_blocks_have_content :
  forall markdown b,
    In b (parseChapterSegments markdown) ->
    type b = Block.text ->
    exists l, In l (lines b) /\ isBlank l = false.
Proof.
  intros markdown b Hin Hty.
  pose proof (SegmentsRun.parseLines_wellFormed (linesOf markdown)) as H.
  rewrite Forall_forall in H. specialize (H b Hin).
  unfold wellFormedBlock in H. rewrite Hty in H.
  unfold Segments.hasContent in H. apply existsb_exists in H.
  destruct H as [l [Hl Hnb]]. exists l. split; [exact Hl|].
  unfold isBlank. apply negb_true_iff. exact Hnb.
Qed.

Lemma text_blocks_have_content_witness :
  exists l, In l ["  "; "Hello"] /\ isBlank l = false.
Proof.
  apply (text_blocks_have_content
           ("  " ++ NL ++ "Hello" ++ NL ++ "[VIDEO]" ++ NL ++ " ")
           (mkBlock Block.text ["  "; "Hello"])).
  - left. reflexivity.
  - reflexivity.
Defined.

(** ** Library version resolver *)

Lemma startsWith_app s p :
  startsWith s p = true -> exists r, s = p ++ r.
Proof.
  revert s. induction p as [|a p IH]; intros s H; simpl in *.
  - exists s. reflexivity.
  - destruct s as [|b s]; [discriminate H|].
    apply andb_prop in H as [Hab Hs]. apply Ascii.eqb_eq in Hab. subst b.
    destruct (IH s Hs) as [r Hr]. exists r. rewrite Hr. reflexivity.
Qed.

(** A name the manifest declares resolves to the declared version. *)
Lemma getLibVersion_declared zip deps name defaultVersion dep :
  find (fun d => String.eqb (machineName d) name) deps = Some dep ->
  getLibVersion zip deps name defaultVersion =
    machineName dep ++ " " ++ showN (majorVersion dep)
                    ++ "." ++ showN (minorVersion dep).
Proof. intros H. unfold getLibVersion. rewrite H. reflexivity. Qed.

(** A name found nowhere resolves to the default the caller passes. *)
Lemma getLibVersion_fallback zip deps name defaultVersion :
  find (fun d => String.eqb (machineName d) name) deps = None ->
  find (fun path => startsWith path (name ++ "-") && includes path "/")
       (Zip.keys zip) = None ->
  getLibVersion zip deps name defaultVersion = name ++ " " ++ defaultVersion.
Proof. intros H1 H2. unfold getLibVersion. rewrite H1, H2. reflexivity. Qed.

(** C3 (amended).  Resolving [H5P.Accordion] against a manifest whose
    first dependency of that name has version 1.0 yields exactly
    "H5P.Accordion 1.0".  Against a manifest without it, when the first
    archive path that starts with "H5P.Accordion-" and holds a "/" lies
    in the folder [H5P.Accordion-1.0/], it yields the same string.  When
    the name is neither in the manifest nor at the start of such an
    archive path, the resolver yields no unavailable marker but the
    fallback it is called with: the entry of the library table is the
    concrete string "H5P.Accordion 1.0", which the accordion builder
    takes as available. *)
Theorem accordion_version_resolution :
  (forall zip deps defaultVersion,
     find (fun d => String.eqb (machineName d) "H5P.Accordion") deps =
       Some (mkDependency "H5P.Accordion" 1 0) ->
     getLibVersion zip deps "H5P.Accordion" defaultVersion =
       "H5P.Accordion 1.0")
  /\
  (forall zip deps defaultVersion path,
     find (fun d => String.eqb (machineName d) "H5P.Accordion") deps = None ->
     find (fun path => startsWith path "H5P.Accordion-" && includes path "/")
          (Zip.keys zip) = Some path ->
     startsWith path "H5P.Accordion-1.0/" = true ->
     getLibVersion zip deps "H5P.Accordion" defaultVersion =
       "H5P.Accordion 1.0")
  /\
  (forall zip deps,
     find (fun d => String.eqb (machineName d) "H5P.Accordion") deps = None ->
     find (fun path => startsWith path "H5P.Accordion-" && includes path "/")
          (Zip.keys zip) = None ->
     getLibVersion zip deps "H5P.Accordion" "1.0" = "H5P.Accordion 1.0"
     /\ accordion (resolveLibs zip deps) = Some "H5P.Accordion 1.0"
     /\ available (accordion (resolveLibs zip deps)) =
          Some "H5P.Accordion 1.0").
Proof.
  split; [|split].
  - intros zip deps defaultVersion H.
    rewrite (getLibVersion_declared _ _ _ _ _ H). reflexivity.
  - intros zip deps defaultVersion path Hdeps Hkeys Hpath.
    unfold getLibVersion. rewrite Hdeps.
    change ("H5P.Accordion" ++ "-") with "H5P.Accordion-".
    rewrite Hkeys.
    destruct (startsWith_app _ _ Hpath) as [r Hr]. subst path.
    reflexivity.
  - intros zip deps Hdeps Hkeys.
    assert (H : getLibVersion zip deps "H5P.Accordion" "1.0" =
                "H5P.Accordion 1.0").
    { rewrite getLibVersion_fallback by assumption. reflexivity. }
    split; [exact H|].
    unfold resolveLibs. cbn [accordion]. rewrite H.
    split; reflexivity.
Qed.

Lemma accordion_version_resolution_witness :
  getLibVersion [] [mkDependency "H5P.Column" 1 13;
                    mkDependency "H5P.Accordion" 1 0]
                "H5P.Accordion" "1.3" = "H5P.Accordion 1.0"
  /\
  getLibVersion [("h5p.json", mkZipObject false "{}");
                 ("H5P.Accordion-1.0/library.json", mkZipObject false "{}")]
                [] "H5P.Accordion" "1.3" = "H5P.Accordion 1.0"
  /\
  accordion (resolveLibs [("h5p.json", mkZipObject false "{}")] []) =
    Some "H5P.Accordion 1.0".
Proof.
  split; [|split].
  - apply (proj1 accordion_version_resolution). reflexivity.
  - apply (proj1 (proj2 accordion_version_resolution)
             _ _ _ "H5P.Accordion-1.0/library.json"); reflexivity.
  - apply (proj2 (proj2 accordion_version_resolution)
             [("h5p.json", mkZipObject false "{}")] []); reflexivity.
Defined.

(** C3, as stated, fails in its last part: with the accordion library
    neither in the manifest nor in the archive, the resolver returns the
    version string "H5P.Accordion 1.0" and the table entry is that
    string, not the unavailable marker [null]. *)
Lemma unknown_library_resolves_to_default :
  find (fun d => String.eqb (machineName d) "H5P.Accordion")
       ([] : list H5PDependency) = None
  /\ find (fun path => startsWith path "H5P.Accordion-" && includes path "/")
          (Zip.keys []) = None
  /\ getLibVersion [] [] "H5P.Accordion" "1.0" = "H5P.Accordion 1.0"
  /\ accordion (resolveLibs [] []) = Some "H5P.Accordion 1.0"
  /\ accordion (resolveLibs [] []) <> None
  /\ available (accordion (resolveLibs [] [])) <> None.
Proof. repeat split; try reflexivity; discriminate. Qed.

(** ** Directory-entry repair *)

Module RepairFacts.

Lemma get_delete_same k files : Zip.get k (Zip.delete k files) = None.
Proof.
  induction files as [|[k' e] files IH]; simpl; [reflexivity|].
  destruct (String.eqb k' k) eqn:E; simpl; [exact IH|].
  rewrite E. exact IH.
Qed.

Lemma get_delete_other k k' files :
  k' <> k -> Zip.get k' (Zip.delete k files) = Zip.get k' files.
Proof.
  intros Hne.
  induction files as [|[k0 e] files IH]; simpl; [reflexivity|].
  destruct (String.eqb k0 k) eqn:E; simpl.
  - apply String.eqb_eq in E. subst k0.
    destruct (String.eqb k k') eqn:E'; [|exact IH].
    apply String.eqb_eq in E'. subst k'. contradiction.
  - rewrite IH. reflexivity.
Qed.

Lemma get_In k files :
  In k (Zip.keys files) <-> Zip.get k files <> None.
Proof.
  induction files as [|[k0 e] files IH]; simpl.
  - split; [contradiction | intros H; apply H; reflexivity].
  - destruct (String.eqb k0 k) eqn:E.
    + apply String.eqb_eq in E. split; [discriminate | left; exact E].
    + apply String.eqb_neq in E. rewrite <- IH.
      split; [intros [H|H]; [contradiction | exact H] | right; assumption].
Qed.

Lemma marked_get files k e :
  foldersAreMarked files = true ->
  Zip.get k files = Some e ->
  endsWith k "/" = true -> dir e = true.
Proof.
  unfold foldersAreMarked.
  induction files as [|[k0 e0] files IH]; simpl; [discriminate|].
  intros Hm Hget Hend. apply andb_prop in Hm as [H0 Hm].
  destruct (String.eqb k0 k) eqn:E.
  - apply String.eqb_eq in E. subst k0. injection Hget as <-.
    rewrite Hend in H0. exact H0.
  - exact (IH Hm Hget Hend).
Qed.

(** A step never brings an entry back. *)
Lemma step_keeps_none files key k :
  Zip.get k files = None -> Zip.get k (Repair.step files key) = None.
Proof.
  intros H. unfold Repair.step.
  destruct (Zip.get key files) as [e|]; [|exact H].
  destruct (startsWith key "content/" && endsWith key "/" && dir e);
    [|exact H].
  destruct (String.eqb_spec k key) as [->|Hne].
  - apply get_delete_same.
  - rewrite get_delete_other by exact Hne. exact H.
Qed.

Lemma scan_keeps_none keys : forall files k,
  Zip.get k files = None ->
  Zip.get k (fold_left Repair.step keys files) = None.
Proof.
  induction keys as [|key keys IH]; intros files k H; simpl.
  - exact H.
  - apply IH, step_keeps_none, H.
Qed.

(** What a step leaves was there before it. *)
Lemma step_sub files key k e :
  Zip.get k (Repair.step files key) = Some e -> Zip.get k files = Some e.
Proof.
  unfold Repair.step.
  destruct (Zip.get key files) as [e'|]; [|exact (fun H => H)].
  destruct (startsWith key "content/" && endsWith key "/" && dir e');
    [|exact (fun H => H)].
  destruct (String.eqb_spec k key) as [->|Hne].
  - rewrite get_delete_same. discriminate.
  - rewrite get_delete_other by exact Hne. exact (fun H => H).
Qed.

Lemma scan_sub keys : forall files k e,
  Zip.get k (fold_left Repair.step keys files) = Some e ->
  Zip.get k files = Some e.
Proof.
  induction keys as [|key keys IH]; intros files k e H; simpl in H.
  - exact H.
  - exact (step_sub _ _ _ _ (IH _ _ _ H)).
Qed.

(** An entry that is no folder under [content/] survives a step. *)
Lemma step_keeps_entry files key k e :
  Zip.get k files = Some e ->
  isContentFolder k e = false ->
  Zip.get k (Repair.step files key) = Some e.
Proof.
  intros Hget Hno. unfold Repair.step.
  destruct (Zip.get key files) as [e'|] eqn:Hkey; [|exact Hget].
  destruct (startsWith key "content/" && endsWith key "/" && dir e')
    eqn:Hdel; [|exact Hget].
  destruct (String.eqb_spec k key) as [->|Hne].
  - rewrite Hget in Hkey. injection Hkey as <-.
    unfold isContentFolder in Hno. rewrite Hno in Hdel. discriminate Hdel.
  - rewrite get_delete_other by exact Hne. exact Hget.
Qed.

Lemma scan_keeps_entry keys : forall files k e,
  Zip.get k files = Some e ->
  isContentFolder k e = false ->
  Zip.get k (fold_left Repair.step keys files) = Some e.
Proof.
  induction keys as [|key keys IH]; intros files k e Hget Hno; simpl.
  - exact Hget.
  - apply IH; [apply step_keeps_entry; assumption | exact Hno].
Qed.

(** A folder entry under [content/] is gone once the scan has met its
    key. *)
Lemma scan_deletes keys : forall files k e,
  In k keys ->
  Zip.get k files = Some e ->
  isContentFolder k e = true ->
  Zip.get k (fold_left Repair.step keys files) = None.
Proof.
  induction keys as [|key keys IH]; intros files k e Hin Hget Hdel; simpl.
  - contradiction.
  - destruct (String.eqb_spec key k) as [->|Hne].
    + apply scan_keeps_none. unfold Repair.step. rewrite Hget.
      unfold isContentFolder in Hdel. rewrite Hdel.
      apply get_delete_same.
    + destruct Hin as [Hin|Hin]; [contradiction|].
      destruct (Zip.get k (Repair.step files key)) as [e'|] eqn:Hstep.
      * assert (e' = e).
        { revert Hstep. unfold Repair.step.
          destruct (Zip.get key files) as [e0|];
            [|rewrite Hget; intros H; injection H as <-; reflexivity].
          destruct (startsWith key "content/" && endsWith key "/"
                    && dir e0);
            [rewrite get_delete_other by (intros ->; contradiction)|];
            rewrite Hget; intros H; injection H as <-; reflexivity. }
        subst e'. apply (IH _ _ e); assumption.
      * apply scan_keeps_none. exact Hstep.
Qed.

End RepairFacts.

(** C6.  After the repair no folder entry is left under the content
    root: an entry that remains at a path starting with [content/] and
    ending with [/] does not carry the [dir] flag, and on an entry table
    in which the entries whose names end in [/] are the folders, as the
    archive library keeps them, no entry at all remains at such a path.
    Every file entry of the table, those under [content/] among them, is
    still found at its path with the same contents. *)
Theorem repair_removes_folders_keeps_files :
  forall files,
    (forall k e,
       Zip.get k (Repair.run files) = Some e ->
       startsWith k "content/" && endsWith k "/" = true ->
       dir e = false)
    /\
    (foldersAreMarked files = true ->
     forall k,
       In k (Zip.keys (Repair.run files)) ->
       startsWith k "content/" && endsWith k "/" = false)
    /\
    (forall k e,
       Zip.get k files = Some e ->
       dir e = false ->
       k <> "content/" ->
       Zip.get k (Repair.run files) = Some e).
Proof.
  intros files.
  set (files1 := match Zip.get "content/" files with
                 | Some _ => Zip.delete "content/" files
                 | None => files
                 end).
  assert (Hsub : forall k e, Zip.get k files1 = Some e ->
                             Zip.get k files = Some e).
  { intros k e. unfold files1.
    destruct (Zip.get "content/" files); [|exact (fun H => H)].
    destruct (String.eqb_spec k "content/") as [->|Hne].
    - rewrite RepairFacts.get_delete_same. discriminate.
    - rewrite RepairFacts.get_delete_other by exact Hne. exact (fun H => H). }
  assert (Hgone : forall k e,
            Zip.get k files1 = Some e ->
            isContentFolder k e = true ->
            Zip.get k (Repair.run files) = None).
  { intros k e Hget Hdel. unfold Repair.run. fold files1.
    apply (RepairFacts.scan_deletes _ _ _ e); try assumption.
    apply RepairFacts.get_In. rewrite Hget. discriminate. }
  split; [|split].
  - intros k e Hget Hk.
    destruct (dir e) eqn:Hd; [exfalso | reflexivity].
    assert (H1 : Zip.get k files1 = Some e).
    { unfold Repair.run in Hget. fold files1 in Hget.
      exact (RepairFacts.scan_sub _ _ _ _ Hget). }
    rewrite (Hgone k e H1) in Hget; [discriminate Hget|].
    unfold isContentFolder. rewrite Hk, Hd. reflexivity.
  - intros Hm k Hin.
    destruct (startsWith k "content/" && endsWith k "/") eqn:Hk;
      [exfalso | reflexivity].
    apply RepairFacts.get_In in Hin. apply Hin. clear Hin.
    destruct (Zip.get k files1) as [e|] eqn:Hget.
    + apply (Hgone k e Hget).
      unfold isContentFolder. rewrite Hk. simpl.
      apply andb_prop in Hk as [_ Hend].
      exact (RepairFacts.marked_get _ _ _ Hm (Hsub _ _ Hget) Hend).
    + unfold Repair.run. fold files1.
      apply RepairFacts.scan_keeps_none. exact Hget.
  - intros k e Hget Hfile Hk.
    unfold Repair.run. fold files1.
    apply RepairFacts.scan_keeps_entry.
    + unfold files1. destruct (Zip.get "content/" files); [|exact Hget].
      rewrite RepairFacts.get_delete_other by exact Hk. exact Hget.
    + unfold isContentFolder. rewrite Hfile. apply andb_false_r.
Qed.

Lemma repair_removes_folders_keeps_files_witness :
  let files :=
    [("h5p.json", mkZipObject false "{}");
     ("content/", mkZipObject true "");
     ("content/content.json", mkZipObject false "{}");
     ("content/images/", mkZipObject true "");
     ("content/images/missing.jpg", mkZipObject false "jpeg");
     ("H5P.Column-1.13/", mkZipObject true "")] in
  Repair.run files =
    [("h5p.json", mkZipObject false "{}");
     ("content/content.json", mkZipObject false "{}");
     ("content/images/missing.jpg", mkZipObject false "jpeg");
     ("H5P.Column-1.13/", mkZipObject true "")]
  /\ Zip.get "content/images/missing.jpg" (Repair.run files) =
       Some (mkZipObject false "jpeg")
  /\ startsWith "content/content.json" "content/"
     && endsWith "content/content.json" "/" = false.
Proof.
  intros files. split; [reflexivity|]. split.
  - apply (proj2 (proj2 (repair_removes_folders_keeps_files files)));
      [reflexivity | reflexivity | discriminate].
  - apply (proj1 (proj2 (repair_removes_folders_keeps_files files)) eq_refl).
    right. left. reflexivity.
Defined.

(** ** Quiz builder *)

Module QuizFacts.
Import Quiz QuizLoop.

Lemma startsWith_char s a b :
  startsWith s (String a "") = true ->
  startsWith s (String b "") = true -> a = b.
Proof.
  destruct s as [|c s]; simpl; [discriminate|].
  destruct (Ascii.eqb_spec a c) as [->|]; [|discriminate].
  destruct (Ascii.eqb_spec b c) as [->|]; [reflexivity | discriminate].
Qed.

Lemma correct_not_question l : isCorrect l = true -> isQuestion l = false.
Proof.
  unfold isCorrect, isQuestion. intros H.
  destruct (startsWith (trim l) "?") eqn:E; [|reflexivity].
  discriminate (startsWith_char _ _ _ H E).
Qed.

Lemma wrong_not_question l : isWrong l = true -> isQuestion l = false.
Proof.
  unfold isWrong, isQuestion. intros H.
  destruct (startsWith (trim l) "?") eqn:E; [|reflexivity].
  discriminate (startsWith_char _ _ _ H E).
Qed.

Lemma wrong_not_correct l : isWrong l = true -> isCorrect l = false.
Proof.
  unfold isWrong, isCorrect. intros H.
  destruct (startsWith (trim l) "*") eqn:E; [|reflexivity].
  discriminate (startsWith_char _ _ _ H E).
Qed.

Lemma foldM_app {A S} (f : S -> A -> M S) l1 l2 s n :
  foldM f (l1 ++ l2) s n =
    foldM f l2 (fst (foldM f l1 s n)) (snd (foldM f l1 s n)).
Proof.
  revert s n. induction l1 as [|x l1 IH]; intros s n; simpl.
  - reflexivity.
  - unfold bind. destruct (f s x n) as [s' n']. apply IH.
Qed.

(** Before the first question nothing is recorded. *)
Lemma scan_no_question pre : forall cs n,
  noQuestion pre = true ->
  foldM step pre (mkState cs None) n = (mkState cs None, n).
Proof.
  induction pre as [|l pre IH]; intros cs n H; simpl; [reflexivity|].
  simpl in H. apply andb_prop in H as [Hl Hpre].
  apply negb_true_iff in Hl.
  unfold bind, step. rewrite Hl. simpl. apply IH, Hpre.
Qed.

(** Inside a question, the correct answers are stacked in front of
    the answers and the wrong ones queued behind. *)
Lemma scan_answers body : forall cs c n,
  noQuestion body = true ->
  foldM step body (mkState cs (Some c)) n =
    (mkState cs
       (Some (mkChoice (question c)
                (rev (correctTexts body) ++ answers c ++ wrongTexts body)
                (Quiz.subContentId c))), n).
Proof.
  unfold correctTexts, wrongTexts.
  induction body as [|l body IH]; intros cs c n H; simpl.
  - rewrite app_nil_r. destruct c; reflexivity.
  - simpl in H. apply andb_prop in H as [Hl Hbody].
    apply negb_true_iff in Hl.
    unfold bind, step. rewrite Hl. cbn [currentChoice choices].
    destruct (isCorrect l) eqn:Hc.
    + assert (Hw : isWrong l = false).
      { destruct (isWrong l) eqn:E; [|reflexivity].
        rewrite (wrong_not_correct l E) in Hc. discriminate Hc. }
      rewrite Hw. unfold ret. rewrite IH by exact Hbody. simpl.
      rewrite <- !app_assoc. reflexivity.
    + destruct (isWrong l) eqn:Hw; unfold ret;
        rewrite IH by exact Hbody; simpl.
      * rewrite <- !app_assoc. reflexivity.
      * reflexivity.
Qed.

(** A line that is no question leaves the number of choices, the
    open one counted, as it is; a question adds one. *)
Lemma scan_length ls : forall st n,
  length (close (fst (foldM step ls st n))) =
    length (close st) + countQuestions ls.
Proof.
  unfold countQuestions.
  induction ls as [|l ls IH]; intros st n; simpl.
  - rewrite Nat.add_0_r. reflexivity.
  - unfold bind.
    destruct (step st l n) as [st' n'] eqn:Hstep.
    rewrite IH. revert Hstep. unfold step.
    destruct (isQuestion l) eqn:Hq.
    + unfold bind, uuidv4, ret. intros H. injection H as <- _.
      unfold close at 1. cbn [currentChoice choices].
      rewrite length_app. simpl. lia.
    + intros H.
      assert (length (close st') = length (close st)).
      { revert H. unfold close, ret.
        destruct (currentChoice st) as [c|] eqn:Hcur.
        - destruct (isCorrect l); [|destruct (isWrong l)];
            intros H; injection H as <- _; cbn [currentChoice choices];
            rewrite ?Hcur, ?length_app; reflexivity.
        - intros H. injection H as <- _. rewrite Hcur. reflexivity. }
      lia.
Qed.

(** The choices pushed stay, in place. *)
Lemma scan_extends ls : forall st n,
  exists ext,
    choices (fst (foldM step ls st n)) = (choices st ++ ext)%list.
Proof.
  induction ls as [|l ls IH]; intros st n; simpl.
  - exists []. rewrite app_nil_r. reflexivity.
  - unfold bind. destruct (step st l n) as [st' n'] eqn:Hstep.
    destruct (IH st' n') as [e1 H1]. rewrite H1.
    assert (exists e2, choices st' = (choices st ++ e2)%list) as [e2 H2].
    { revert Hstep. unfold step.
      destruct (isQuestion l).
      - unfold bind, uuidv4, ret. intros H. injection H as <- _.
        unfold close. cbn [choices].
        destruct (currentChoice st).
        + eexists. reflexivity.
        + exists []. rewrite app_nil_r. reflexivity.
      - unfold ret. destruct (currentChoice st) as [c|];
          [destruct (isCorrect l); [|destruct (isWrong l)]|];
          intros H; injection H as <- _; exists [];
          rewrite app_nil_r; reflexivity. }
    rewrite H2. exists (e2 ++ e1)%list. rewrite app_assoc. reflexivity.
Qed.

Lemma close_extends st : exists ext, close st = (choices st ++ ext)%list.
Proof.
  unfold close. destruct (currentChoice st).
  - eexists. reflexivity.
  - exists []. rewrite app_nil_r. reflexivity.
Qed.

End QuizFacts.

Module QuizRun.
Import Quiz QuizLoop QuizFacts.

Lemma foldM_cons {A S} (f : S -> A -> M S) x xs s n :
  foldM f (x :: xs) s n = foldM f xs (fst (f s x n)) (snd (f s x n)).
Proof. simpl. unfold bind. destruct (f s x n). reflexivity. Qed.

Lemma step_question st q n :
  isQuestion q = true ->
  step st q n = (mkState (close st) (Some (mkChoice (markedText q) [] n)),
                 S n).
Proof. intros Hq. unfold step. rewrite Hq. reflexivity. Qed.

(** The state after a question line and the lines of its body. *)
Lemma scan_question_segment pre q body n :
  isQuestion q = true ->
  noQuestion body = true ->
  foldM step (pre ++ q :: body) init n =
    (mkState (close (fst (foldM step pre init n)))
       (Some (mkChoice (markedText q)
                (rev (correctTexts body) ++ wrongTexts body)
                (snd (foldM step pre init n)))),
     S (snd (foldM step pre init n))).
Proof.
  intros Hq Hbody. rewrite foldM_app.
  destruct (foldM step pre init n) as [st n1]. cbn [fst snd].
  rewrite foldM_cons, (step_question _ _ _ Hq). cbn [fst snd].
  rewrite scan_answers by exact Hbody. reflexivity.
Qed.

(** The choices of a block around one of its questions. *)
Lemma run_question_segment pre q body post n :
  isQuestion q = true ->
  noQuestion body = true ->
  questionEnds post = true ->
  exists more,
    fst (run (pre ++ q :: body ++ post) n) =
      (close (fst (foldM step pre init n))
       ++ mkChoice (markedText q)
            (rev (correctTexts body) ++ wrongTexts body)
            (snd (foldM step pre init n))
       :: more)%list
    /\ (post = [] -> more = []).
Proof.
  intros Hq Hbody Hpost. unfold run, bind.
  replace (pre ++ q :: body ++ post)%list
    with ((pre ++ q :: body) ++ post)%list
    by (rewrite <- app_assoc; reflexivity).
  rewrite foldM_app, (scan_question_segment pre q body n Hq Hbody).
  cbn [fst snd].
  set (C := close (fst (foldM step pre init n))).
  set (n1 := snd (foldM step pre init n)).
  set (c := mkChoice (markedText q)
              (rev (correctTexts body) ++ wrongTexts body) n1).
  destruct post as [|q2 post'].
  - exists []. split; [reflexivity | reflexivity].
  - simpl in Hpost. rewrite foldM_cons, (step_question _ _ _ Hpost).
    cbn [fst snd].
    match goal with
    | |- context [foldM step post' ?s ?m] =>
        destruct (scan_extends post' s m) as [e1 H1];
        destruct (close_extends (fst (foldM step post' s m))) as [e2 H2];
        destruct (foldM step post' s m) as [st2 n2]
    end.
    cbn [fst snd] in *. unfold ret. cbn [fst].
    rewrite H2, H1. cbn [choices]. unfold close at 1.
    cbn [currentChoice choices].
    exists (e1 ++ e2)%list. split; [|discriminate].
    rewrite <- !app_assoc. reflexivity.
Qed.

Lemma closed_before pre n :
  length (close (fst (foldM step pre init n))) = countQuestions pre.
Proof. rewrite scan_length. reflexivity. Qed.

(** A line the loop passes over. *)
Lemma step_ignored st line n :
  isQuestion line = false ->
  currentChoice st = None
  \/ (isCorrect line = false /\ isWrong line = false) ->
  step st line n = (st, n).
Proof.
  intros Hq H. unfold step. rewrite Hq.
  destruct H as [H|[Hc Hw]].
  - rewrite H. reflexivity.
  - rewrite Hc, Hw. destruct (currentChoice st); reflexivity.
Qed.

Lemma correctTexts_app l1 l2 :
  correctTexts (l1 ++ l2) = (correctTexts l1 ++ correctTexts l2)%list.
Proof. unfold correctTexts. rewrite filter_app, map_app. reflexivity. Qed.

Lemma wrongTexts_app l1 l2 :
  wrongTexts (l1 ++ l2) = (wrongTexts l1 ++ wrongTexts l2)%list.
Proof. unfold wrongTexts. rewrite filter_app, map_app. reflexivity. Qed.

Lemma correctTexts_none ls :
  existsb isCorrect ls = false -> correctTexts ls = [].
Proof.
  unfold correctTexts. induction ls as [|l ls IH]; simpl; [reflexivity|].
  intros H. apply orb_false_elim in H as [Hl Hls]. rewrite Hl.
  exact (IH Hls).
Qed.

Lemma wrong_lines ls :
  forallb isWrong ls = true ->
  noQuestion ls = true
  /\ correctTexts ls = []
  /\ wrongTexts ls = map markedText ls.
Proof.
  unfold noQuestion, correctTexts, wrongTexts.
  induction ls as [|l ls IH]; simpl; [repeat split; reflexivity|].
  intros H. apply andb_prop in H as [Hl Hls].
  destruct (IH Hls) as [H1 [H2 H3]].
  rewrite (wrong_not_question l Hl), (wrong_not_correct l Hl), Hl.
  simpl. rewrite H1, H2, H3. repeat split; reflexivity.
Qed.

End QuizRun.

(** What [buildQuizObject] returns when the library is available. *)
Lemma buildQuizObject_available ls libs lib n :
  available (singleChoice libs) = Some lib ->
  exists obj,
    fst (buildQuizObject ls libs n) = Some obj
    /\ quizChoices obj = fst (QuizLoop.run ls n).
Proof.
  intros H. unfold buildQuizObject. rewrite H. unfold bind.
  destruct (QuizLoop.run ls n) as [cs n1]. unfold uuidv4, ret. cbn [fst].
  eexists. split; reflexivity.
Qed.

(** C2 (amended).  In a quiz block, a question that holds one or more
    correct ([*]) answer lines, so in particular two or more, has at
    index 0 of its built answers the text of the last of them in source
    order: each such line is put in front of the answers gathered so
    far.  The answers are the correct texts in reverse source order,
    then the wrong texts in source order. *)
Theorem last_correct_line_leads_the_answers :
  forall libs lib pre q b1 s b2 post n,
    available (singleChoice libs) = Some lib ->
    QuizLoop.isQuestion q = true ->
    noQuestion (b1 ++ s :: b2) = true ->
    questionEnds post = true ->
    QuizLoop.isCorrect s = true ->
    existsb QuizLoop.isCorrect b2 = false ->
    exists obj c,
      fst (buildQuizObject (pre ++ q :: (b1 ++ s :: b2) ++ post) libs n)
        = Some obj
      /\ nth_error (quizChoices obj) (countQuestions pre) = Some c
      /\ Quiz.question c = QuizLoop.markedText q
      /\ Quiz.answers c =
           (rev (correctTexts (b1 ++ s :: b2))
            ++ wrongTexts (b1 ++ s :: b2))%list
      /\ nth_error (Quiz.answers c) 0 = Some (QuizLoop.markedText s).
Proof.
  intros libs lib pre q b1 s b2 post n Hlib Hq Hbody Hpost Hs Hlast.
  destruct (buildQuizObject_available
              (pre ++ q :: (b1 ++ s :: b2) ++ post) libs lib n Hlib)
    as [obj [Hobj Hchoices]].
  destruct (QuizRun.run_question_segment pre q (b1 ++ s :: b2) post n
              Hq Hbody Hpost) as [more [Hrun _]].
  exists obj. eexists. split; [exact Hobj|]. split.
  - rewrite Hchoices, Hrun, nth_error_app2
      by (rewrite QuizRun.closed_before; apply Nat.le_refl).
    rewrite QuizRun.closed_before, Nat.sub_diag. reflexivity.
  - cbn [Quiz.question Quiz.answers]. split; [reflexivity|].
    split; [reflexivity|].
    rewrite QuizRun.correctTexts_app.
    change (s :: b2) with ([s] ++ b2)%list.
    rewrite QuizRun.correctTexts_app, (QuizRun.correctTexts_none b2 Hlast).
    unfold correctTexts at 2. simpl filter. rewrite Hs. simpl map.
    rewrite app_nil_r, rev_app_distr. reflexivity.
Qed.

Lemma last_correct_line_leads_the_answers_witness :
  exists obj c,
    fst (buildQuizObject ["? Q"; "* A"; "- C"; "* B"; "? R"; "* Z"]
           (resolveLibs [] []) 0) = Some obj
    /\ nth_error (quizChoices obj) 0 = Some c
    /\ Quiz.question c = "Q"
    /\ Quiz.answers c = ["B"; "A"; "C"]
    /\ nth_error (Quiz.answers c) 0 = Some "B".
Proof.
  apply (last_correct_line_leads_the_answers
           (resolveLibs [] []) "H5P.SingleChoiceSet 1.11"
           [] "? Q" ["* A"; "- C"] "* B" [] ["? R"; "* Z"] 0);
    reflexivity.
Defined.

(** C2, as stated, fails: with the two correct lines [* A] and [* B] in
    one question, index 0 of the answers holds "B", the text of the
    second, and the text of the first stands at index 1. *)
Lemma first_correct_line_is_not_first_answer :
  exists obj,
    fst (buildQuizObject ["? Q"; "* A"; "* B"; "- C"] (resolveLibs [] []) 0)
      = Some obj
    /\ map Quiz.answers (quizChoices obj) = [["B"; "A"; "C"]]
    /\ QuizLoop.markedText "* A" = "A"
    /\ hd_error ["B"; "A"; "C"] <> Some "A".
Proof.
  eexists. split; [vm_compute; reflexivity|].
  repeat split; try reflexivity. discriminate.
Qed.

(** C5.  A quiz block of one question line followed by exactly one
    correct ([*]) line and three wrong ([-]) lines, the correct line at
    any place among the four, builds one question whose answers have
    length 4: the text of the correct line at index 0, then the texts of
    the three wrong lines in source order. *)
Theorem one_correct_three_wrong :
  forall libs lib q before s after n,
    available (singleChoice libs) = Some lib ->
    QuizLoop.isQuestion q = true ->
    QuizLoop.isCorrect s = true ->
    forallb QuizLoop.isWrong (before ++ after) = true ->
    length (before ++ after) = 3 ->
    exists obj id,
      fst (buildQuizObject (q :: before ++ s :: after) libs n) = Some obj
      /\ quizChoices obj =
           [Quiz.mkChoice (QuizLoop.markedText q)
              (QuizLoop.markedText s
               :: map QuizLoop.markedText (before ++ after)) id]
      /\ length (QuizLoop.markedText s
                 :: map QuizLoop.markedText (before ++ after)) = 4.
Proof.
  intros libs lib q before s after n Hlib Hq Hs Hwrong Hlen.
  destruct (buildQuizObject_available
              (q :: before ++ s :: after) libs lib n Hlib)
    as [obj [Hobj Hchoices]].
  rewrite forallb_app in Hwrong. apply andb_prop in Hwrong as [Hb Ha].
  destruct (QuizRun.wrong_lines before Hb) as [Hb1 [Hb2 Hb3]].
  destruct (QuizRun.wrong_lines after Ha) as [Ha1 [Ha2 Ha3]].
  assert (Hsw : QuizLoop.isWrong s = false).
  { destruct (QuizLoop.isWrong s) eqn:E; [|reflexivity].
    rewrite (QuizFacts.wrong_not_correct s E) in Hs. discriminate Hs. }
  assert (Hbody : noQuestion (before ++ s :: after) = true).
  { unfold noQuestion in *. rewrite forallb_app. simpl.
    rewrite Hb1, Ha1, (QuizFacts.correct_not_question s Hs). reflexivity. }
  destruct (QuizRun.run_question_segment [] q (before ++ s :: after) [] n
              Hq Hbody eq_refl) as [more [Hrun Hmore]].
  rewrite (Hmore eq_refl) in Hrun. rewrite app_nil_r in Hrun.
  simpl app in Hrun.
  exists obj, n. split; [exact Hobj|]. split.
  - rewrite Hchoices, Hrun. cbn [fst snd foldM ret QuizLoop.close
      QuizLoop.init QuizLoop.currentChoice QuizLoop.choices app].
    do 2 f_equal.
    change (s :: after) with ([s] ++ after)%list.
    rewrite !QuizRun.correctTexts_app, !QuizRun.wrongTexts_app.
    rewrite Hb2, Ha2, Hb3, Ha3.
    unfold correctTexts, wrongTexts. simpl filter. rewrite Hs, Hsw.
    simpl. rewrite map_app. reflexivity.
  - simpl. rewrite length_map, Hlen. reflexivity.
Qed.

Lemma one_correct_three_wrong_witness :
  exists obj id,
    fst (buildQuizObject ["? Capital of France?"; "- London"; "- Berlin";
                          "* Paris"; "- Madrid"] (resolveLibs [] []) 7)
      = Some obj
    /\ quizChoices obj =
         [Quiz.mkChoice "Capital of France?"
            ["Paris"; "London"; "Berlin"; "Madrid"] id]
    /\ length ["Paris"; "London"; "Berlin"; "Madrid"] = 4.
Proof.
  apply (one_correct_three_wrong (resolveLibs [] [])
           "H5P.SingleChoiceSet 1.11" "? Capital of France?"
           ["- London"; "- Berlin"] "* Paris" ["- Madrid"] 7);
    reflexivity.
Defined.

(** C10.  In a quiz block, a line before the first question line, and a
    line inside a question that once trimmed starts with none of [?],
    [*] and [-], contributes nothing: the builder returns for the block
    what it returns for the block without that line, and it returns in
    every case, an object when the library is available. *)
Theorem quiz_ignores_other_lines :
  forall libs pre line post n,
    QuizLoop.isQuestion line = false ->
    noQuestion pre = true
    \/ (QuizLoop.isCorrect line = false /\ QuizLoop.isWrong line = false) ->
    buildQuizObject (pre ++ line :: post) libs n =
      buildQuizObject (pre ++ post) libs n
    /\ (forall lib, available (singleChoice libs) = Some lib ->
          exists obj,
            fst (buildQuizObject (pre ++ line :: post) libs n) = Some obj).
Proof.
  intros libs pre line post n Hq H. split.
  - unfold buildQuizObject.
    destruct (available (singleChoice libs)); [|reflexivity].
    unfold bind, QuizLoop.run, bind.
    rewrite !QuizFacts.foldM_app, QuizRun.foldM_cons.
    rewrite QuizRun.step_ignored; [reflexivity | exact Hq |].
    destruct H as [Hpre|H]; [left | right; exact H].
    unfold QuizLoop.init.
    rewrite QuizFacts.scan_no_question by exact Hpre. reflexivity.
  - intros lib Hlib.
    destruct (buildQuizObject_available (pre ++ line :: post) libs lib n Hlib)
      as [obj [Hobj _]].
    exists obj. exact Hobj.
Qed.

Lemma quiz_ignores_other_lines_witness :
  buildQuizObject ["intro"; "- stray"; "? Q"; "* A"; "note"; "- B"]
                  (resolveLibs [] []) 0 =
    buildQuizObject ["intro"; "? Q"; "* A"; "note"; "- B"]
                    (resolveLibs [] []) 0
  /\
  buildQuizObject ["intro"; "? Q"; "* A"; "note"; "- B"]
                  (resolveLibs [] []) 0 =
    buildQuizObject ["intro"; "? Q"; "* A"; "- B"] (resolveLibs [] []) 0.
Proof.
  split.
  - apply (quiz_ignores_other_lines (resolveLibs [] []) ["intro"] "- stray"
             ["? Q"; "* A"; "note"; "- B"] 0).
    + reflexivity.
    + left. reflexivity.
  - apply (quiz_ignores_other_lines (resolveLibs [] [])
             ["intro"; "? Q"; "* A"] "note" ["- B"] 0).
    + reflexivity.
    + right. split; reflexivity.
Defined.

(** ** Accordion builder *)

Module AccordionFacts.
Import AccordionLoop.

(** Before the first marker no panel is open and lines are dropped. *)
Lemma scan_no_marker pre :
  noMarker pre = true -> fold_left step pre init = init.
Proof.
  induction pre as [|l pre IH]; simpl; intros H; [reflexivity|].
  apply andb_prop in H as [Hl Hpre]. apply negb_true_iff in Hl.
  unfold step at 2. rewrite Hl. simpl. exact (IH Hpre).
Qed.

(** Writing through the reference to the panel pushed last. *)
Lemma pushLine_last ps p line :
  pushLine (length ps) line (ps ++ [p]) =
    (ps ++ [mkPanel (title p) (markdownLines p ++ [line])])%list.
Proof.
  induction ps as [|p0 ps IH]; simpl; [reflexivity|].
  rewrite IH. reflexivity.
Qed.

(** The lines after a marker gather in its panel. *)
Lemma scan_panel_body body : forall ps p,
  noMarker body = true ->
  fold_left step body (mkState (ps ++ [p]) (Some (length ps))) =
    mkState (ps ++ [mkPanel (title p) (markdownLines p ++ body)])
            (Some (length ps)).
Proof.
  induction body as [|l body IH]; intros ps p H; simpl.
  - rewrite app_nil_r. destruct p; reflexivity.
  - simpl in H. apply andb_prop in H as [Hl Hbody].
    apply negb_true_iff in Hl.
    unfold step at 2. rewrite Hl. cbn [currentPanel panels].
    rewrite pushLine_last, IH by exact Hbody. cbn [title markdownLines].
    rewrite <- app_assoc. reflexivity.
Qed.

Lemma step_marker st m :
  isMarker m = true ->
  step st m = mkState (panels st ++ [mkPanel (panelTitle m) []])
                      (Some (length (panels st))).
Proof. intros H. unfold step. rewrite H. reflexivity. Qed.

(** A block of two markers makes two panels. *)
Lemma run_two_markers pre m1 b1 m2 b2 :
  noMarker pre = true ->
  isMarker m1 = true -> noMarker b1 = true ->
  isMarker m2 = true -> noMarker b2 = true ->
  run (pre ++ m1 :: b1 ++ m2 :: b2) =
    [mkPanel (panelTitle m1) b1; mkPanel (panelTitle m2) b2].
Proof.
  intros Hpre Hm1 Hb1 Hm2 Hb2. unfold run.
  rewrite fold_left_app, (scan_no_marker pre Hpre).
  cbn [fold_left]. rewrite (step_marker init m1 Hm1).
  rewrite fold_left_app.
  change (panels init ++ [mkPanel (panelTitle m1) []])%list
    with ([] ++ [mkPanel (panelTitle m1) []])%list.
  change (length (panels init)) with (@length panel []).
  rewrite (scan_panel_body b1 [] _ Hb1).
  cbn [fold_left]. rewrite (step_marker _ m2 Hm2).
  cbn [panels app title markdownLines length].
  change [mkPanel (panelTitle m1) b1; mkPanel (panelTitle m2) []]
    with ([mkPanel (panelTitle m1) b1] ++ [mkPanel (panelTitle m2) []])%list.
  change 1 with (length [mkPanel (panelTitle m1) b1]).
  rewrite (scan_panel_body b2 _ _ Hb2). reflexivity.
Qed.

End AccordionFacts.

(** C8 (the code departs from it).  An accordion block of two marker
    lines whose first marker is indented and bare: once trimmed the
    line is the three plus signs and nothing else, so its title text is
    empty.  The block builds two panels, in source order and with the
    bodies C8 gives them, but the first panel is titled "+++" and not
    "Panel": the marker is looked for in the trimmed line, while the
    pattern that removes it is anchored at the start of the line as it
    was written.  The quiz builder, next to this one, takes the text
    after its marker from the trimmed line.  The block is the one the
    segmentation parser hands over for a chapter body of the tag line
    and these four lines. *)
Lemma indented_bare_marker_is_titled_by_its_plus_signs :
  parseChapterSegments
    ("[ACCORDION]" ++ NL ++ "  +++" ++ NL ++ "x" ++ NL ++ "+++ B"
       ++ NL ++ "y") =
    [mkBlock Block.accordion ["  +++"; "x"; "+++ B"; "y"]]
  /\ map AccordionLoop.isMarker ["  +++"; "x"; "+++ B"; "y"] =
       [true; false; true; false]
  /\ trim "  +++" = "+++"
  /\ forall marked_parse processHtmlContent n,
     exists obj,
       fst (buildAccordionObject marked_parse processHtmlContent
              ["  +++"; "x"; "+++ B"; "y"] (resolveLibs [] []) n) = Some obj
       /\ map Accordion.title (accordionPanels obj) = ["+++"; "B"]
       /\ map Accordion.title (accordionPanels obj) <> ["Panel"; "B"]
       /\ map (fun p => params (Accordion.content p)) (accordionPanels obj) =
            [orElse (processHtmlContent (marked_parse "x")) "<p></p>";
             orElse (processHtmlContent (marked_parse "y")) "<p></p>"].
Proof.
  split; [reflexivity|]. split; [reflexivity|]. split; [reflexivity|].
  intros mp ph n. eexists. split; [reflexivity|].
  split; [reflexivity|]. split; [discriminate | reflexivity].
Qed.

(** On an indented marker line the anchored pattern removes nothing:
    the title text is the whole line, trimmed. *)
Lemma indented_marker_title :
  AccordionLoop.isMarker "  +++ FAQ" = true
  /\ AccordionLoop.titleText "  +++ FAQ" = "+++ FAQ"
  /\ AccordionLoop.panelTitle "  +++" = "+++".
Proof. repeat split; reflexivity. Qed.

(** ** The no-chapters error *)

(** A document that ends with its only heading has no chapter: the last
    chapter is pushed only when it holds a line. *)
Lemma lone_heading_has_no_chapter : splitChapters "# A" = [].
Proof. reflexivity. Qed.

(** * Further properties *)

(** ** Chapter splitter: titles and the no-chapters error *)

Module SplitterTitles.
Import Splitter SplitterFacts.

(** The first line of the document only decides how the loop starts. *)
Lemma init_first l0 rest : init (l0 :: rest) = init [l0].
Proof. reflexivity. Qed.

(** What the loop keeps after the first line [l0] and the lines [p]:
    the current title is never empty, the implicit chapter holds a
    line, the titles pushed followed by the current one are the titles
    of the document so far, and the current chapter is empty exactly
    after a heading. *)
Lemma loop_titles l0 p :
  let st := fold_left step (l0 :: p) (init [l0]) in
  truthy (currentTitle st) = true
  /\ (isImplicit st = true -> nonEmpty (currentLines st) = true)
  /\ (map title (chaptersData st) ++ [currentTitle st])%list =
       (implicitTitle l0 ++ headingTitles (l0 :: p))%list
  /\ nonEmpty (currentLines st) = negb (isHeading (last (l0 :: p) l0)).
Proof.
  induction p as [|l p IH] using rev_ind.
  - cbn zeta. unfold implicitTitle, headingTitles. simpl.
    unfold init, step. destruct (isHeading l0) eqn:H0; simpl.
    + rewrite (headingTitle_truthy l0 H0).
      repeat split; try reflexivity. discriminate.
    + repeat split; reflexivity.
  - cbn zeta in *.
    change (l0 :: p ++ [l])%list with ((l0 :: p) ++ [l])%list.
    rewrite fold_left_app.
    destruct IH as [I1 [I2 [I3 I4]]].
    set (st := fold_left step (l0 :: p) (init [l0])) in *.
    change (fold_left step [l] st) with (step st l).
    clearbody st. rewrite last_last.
    unfold headingTitles in *. rewrite filter_app, map_app. simpl filter.
    unfold step. destruct (isHeading l) eqn:Hl; cbn [chaptersData
      currentTitle currentLines isImplicit map negb nonEmpty].
    + rewrite I1. cbn [andb].
      assert (Hpush : nonEmpty (currentLines st) || negb (isImplicit st)
                      = true).
      { destruct (isImplicit st); [rewrite I2; reflexivity|].
        apply orb_true_r. }
      rewrite Hpush. unfold pushChapter. rewrite map_app. cbn [map title].
      rewrite I3, (headingTitle_truthy l Hl), <- !app_assoc.
      repeat split; try reflexivity. discriminate.
    + rewrite app_nil_r.
      repeat split; try assumption.
      * intros _. destruct (currentLines st); reflexivity.
      * destruct (currentLines st); reflexivity.
Qed.

(** The titles of the chapters of a document that does not end with a
    heading. *)
Lemma run_titles l0 p :
  isHeading (last (l0 :: p) l0) = false ->
  map title (run (l0 :: p)) =
    (implicitTitle l0 ++ headingTitles (l0 :: p))%list.
Proof.
  intros Hlast. unfold run. rewrite init_first.
  destruct (loop_titles l0 p) as [I1 [_ [I3 I4]]].
  unfold finish. rewrite I1, I4, Hlast. cbn [andb negb].
  unfold pushChapter. rewrite map_app. exact I3.
Qed.

(** The titles of the chapters of a document that ends with a heading:
    that heading makes no chapter. *)
Lemma run_titles_trailing l0 p q h :
  (l0 :: p = q ++ [h])%list ->
  isHeading h = true ->
  map title (run (l0 :: p)) = (implicitTitle l0 ++ headingTitles q)%list.
Proof.
  intros Hq Hh. unfold run. rewrite init_first.
  destruct (loop_titles l0 p) as [I1 [_ [I3 I4]]].
  unfold finish. rewrite I4, Hq, last_last, Hh, andb_false_r.
  rewrite Hq in I3. unfold headingTitles in I3.
  rewrite filter_app, map_app in I3. simpl in I3. rewrite Hh in I3.
  simpl in I3. rewrite app_assoc in I3.
  apply app_inj_tail in I3. exact (proj1 I3).
Qed.

Lemma run_lone_heading h : isHeading h = true -> run [h] = [].
Proof.
  intros Hh. unfold run, init, finish. simpl. rewrite Hh.
  unfold step. rewrite Hh. simpl. rewrite andb_false_r. reflexivity.
Qed.

(** The splitter returns no chapter only for a lone heading line. *)
Lemma run_empty_only_lone_heading ls :
  nonEmpty ls = true ->
  run ls = [] ->
  exists h, ls = [h] /\ isHeading h = true.
Proof.
  destruct ls as [|l0 p]; [discriminate|]. intros _ Hrun.
  assert (Hhead : forall q, implicitTitle l0 = [] ->
            headingTitles (l0 :: q) <> []).
  { intros q Himp. unfold implicitTitle in Himp. unfold headingTitles.
    simpl. destruct (isHeading l0); discriminate. }
  destruct (isHeading (last (l0 :: p) l0)) eqn:Hlast.
  - assert (Hne : (l0 :: p) <> []) by discriminate.
    pose proof (app_removelast_last l0 Hne) as Hq.
    remember (removelast (l0 :: p)) as q eqn:Hrem. clear Hrem.
    pose proof (run_titles_trailing l0 p q _ Hq Hlast) as Ht.
    rewrite Hrun in Ht. cbn [map] in Ht. symmetry in Ht.
    apply app_eq_nil in Ht as [Himp Hq0].
    destruct q as [|q0 q'].
    + exists (last (l0 :: p) l0). split; [exact Hq | exact Hlast].
    + exfalso. cbn [app] in Hq. injection Hq as Hq1 _. subst q0.
      exact (Hhead q' Himp Hq0).
  - exfalso. pose proof (run_titles l0 p Hlast) as Ht.
    rewrite Hrun in Ht. simpl in Ht. symmetry in Ht.
    apply app_eq_nil in Ht as [Himp Hq0]. exact (Hhead p Himp Hq0).
Qed.

End SplitterTitles.

(** [split] and [join] on the line feed are inverse to each other. *)
Lemma join_split s : join NL (split LF s) = s.
Proof.
  unfold join. induction s as [|c r IH]; [reflexivity|].
  simpl split. destruct (Ascii.eqb c LF) eqn:Ec.
  - apply Ascii.eqb_eq in Ec. subst c.
    pose proof (split_nonEmpty LF r) as Hne.
    simpl. destruct (split LF r) as [|w ws]; [discriminate Hne|].
    rewrite IH. reflexivity.
  - destruct (split LF r) as [|w ws] eqn:Hs.
    + pose proof (split_nonEmpty LF r) as Hne. rewrite Hs in Hne.
      discriminate Hne.
    + simpl in *. destruct ws; rewrite <- IH; reflexivity.
Qed.

(** X1.  [buildH5P] throws the no-chapters error for exactly one kind of
    document: the one made of a single line that is a level-1 heading.
    Every other document, the empty one included, has a chapter. *)
Theorem no_chapters_error_only_for_lone_heading :
  forall marked_parse processHtmlContent (Extra : Type) noExtra
         parseContent stringifyContent parseManifest zip_file dummyImage
         text zip n,
    (exists message,
       fst (buildH5P marked_parse processHtmlContent Extra noExtra
              parseContent stringifyContent parseManifest zip_file
              dummyImage text zip n)
       = inl (NoChaptersFound message))
    <->
    (exists h, linesOf text = [h] /\ Splitter.isHeading h = true).
Proof.
  intros mp ph Extra noExtra pc sc parseManifest zf di text zip n. split.
  - intros [message Hbuild].
    apply SplitterTitles.run_empty_only_lone_heading;
      [apply linesOf_nonEmpty|].
    revert Hbuild. unfold buildH5P, splitChapters.
    destruct (Splitter.run (linesOf text)) as [|ch chs]; [reflexivity|].
    cbv beta iota delta [nonEmpty].
    destruct (option_map parseManifest (zip_read "h5p.json" zip))
      as [[deps|]|]; try (simpl; discriminate).
    unfold bind.
    match goal with |- context [mapM ?f ?l n] => destruct (mapM f l n) end.
    simpl. discriminate.
  - intros [h [Hlines Hh]]. eexists.
    unfold buildH5P, splitChapters. rewrite Hlines.
    rewrite (SplitterTitles.run_lone_heading h Hh). reflexivity.
Qed.



(** X3.  A document without a heading line is one chapter, titled
    "Introduction", whose content is the text of the document itself
    with its line ends normalised. *)
Theorem document_without_heading_is_its_own_chapter :
  forall text,
    noHeading (linesOf text) = true ->
    splitChapters text =
      [mkChapterData "Introduction" (normalizeNewlines text)].
Proof.
  intros text Hno. unfold splitChapters.
  rewrite SplitterRun.run_no_heading;
    [|apply linesOf_nonEmpty | exact Hno].
  unfold linesOf. rewrite join_split. reflexivity.
Qed.

Lemma document_without_heading_is_its_own_chapter_witness :
  splitChapters ("Hello" ++ String CR NL ++ "#no heading") =
    [mkChapterData "Introduction" ("Hello" ++ NL ++ "#no heading")].
Proof.
  apply (document_without_heading_is_its_own_chapter
           ("Hello" ++ String CR NL ++ "#no heading")).
  reflexivity.
Defined.

(** ** Line ends *)

Module LineEnds.

Lemma is_lt_eqb c : is_lt c = Ascii.eqb c LF || Ascii.eqb c CR.
Proof. destruct c as [[] [] [] [] [] [] [] []]; reflexivity. Qed.

Lemma clean_not_CR c : is_lt c = false -> Ascii.eqb c CR = false.
Proof. rewrite is_lt_eqb. intros H. apply orb_false_elim in H. apply H. Qed.

Lemma clean_not_LF c : is_lt c = false -> Ascii.eqb c LF = false.
Proof. rewrite is_lt_eqb. intros H. apply orb_false_elim in H. apply H. Qed.

(** [replaceCRLF] passes over a prefix without line ends. *)
Lemma replaceCRLF_clean_app l s :
  noLineEnd l = true -> replaceCRLF (l ++ s) = l ++ replaceCRLF s.
Proof.
  induction l as [|c l IH]; intros H; [reflexivity|].
  simpl in H. apply andb_prop in H as [Hc Hl].
  apply negb_true_iff in Hc. change (String c l ++ s) with (String c (l ++ s)).
  specialize (IH Hl). destruct (l ++ s) as [|d r] eqn:E.
  - destruct l; [|discriminate E]. simpl in E. subst s. reflexivity.
  - cbn [replaceCRLF]. rewrite (clean_not_CR c Hc). cbn [andb].
    change (String c l ++ replaceCRLF s)
      with (String c (l ++ replaceCRLF s)).
    rewrite <- IH. reflexivity.
Qed.

Lemma replaceCR_app a b : replaceCR (a ++ b) = replaceCR a ++ replaceCR b.
Proof. induction a as [|c a IH]; simpl; [|rewrite IH]; reflexivity. Qed.

Lemma replaceCR_clean l : noLineEnd l = true -> replaceCR l = l.
Proof.
  induction l as [|c l IH]; intros H; [reflexivity|].
  simpl in H. apply andb_prop in H as [Hc Hl]. apply negb_true_iff in Hc.
  simpl. rewrite (clean_not_CR c Hc), (IH Hl). reflexivity.
Qed.

Lemma normalize_clean_app l s :
  noLineEnd l = true ->
  normalizeNewlines (l ++ s) = l ++ normalizeNewlines s.
Proof.
  intros H. unfold normalizeNewlines.
  rewrite (replaceCRLF_clean_app l s H), replaceCR_app, (replaceCR_clean l H).
  reflexivity.
Qed.

Lemma normalize_LF s :
  normalizeNewlines (String LF s) = String LF (normalizeNewlines s).
Proof.
  unfold normalizeNewlines. cbn [replaceCRLF]. destruct s; reflexivity.
Qed.

Lemma normalize_CRLF s :
  normalizeNewlines (String CR (String LF s)) =
    String LF (normalizeNewlines s).
Proof. reflexivity. Qed.

(** A lone carriage return is a line end of its own. *)
Lemma normalize_CR s :
  startsWith s NL = false ->
  normalizeNewlines (String CR s) = String LF (normalizeNewlines s).
Proof.
  unfold normalizeNewlines. intros H. cbn [replaceCRLF].
  destruct s as [|d r]; [reflexivity|].
  assert (Ascii.eqb d LF = false) as ->.
  { destruct (Ascii.eqb_spec d LF) as [->|]; [|reflexivity].
    destruct r; discriminate H. }
  reflexivity.
Qed.

(** Splitting a line that holds no line feed. *)
Lemma split_clean l : noLineEnd l = true -> split LF l = [l].
Proof.
  induction l as [|c l IH]; intros H; [reflexivity|].
  simpl in H. apply andb_prop in H as [Hc Hl]. apply negb_true_iff in Hc.
  simpl. rewrite (clean_not_LF c Hc), (IH Hl). reflexivity.
Qed.

Lemma split_clean_app l s :
  noLineEnd l = true -> split LF (l ++ String LF s) = l :: split LF s.
Proof.
  induction l as [|c l IH]; intros H; [reflexivity|].
  simpl in H. apply andb_prop in H as [Hc Hl]. apply negb_true_iff in Hc.
  simpl. rewrite (clean_not_LF c Hc), (IH Hl). reflexivity.
Qed.

Lemma split_join ls :
  nonEmpty ls = true ->
  forallb noLineEnd ls = true ->
  split LF (join NL ls) = ls.
Proof.
  unfold join.
  induction ls as [|l ls IH]; [discriminate|]. intros _ H.
  simpl in H. apply andb_prop in H as [Hl Hls].
  destruct ls as [|l2 ls'].
  - simpl. apply split_clean, Hl.
  - change (String.concat NL (l :: l2 :: ls'))
      with (l ++ String LF (String.concat NL (l2 :: ls'))).
    rewrite (split_clean_app l _ Hl), IH by (reflexivity || exact Hls).
    reflexivity.
Qed.

(** The lines joined by carriage returns do not start with a line
    feed. *)
Lemma join_CR_start ls :
  forallb noLineEnd ls = true ->
  startsWith (join (String CR "") ls) NL = false.
Proof.
  unfold join. destruct ls as [|l ls]; [reflexivity|]. intros H.
  simpl in H. apply andb_prop in H as [Hl _].
  destruct l as [|c l].
  - destruct ls; reflexivity.
  - simpl in Hl. apply andb_prop in Hl as [Hc _]. apply negb_true_iff in Hc.
    assert (E : forall r, startsWith (String c r) NL = false).
    { intros r.
      change (startsWith (String c r) NL)
        with (Ascii.eqb LF c && startsWith r "").
      destruct (Ascii.eqb_spec LF c) as [<-|]; [|reflexivity].
      vm_compute in Hc. discriminate Hc. }
    simpl concat. destruct ls; apply E.
Qed.

Lemma string_app_nil_r s : s ++ "" = s.
Proof. induction s as [|c s IH]; simpl; [|rewrite IH]; reflexivity. Qed.

(** Whatever the line ends, the normalised text is the lines joined by
    line feeds. *)
Lemma normalize_join sep ls :
  sep = NL \/ sep = String CR NL \/ sep = String CR "" ->
  forallb noLineEnd ls = true ->
  normalizeNewlines (join sep ls) = join NL ls.
Proof.
  intros Hsep. unfold join.
  induction ls as [|l ls IH]; [reflexivity|]. intros H.
  simpl in H. apply andb_prop in H as [Hl Hls].
  destruct ls as [|l2 ls'].
  - simpl. rewrite <- (string_app_nil_r l) at 1.
    rewrite (normalize_clean_app l "" Hl). apply string_app_nil_r.
  - change (String.concat sep (l :: l2 :: ls'))
      with (l ++ sep ++ String.concat sep (l2 :: ls')).
    change (String.concat NL (l :: l2 :: ls'))
      with (l ++ String LF (String.concat NL (l2 :: ls'))).
    rewrite (normalize_clean_app l _ Hl). f_equal.
    rewrite <- (IH Hls).
    destruct Hsep as [->|[->| ->]].
    + apply normalize_LF.
    + apply normalize_CRLF.
    + apply normalize_CR. apply (join_CR_start (l2 :: ls') Hls).
Qed.

(** The normalised text holds no carriage return. *)
Lemma replaceCR_no_CR s :
  forallb (fun c => negb (Ascii.eqb c CR)) (list_ascii_of_string (replaceCR s))
  = true.
Proof.
  induction s as [|c s IH]; [reflexivity|]. simpl. rewrite IH.
  destruct (Ascii.eqb c CR) eqn:E; [reflexivity|]. rewrite E. reflexivity.
Qed.

Lemma split_pieces_clean s :
  forallb (fun c => negb (Ascii.eqb c CR)) (list_ascii_of_string s) = true ->
  forallb noLineEnd (split LF s) = true.
Proof.
  induction s as [|c s IH]; [reflexivity|]. intros H.
  simpl in H. apply andb_prop in H as [Hc Hs]. specialize (IH Hs).
  simpl. destruct (Ascii.eqb c LF) eqn:Ec.
  - simpl. exact IH.
  - destruct (split LF s) as [|w ws]; simpl in *.
    + rewrite is_lt_eqb, Ec. apply negb_true_iff in Hc. rewrite Hc.
      reflexivity.
    + rewrite is_lt_eqb, Ec. apply negb_true_iff in Hc. rewrite Hc.
      exact IH.
Qed.

End LineEnds.

(** X4.  Lines that hold no line end are read back as they are, whether
    the document separates them by line feeds, by carriage return and
    line feed, or by carriage returns alone. *)
Theorem lines_read_back_for_every_line_end :
  forall ls,
    ls <> [] ->
    forallb noLineEnd ls = true ->
    linesOf (join NL ls) = ls
    /\ linesOf (join (String CR NL) ls) = ls
    /\ linesOf (join (String CR "") ls) = ls.
Proof.
  intros ls Hne Hclean.
  assert (Hne' : nonEmpty ls = true) by (destruct ls; [contradiction|reflexivity]).
  unfold linesOf.
  rewrite !LineEnds.normalize_join by (auto || exact Hclean).
  rewrite (LineEnds.split_join ls Hne' Hclean). repeat split.
Qed.

Lemma lines_read_back_for_every_line_end_witness :
  linesOf (join NL ["# A"; ""; "x"]) = ["# A"; ""; "x"]
  /\ linesOf (join (String CR NL) ["# A"; ""; "x"]) = ["# A"; ""; "x"]
  /\ linesOf (join (String CR "") ["# A"; ""; "x"]) = ["# A"; ""; "x"].
Proof.
  apply (lines_read_back_for_every_line_end ["# A"; ""; "x"]).
  - discriminate.
  - reflexivity.
Defined.

(** X5.  No line the splitter or the parser works on holds a carriage
    return or a line feed. *)
Theorem lines_hold_no_line_end :
  forall text, forallb noLineEnd (linesOf text) = true.
Proof.
  intros text. unfold linesOf, normalizeNewlines.
  apply LineEnds.split_pieces_clean, LineEnds.replaceCR_no_CR.
Qed.

(** ** Segmentation parser: what the blocks hold *)

Module SegmentsSound.
Import Segments SegmentsFacts.

Lemma flush_sound st k :
  k <> Block.image -> soundState st -> soundState (flush st k).
Proof.
  intros Hk [Hty [Hcur Hbl]]. split; [exact Hk|]. split; [reflexivity|].
  unfold flush. cbn [blocks].
  destruct (currentLines st) as [|l ls] eqn:E; [exact Hbl|].
  cbn [nonEmpty].
  destruct (negb (Block.isText (currentType st)) || hasContent (l :: ls));
    [|exact Hbl].
  apply Forall_app. split; [exact Hbl|].
  constructor; [|constructor].
  split; [discriminate|]. cbn [type lines].
  destruct (currentType st); try exact Hcur. contradiction.
Qed.

Lemma step_sound st l : soundState st -> soundState (step st l).
Proof.
  intros Hs. destruct (isTag l) eqn:Ht.
  - destruct (step_tag l Ht) as [k [Hk Hstep]]. rewrite Hstep.
    apply flush_sound; assumption.
  - rewrite step_not_tag by exact Ht.
    destruct (isImageLine l && Block.isText (currentType st)) eqn:Hi.
    + split; [discriminate|]. split; [reflexivity|]. cbn [blocks].
      apply Forall_app. split.
      * apply (flush_sound st Block.text); [discriminate | exact Hs].
      * constructor; [|constructor]. split; [discriminate|].
        cbn [type lines]. exists (trim l). split; [reflexivity|].
        apply andb_prop in Hi. apply Hi.
    + destruct Hs as [Hty [Hcur Hbl]].
      split; [exact Hty|]. split; [|exact Hbl].
      cbn [currentLines]. rewrite forallb_app, Hcur. simpl.
      rewrite Ht. reflexivity.
Qed.

Lemma run_sound ls : forall st, soundState st -> soundState (run st ls).
Proof.
  unfold run. induction ls as [|l ls IH]; intros st H; simpl.
  - exact H.
  - apply IH, step_sound, H.
Qed.

Lemma parseLines_sound ls : Forall soundBlock (parseLines ls).
Proof.
  unfold parseLines.
  apply (flush_sound (run init ls) Block.text); [discriminate|].
  apply run_sound. split; [discriminate|]. split; [reflexivity|constructor].
Qed.

(** The blocks a flush leaves do not depend on the kind it opens. *)
Lemma flush_blocks st k k' : blocks (flush st k) = blocks (flush st k').
Proof. reflexivity. Qed.

(** A flush right after a flush only changes the kind. *)
Lemma flush_flush st k k' : flush (flush st k) k' = flush st k'.
Proof. reflexivity. Qed.

(** Plain lines are gathered in the current block. *)
Lemma run_plain ls : forall st,
  forallb isPlainLine ls = true ->
  run st ls = mkState (blocks st) (currentLines st ++ ls) (currentType st).
Proof.
  unfold run. induction ls as [|l ls IH]; intros st H; simpl.
  - rewrite app_nil_r. destruct st; reflexivity.
  - simpl in H. apply andb_prop in H as [Hl Hls].
    unfold isPlainLine in Hl. apply andb_prop in Hl as [Ht Hi].
    apply negb_true_iff in Ht. apply negb_true_iff in Hi.
    rewrite IH by exact Hls. rewrite step_not_tag by exact Ht.
    rewrite Hi. cbn [andb blocks currentLines currentType].
    rewrite <- app_assoc. reflexivity.
Qed.

End SegmentsSound.

(** X6.  Every block of the parser's output holds at least one line.  An
    image block holds exactly one line, which is of the image syntax;
    a block of any other kind holds no sentinel tag line: the tags are
    consumed. *)
Theorem blocks_hold_lines_and_no_tag :
  forall markdown b,
    In b (parseChapterSegments markdown) ->
    lines b <> []
    /\ (type b = Block.image ->
        exists l, lines b = [l] /\ ImageRegex.test l = true)
    /\ (type b <> Block.image ->
        forall l, In l (lines b) -> isTag l = false).
Proof.
  intros markdown b Hin.
  pose proof (SegmentsSound.parseLines_sound (linesOf markdown)) as H.
  rewrite Forall_forall in H. destruct (H b Hin) as [Hne Hkind].
  split; [exact Hne|]. split.
  - intros Hty. rewrite Hty in Hkind. exact Hkind.
  - intros Hty l Hl.
    assert (Hall : forallb (fun l => negb (isTag l)) (lines b) = true).
    { destruct (type b); try exact Hkind. contradiction. }
    rewrite forallb_forall in Hall. apply negb_true_iff, Hall, Hl.
Qed.

Lemma blocks_hold_lines_and_no_tag_witness :
  lines (mkBlock Block.video [""; "after"]) <> []
  /\ (type (mkBlock Block.video [""; "after"]) = Block.image ->
      exists l, lines (mkBlock Block.video [""; "after"]) = [l]
                /\ ImageRegex.test l = true)
  /\ (type (mkBlock Block.video [""; "after"]) <> Block.image ->
      forall l, In l (lines (mkBlock Block.video [""; "after"])) ->
                isTag l = false).
Proof.
  apply (blocks_hold_lines_and_no_tag
           ("[VIDEO]" ++ NL ++ "" ++ NL ++ "after" ++ NL ++ "[TEXT]")
           (mkBlock Block.video [""; "after"])).
  left. reflexivity.
Defined.

(** X7.  A sentinel tag opens a block only if a line follows it before
    the next tag: a tag that is the last line of the chapter body, and a
    tag directly followed by another tag, leave no trace in the output.
    So [[VIDEO]] on the last line makes no video block. *)
Theorem tag_without_lines_opens_no_block :
  (forall pre t,
     isTag t = true ->
     Segments.parseLines (pre ++ [t]) = Segments.parseLines pre)
  /\
  (forall pre t1 t2 post,
     isTag t1 = true ->
     isTag t2 = true ->
     Segments.parseLines (pre ++ t1 :: t2 :: post) =
       Segments.parseLines (pre ++ t2 :: post)).
Proof.
  split.
  - intros pre t Ht. unfold Segments.parseLines, Segments.run.
    rewrite fold_left_app. cbn [fold_left].
    destruct (SegmentsFacts.step_tag t Ht) as [k [_ Hstep]].
    rewrite Hstep. reflexivity.
  - intros pre t1 t2 post H1 H2. unfold Segments.parseLines, Segments.run.
    rewrite !fold_left_app. cbn [fold_left].
    destruct (SegmentsFacts.step_tag t1 H1) as [k1 [_ Hs1]].
    destruct (SegmentsFacts.step_tag t2 H2) as [k2 [_ Hs2]].
    rewrite !Hs2, Hs1. rewrite SegmentsSound.flush_flush. reflexivity.
Qed.

Lemma tag_without_lines_opens_no_block_witness :
  Segments.parseLines (["Hello"] ++ ["[VIDEO]"]) = Segments.parseLines ["Hello"]
  /\
  Segments.parseLines (["Hello"] ++ "[VIDEO]" :: "[QUIZ]" :: ["? Q"]) =
    Segments.parseLines (["Hello"] ++ "[QUIZ]" :: ["? Q"]).
Proof.
  split.
  - apply (proj1 tag_without_lines_opens_no_block). reflexivity.
  - apply (proj2 tag_without_lines_opens_no_block); reflexivity.
Defined.

(** X8.  A chapter body without sentinel tags and image lines is one
    text block holding all its lines, when one of them is not blank, and
    no block at all when every line is blank. *)
Theorem plain_body_is_one_text_block :
  forall markdown,
    forallb isPlainLine (linesOf markdown) = true ->
    parseChapterSegments markdown =
      if Segments.hasContent (linesOf markdown)
      then [mkBlock Block.text (linesOf markdown)]
      else [].
Proof.
  intros markdown H. unfold parseChapterSegments, Segments.parseLines.
  rewrite (SegmentsSound.run_plain _ Segments.init H).
  unfold Segments.flush. cbn [Segments.blocks Segments.currentLines
    Segments.currentType Segments.init app Block.isText negb orb].
  rewrite linesOf_nonEmpty. reflexivity.
Qed.

Lemma plain_body_is_one_text_block_witness :
  parseChapterSegments ("Hello" ++ NL ++ "" ++ NL ++ "- item") =
    [mkBlock Block.text ["Hello"; ""; "- item"]]
  /\ parseChapterSegments (" " ++ NL ++ "") = [].
Proof.
  split.
  - apply (plain_body_is_one_text_block
             ("Hello" ++ NL ++ "" ++ NL ++ "- item")).
    reflexivity.
  - apply (plain_body_is_one_text_block (" " ++ NL ++ "")). reflexivity.
Defined.

(** ** Library version resolver: the strings it returns *)

Module ResolverFacts.

Lemma string_app_assoc a b c : (a ++ b) ++ c = a ++ b ++ c.
Proof. induction a as [|x a IH]; simpl; [|rewrite IH]; reflexivity. Qed.

Lemma allChars_app P a b :
  allChars P (a ++ b) = allChars P a && allChars P b.
Proof.
  induction a as [|x a IH]; simpl; [reflexivity|].
  rewrite IH, andb_assoc. reflexivity.
Qed.

Lemma allChars_weaken (P Q : ascii -> bool) s :
  (forall c, P c = true -> Q c = true) ->
  allChars P s = true -> allChars Q s = true.
Proof.
  intros HPQ. induction s as [|c s IH]; simpl; [reflexivity|].
  intros H. apply andb_prop in H as [Hc Hs].
  rewrite (HPQ c Hc), (IH Hs). reflexivity.
Qed.

Lemma digits_versionChars s : allDigits s = true -> versionChars s = true.
Proof.
  apply allChars_weaken. intros c H. unfold isVersionChar. rewrite H.
  reflexivity.
Qed.

Lemma skipDigits_versionChars s :
  versionChars (VersionRegex.skipDigits s) = true -> versionChars s = true.
Proof.
  unfold versionChars.
  induction s as [|c s IH]; simpl; [reflexivity|].
  destruct (is_digit c) eqn:Hc; [|exact (fun H => H)].
  intros H. unfold isVersionChar at 1. rewrite Hc, (IH H). reflexivity.
Qed.

(** What the version pattern accepts is made of digits and dots. *)
Lemma test_versionChars s :
  VersionRegex.test s = true -> versionChars s = true.
Proof.
  unfold VersionRegex.test. destruct s as [|c r]; [discriminate|].
  intros H. apply andb_prop in H as [Hc H].
  unfold versionChars. simpl. unfold isVersionChar at 1. rewrite Hc.
  apply skipDigits_versionChars.
  destruct (VersionRegex.skipDigits r) as [|d1 rr]; [discriminate H|].
  destruct (Ascii.eqb_spec d1 ".") as [->|Hne].
  - destruct rr as [|d2 r']; [discriminate H|].
    apply andb_prop in H as [Hd Hrest].
    unfold versionChars. simpl. unfold isVersionChar at 1. rewrite Hd.
    apply (skipDigits_versionChars r').
    apply isEmpty_true in Hrest. rewrite Hrest. reflexivity.
  - exfalso. destruct d1 as [[] [] [] [] [] [] [] []];
      try discriminate H. apply Hne. reflexivity.
Qed.

(** A string of version characters holds no pattern that starts with a
    character of another kind. *)
Lemma versionChars_excludes ch p v :
  isVersionChar ch = false ->
  versionChars v = true ->
  includes v (String ch p) = false.
Proof.
  intros Hch. unfold versionChars.
  induction v as [|c v IH]; intros H; [reflexivity|].
  simpl in H. apply andb_prop in H as [Hc Hv].
  change (includes (String c v) (String ch p))
    with ((Ascii.eqb ch c && startsWith v p) || includes v (String ch p)).
  rewrite (IH Hv), orb_false_r.
  destruct (Ascii.eqb_spec ch c) as [->|]; [|reflexivity].
  rewrite Hc in Hch. discriminate Hch.
Qed.



(** For a name the manifest does not declare the resolver returns the
    name, a space, and the version of the folder or the default. *)
Lemma getLibVersion_undeclared zip deps name defaultVersion :
  declared deps name = None ->
  exists v,
    getLibVersion zip deps name defaultVersion = name ++ " " ++ v
    /\ (v = defaultVersion \/ VersionRegex.test v = true)
    /\ (folderPath zip name = None -> v = defaultVersion).
Proof.
  unfold declared, folderPath, getLibVersion. intros Hd. rewrite Hd.
  destruct (find _ (Zip.keys zip)) as [foundFolder|];
    [|exists defaultVersion; split; [reflexivity|];
      split; [left; reflexivity | reflexivity]].
  destruct (truthy foundFolder);
    [|exists defaultVersion; split; [reflexivity|];
      split; [left; reflexivity | discriminate]].
  match goal with
  | |- context [VersionRegex.test ?v] =>
      destruct (VersionRegex.test v) eqn:Ht;
      [exists v; split; [reflexivity|];
       split; [right; exact Ht | discriminate]
      |exists defaultVersion; split; [reflexivity|];
       split; [left; reflexivity | discriminate]]
  end.
Qed.

Lemma undeclared_versionChars zip deps name defaultVersion :
  declared deps name = None ->
  versionChars defaultVersion = true ->
  exists v,
    getLibVersion zip deps name defaultVersion = name ++ " " ++ v
    /\ versionChars v = true.
Proof.
  intros Hdecl Hd.
  destruct (getLibVersion_undeclared zip deps name defaultVersion Hdecl)
    as [v [Hv [[->|Ht] _]]].
  - exists defaultVersion. split; assumption.
  - exists v. split; [exact Hv | exact (test_versionChars v Ht)].
Qed.

End ResolverFacts.



Module ResolverTable.
Import ResolverFacts.

(** Closes [available (Some (name ++ " " ++ v)) = Some _] for a name
    given in full and a version [v] of digits and dots. *)
Ltac available_by_version Hv :=
  unfold available; cbn;
  rewrite (versionChars_excludes "n" "ull" _ eq_refl Hv); reflexivity.

Lemma accordion_available zip deps :
  declared deps "H5P.Accordion" = None ->
  available (accordion (resolveLibs zip deps)) =
    Some (getLibVersion zip deps "H5P.Accordion" "1.0").
Proof.
  intros Hdecl. unfold resolveLibs. cbn [accordion].
  destruct (undeclared_versionChars zip deps "H5P.Accordion" "1.0"
              Hdecl eq_refl) as [v [-> Hv]].
  available_by_version Hv.
Qed.

Lemma singleChoice_available zip deps :
  declared deps "H5P.SingleChoiceSet" = None ->
  available (singleChoice (resolveLibs zip deps)) =
    Some (getLibVersion zip deps "H5P.SingleChoiceSet" "1.11").
Proof.
  intros Hdecl. unfold resolveLibs. cbn [singleChoice].
  destruct (undeclared_versionChars zip deps "H5P.SingleChoiceSet" "1.11"
              Hdecl eq_refl) as [v [-> Hv]].
  available_by_version Hv.
Qed.

Lemma image_available zip deps :
  declared deps "H5P.Image" = None ->
  available (image (resolveLibs zip deps)) =
    Some (getLibVersion zip deps "H5P.Image" "1.1").
Proof.
  intros Hdecl. unfold resolveLibs. cbn [image].
  destruct (undeclared_versionChars zip deps "H5P.Image" "1.1"
              Hdecl eq_refl) as [v [-> Hv]].
  available_by_version Hv.
Qed.

Lemma video_available zip deps :
  declared deps "H5P.Video" = None ->
  available (video (resolveLibs zip deps)) =
    Some (getLibVersion zip deps "H5P.Video" "1.5").
Proof.
  intros Hdecl. unfold resolveLibs. cbn [video].
  destruct (undeclared_versionChars zip deps "H5P.Video" "1.5"
              Hdecl eq_refl) as [v [-> Hv]].
  available_by_version Hv.
Qed.

Lemma blanks_available zip deps :
  declared deps "H5P.Blanks" = None ->
  available (blanks (resolveLibs zip deps)) =
    Some (getLibVersion zip deps "H5P.Blanks" "1.12").
Proof.
  intros Hdecl. unfold resolveLibs. cbn [blanks].
  destruct (undeclared_versionChars zip deps "H5P.Blanks" "1.12"
              Hdecl eq_refl) as [v [-> Hv]].
  available_by_version Hv.
Qed.

Lemma dragText_available zip deps :
  declared deps "H5P.DragText" = None ->
  available (dragText (resolveLibs zip deps)) =
    Some (getLibVersion zip deps "H5P.DragText" "1.8").
Proof.
  intros Hdecl. unfold resolveLibs. cbn [dragText].
  destruct (undeclared_versionChars zip deps "H5P.DragText" "1.8"
              Hdecl eq_refl) as [v [-> Hv]].
  available_by_version Hv.
Qed.

(** The text library is what the resolver finds for the advanced text. *)
Lemma text_resolved zip deps :
  declared deps "H5P.AdvancedText" = None ->
  text (resolveLibs zip deps) =
    getLibVersion zip deps "H5P.AdvancedText" ""
  /\ isAdvancedText (resolveLibs zip deps) = true.
Proof.
  intros Hdecl. unfold resolveLibs. cbn [text isAdvancedText].
  destruct (undeclared_versionChars zip deps "H5P.AdvancedText" ""
              Hdecl eq_refl) as [v [-> Hv]].
  cbn. rewrite (versionChars_excludes "u" "ndefined" _ eq_refl Hv).
  split; reflexivity.
Qed.

Lemma startsWith_self p v : startsWith (p ++ v) p = true.
Proof.
  induction p as [|c p IH]; simpl; [destruct v; reflexivity|].
  rewrite Ascii.eqb_refl. exact IH.
Qed.

Lemma drop_app p v : drop (String.length p) (p ++ v) = v.
Proof.
  induction p as [|c p IH]; simpl; [destruct v; reflexivity | exact IH].
Qed.

Lemma replaceFirst_eq s p r :
  replaceFirst s p r =
    if startsWith s p then r ++ drop (String.length p) s
    else match s with
         | EmptyString => EmptyString
         | String c s' => String c (replaceFirst s' p r)
         end.
Proof. destruct s; reflexivity. Qed.

Lemma replaceFirst_prefix p v : replaceFirst (p ++ v) p "" = v.
Proof.
  rewrite replaceFirst_eq, startsWith_self, drop_app. reflexivity.
Qed.

Lemma split_head x rest :
  noSlash x = true ->
  split "/" (x ++ String "/" rest) = x :: split "/" rest.
Proof.
  unfold noSlash. induction x as [|c x IH]; intros H; [reflexivity|].
  simpl in H. apply andb_prop in H as [Hc Hx]. apply negb_true_iff in Hc.
  simpl. rewrite Hc, (IH Hx). reflexivity.
Qed.

Lemma digits_noSlash s : allDigits s = true -> noSlash s = true.
Proof.
  apply allChars_weaken. intros c H.
  destruct (Ascii.eqb_spec c "/") as [->|]; [discriminate H | reflexivity].
Qed.

Lemma skipDigits_all s :
  allDigits s = true -> VersionRegex.skipDigits s = "".
Proof.
  unfold allDigits. induction s as [|c s IH]; simpl; [reflexivity|].
  intros H. apply andb_prop in H as [Hc Hs]. rewrite Hc. exact (IH Hs).
Qed.

Lemma skipDigits_stop a x s :
  allDigits a = true -> is_digit x = false ->
  VersionRegex.skipDigits (a ++ String x s) = String x s.
Proof.
  unfold allDigits. intros Ha Hx.
  induction a as [|c a IH]; simpl.
  - rewrite Hx. reflexivity.
  - simpl in Ha. apply andb_prop in Ha as [Hc Ha]. rewrite Hc.
    exact (IH Ha).
Qed.

(** The version pattern accepts two numbers joined by a dot. *)
Lemma test_major_minor a b :
  allDigits a = true -> truthy a = true ->
  allDigits b = true -> truthy b = true ->
  VersionRegex.test (a ++ "." ++ b) = true.
Proof.
  intros Ha Hta Hb Htb.
  destruct a as [|c a]; [discriminate Hta|].
  destruct b as [|d b]; [discriminate Htb|].
  unfold allDigits in *. cbn [allChars] in Ha, Hb.
  apply andb_prop in Ha as [Hc Ha]. apply andb_prop in Hb as [Hd Hb].
  unfold VersionRegex.test.
  change (String c a ++ "." ++ String d b)
    with (String c (a ++ String "." (String d b))).
  cbv beta iota.
  rewrite Hc, (skipDigits_stop a "." _ Ha eq_refl), Hd.
  rewrite (skipDigits_all b Hb). reflexivity.
Qed.

Lemma truthy_app_cons a c b : truthy (a ++ String c b) = true.
Proof. destruct a; reflexivity. Qed.

End ResolverTable.

(** X10.  A library that the manifest does not declare is never
    taken as missing.  With the library table [buildH5P] resolves, the
    builder of such a library returns an object, whether the archive
    holds a folder of the library or not: the resolver gives the
    version of the folder, or the default, and the "Library missing"
    text is not put in place of the block. *)
Theorem undeclared_library_is_never_missing :
  forall marked_parse processHtmlContent zip deps ls line n,
    (declared deps "H5P.Accordion" = None ->
     exists o, fst (buildAccordionObject marked_parse processHtmlContent
                      ls (resolveLibs zip deps) n) = Some o)
    /\ (declared deps "H5P.SingleChoiceSet" = None ->
        exists o, fst (buildQuizObject ls (resolveLibs zip deps) n) = Some o)
    /\ (declared deps "H5P.Image" = None ->
        exists o, fst (buildImageObject line (resolveLibs zip deps) n)
                  = Some o)
    /\ (declared deps "H5P.Video" = None ->
        exists o, fst (buildVideoObject (resolveLibs zip deps) n) = Some o)
    /\ (declared deps "H5P.Blanks" = None ->
        exists o, fst (buildBlanksObject ls (resolveLibs zip deps) n)
                  = Some o)
    /\ (declared deps "H5P.DragText" = None ->
        exists o, fst (buildDragTextObject ls (resolveLibs zip deps) n)
                  = Some o).
Proof.
  intros mp ph zip deps ls line n. repeat split; intros Hdecl.
  - unfold buildAccordionObject.
    rewrite (ResolverTable.accordion_available zip deps Hdecl).
    unfold bind.
    match goal with |- context [mapM ?f ?l n] => destruct (mapM f l n) end.
    eexists. reflexivity.
  - unfold buildQuizObject.
    rewrite (ResolverTable.singleChoice_available zip deps Hdecl).
    unfold bind. destruct (QuizLoop.run ls n). eexists. reflexivity.
  - unfold buildImageObject.
    rewrite (ResolverTable.image_available zip deps Hdecl).
    eexists. reflexivity.
  - unfold buildVideoObject.
    rewrite (ResolverTable.video_available zip deps Hdecl).
    eexists. reflexivity.
  - unfold buildBlanksObject.
    rewrite (ResolverTable.blanks_available zip deps Hdecl).
    eexists. reflexivity.
  - unfold buildDragTextObject.
    rewrite (ResolverTable.dragText_available zip deps Hdecl).
    eexists. reflexivity.
Qed.

Lemma undeclared_library_is_never_missing_witness :
  (exists o, fst (buildAccordionObject (fun s => s) (fun s => s)
                    ["+++ A"; "x"]
                    (resolveLibs [("h5p.json", mkZipObject false "{}")]
                                 [mkDependency "H5P.Column" 1 13]) 0)
             = Some o)
  /\ (exists o, fst (buildVideoObject
                       (resolveLibs [("h5p.json", mkZipObject false "{}")]
                                    [mkDependency "H5P.Column" 1 13]) 0)
                = Some o).
Proof.
  split.
  - apply (proj1 (undeclared_library_is_never_missing
                    (fun s => s) (fun s => s)
                    [("h5p.json", mkZipObject false "{}")]
                    [mkDependency "H5P.Column" 1 13] ["+++ A"; "x"] "" 0)).
    reflexivity.
  - apply (proj1 (proj2 (proj2 (proj2
             (undeclared_library_is_never_missing
                (fun s => s) (fun s => s)
                [("h5p.json", mkZipObject false "{}")]
                [mkDependency "H5P.Column" 1 13] ["+++ A"; "x"] "" 0))))).
    reflexivity.
Defined.

(** X11.  When the manifest does not declare [H5P.AdvancedText], the
    text library of the resolved table is still what the resolver
    returns for it, and the table marks it as the advanced text: the
    plain [H5P.Text] is not asked for, whether the template holds it or
    not.  Without a folder of the advanced text in the archive, the
    text library is the bare name followed by a space, without a
    version. *)
Theorem undeclared_advanced_text_is_the_text_library :
  forall zip deps,
    declared deps "H5P.AdvancedText" = None ->
    text (resolveLibs zip deps) =
      getLibVersion zip deps "H5P.AdvancedText" ""
    /\ isAdvancedText (resolveLibs zip deps) = true
    /\ (folderPath zip "H5P.AdvancedText" = None ->
        text (resolveLibs zip deps) = "H5P.AdvancedText ").
Proof.
  intros zip deps Hd.
  destruct (ResolverTable.text_resolved zip deps Hd) as [Ht Ha].
  split; [exact Ht|]. split; [exact Ha|].
  intros Hf. rewrite Ht.
  rewrite getLibVersion_fallback; [reflexivity | exact Hd | exact Hf].
Qed.

Lemma undeclared_advanced_text_is_the_text_library_witness :
  text (resolveLibs [("H5P.Text-1.1/library.json", mkZipObject false "{}")]
                    [mkDependency "H5P.Text" 1 1]) = "H5P.AdvancedText ".
Proof.
  apply (proj2 (proj2 (undeclared_advanced_text_is_the_text_library
           [("H5P.Text-1.1/library.json", mkZipObject false "{}")]
           [mkDependency "H5P.Text" 1 1] eq_refl))); reflexivity.
Defined.

(** X12.  The version of a folder is read back: when the manifest does
    not declare the library and the first archive path the resolver
    takes lies in the folder [<name>-<major>.<minor>/], with [major]
    and [minor] two numbers in digits, the resolver returns
    [<name> <major>.<minor>], whatever default it was given. *)
Theorem folder_version_is_read_back :
  forall zip deps name defaultVersion major minor rest,
    noSlash name = true ->
    allDigits major = true -> major <> "" ->
    allDigits minor = true -> minor <> "" ->
    declared deps name = None ->
    folderPath zip name =
      Some (name ++ "-" ++ major ++ "." ++ minor ++ "/" ++ rest) ->
    getLibVersion zip deps name defaultVersion =
      name ++ " " ++ major ++ "." ++ minor.
Proof.
  intros zip deps name defaultVersion major minor rest
         Hname Hmaj Hmaj0 Hmin Hmin0 Hd Hf.
  assert (Htmaj : truthy major = true)
    by (destruct major; [contradiction | reflexivity]).
  assert (Htmin : truthy minor = true)
    by (destruct minor; [contradiction | reflexivity]).
  unfold declared in Hd. unfold folderPath in Hf.
  unfold getLibVersion. rewrite Hd, Hf.
  set (v := major ++ "." ++ minor).
  replace (name ++ "-" ++ major ++ "." ++ minor ++ "/" ++ rest)
    with (((name ++ "-") ++ v) ++ String "/" rest)
    by (unfold v;
        rewrite !ResolverFacts.string_app_assoc; reflexivity).
  rewrite ResolverTable.truthy_app_cons.
  rewrite ResolverTable.split_head.
  - cbn [hd]. rewrite ResolverTable.replaceFirst_prefix.
    unfold v.
    rewrite (ResolverTable.test_major_minor major minor
               Hmaj Htmaj Hmin Htmin).
    reflexivity.
  - unfold noSlash, v in *. rewrite !ResolverFacts.allChars_app, Hname.
    pose proof (ResolverTable.digits_noSlash _ Hmaj) as H1.
    pose proof (ResolverTable.digits_noSlash _ Hmin) as H2.
    unfold noSlash in H1, H2. rewrite H1, H2. reflexivity.
Qed.

Lemma folder_version_is_read_back_witness :
  getLibVersion [("h5p.json", mkZipObject false "{}");
                 ("H5P.Video-1.06/library.json", mkZipObject false "{}")]
                [mkDependency "H5P.Column" 1 13] "H5P.Video" "1.5" =
    "H5P.Video 1.06".
Proof.
  apply (folder_version_is_read_back
           [("h5p.json", mkZipObject false "{}");
            ("H5P.Video-1.06/library.json", mkZipObject false "{}")]
           [mkDependency "H5P.Column" 1 13] "H5P.Video" "1.5"
           "1" "06" "library.json");
    solve [reflexivity | discriminate].
Defined.

(** ** Directory-entry repair: the table it leaves *)

Module RepairFilter.
Import RepairFacts.

Lemma delete_absent k files :
  ~ In k (Zip.keys files) -> Zip.delete k files = files.
Proof.
  unfold Zip.delete, Zip.keys.
  induction files as [|[k0 e] files IH]; intros H; [reflexivity|].
  simpl in *. destruct (String.eqb_spec k0 k) as [->|Hne].
  - exfalso. apply H. left. reflexivity.
  - simpl. rewrite IH; [reflexivity|]. intros Hin. apply H. right. exact Hin.
Qed.

Lemma delete_app k (a b : ZipFiles) :
  Zip.delete k (a ++ b)%list = (Zip.delete k a ++ Zip.delete k b)%list.
Proof. apply filter_app. Qed.

Lemma delete_head k e rest :
  Zip.delete k ((k, e) :: rest) = Zip.delete k rest.
Proof. unfold Zip.delete. simpl. rewrite String.eqb_refl. reflexivity. Qed.

Lemma get_app_absent k (a b : ZipFiles) :
  ~ In k (Zip.keys a) -> Zip.get k (a ++ b)%list = Zip.get k b.
Proof.
  induction a as [|[k0 e] a IH]; intros H; [reflexivity|].
  simpl in *. destruct (String.eqb_spec k0 k) as [->|Hne].
  - exfalso. apply H. left. reflexivity.
  - apply IH. intros Hin. apply H. right. exact Hin.
Qed.

Lemma keys_app (a b : ZipFiles) :
  Zip.keys (a ++ b)%list = (Zip.keys a ++ Zip.keys b)%list.
Proof. apply map_app. Qed.

(** On a table without repeated keys the scan is a filter. *)
Lemma scan_filter (rest : ZipFiles) : forall done : ZipFiles,
  NoDup (Zip.keys (done ++ rest)%list) ->
  fold_left Repair.step (Zip.keys rest) (done ++ rest)%list =
    (done ++ filter (fun p => negb (isContentFolder (fst p) (snd p))) rest)%list.
Proof.
  induction rest as [|[k e] rest IH]; intros done Hnd; [reflexivity|].
  rewrite keys_app in Hnd. cbn [Zip.keys map fst] in Hnd.
  pose proof (NoDup_remove_1 _ _ _ Hnd) as Hnd'.
  pose proof (NoDup_remove_2 _ _ _ Hnd) as Hk.
  assert (Hk1 : ~ In k (Zip.keys done)).
  { intros Hin. apply Hk, in_or_app. left. exact Hin. }
  assert (Hk2 : ~ In k (Zip.keys rest)).
  { intros Hin. apply Hk, in_or_app. right. exact Hin. }
  cbn [Zip.keys map fst fold_left filter snd].
  unfold Repair.step at 2.
  rewrite (get_app_absent k done _ Hk1). cbn [Zip.get].
  rewrite String.eqb_refl.
  fold (isContentFolder k e).
  destruct (isContentFolder k e) eqn:Hdel; cbn [negb].
  - rewrite delete_app, delete_head, (delete_absent k done Hk1),
      (delete_absent k rest Hk2).
    apply IH. rewrite keys_app. exact Hnd'.
  - replace (done ++ (k, e) :: rest)%list
      with ((done ++ [(k, e)]) ++ rest)%list
      by (rewrite <- app_assoc; reflexivity).
    change (map fst rest) with (Zip.keys rest).
    rewrite (IH (done ++ [(k, e)])%list).
    + rewrite <- app_assoc. reflexivity.
    + rewrite <- app_assoc, keys_app. exact Hnd.
Qed.

Lemma NoDup_keys_filter (f : string * ZipObject -> bool) files :
  NoDup (Zip.keys files) -> NoDup (Zip.keys (filter f files)).
Proof.
  unfold Zip.keys.
  induction files as [|[k e] files IH]; intros H; [constructor|].
  simpl in H. inversion H as [|? ? Hk Hnd]; subst. simpl.
  destruct (f (k, e)); [|exact (IH Hnd)].
  simpl. constructor; [|exact (IH Hnd)].
  intros Hin. apply Hk. apply in_map_iff in Hin as [[k' e'] [Hfst Hin]].
  apply filter_In in Hin as [Hin _]. apply in_map_iff.
  exists (k', e'). split; assumption.
Qed.

Lemma filter_twice {A} (f g : A -> bool) l :
  filter f (filter g l) = filter (fun x => g x && f x) l.
Proof.
  induction l as [|x l IH]; [reflexivity|]. simpl.
  destruct (g x); simpl; [destruct (f x)|]; rewrite IH; reflexivity.
Qed.

(** The first step of the repair is a deletion in every case. *)
Lemma first_step files :
  match Zip.get "content/" files with
  | Some _ => Zip.delete "content/" files
  | None => files
  end = Zip.delete "content/" files.
Proof.
  destruct (Zip.get "content/" files) eqn:E; [reflexivity|].
  symmetry. apply delete_absent. intros Hin.
  apply get_In in Hin. apply Hin, E.
Qed.

(** The repair as a filter. *)
Lemma run_filter files :
  NoDup (Zip.keys files) ->
  Repair.run files = filter (fun p => negb (isRemoved p)) files.
Proof.
  intros Hnd. unfold Repair.run. rewrite first_step.
  pose proof (scan_filter (Zip.delete "content/" files) []) as H.
  cbn [app] in H. rewrite H by (apply NoDup_keys_filter, Hnd).
  unfold Zip.delete. rewrite filter_twice.
  apply filter_ext. intros [k e]. unfold isRemoved.
  rewrite negb_orb. reflexivity.
Qed.

End RepairFilter.

(** X13.  On an entry table, whose keys are distinct, the repair is a
    filter: it removes the entry [content/] and the entries under
    [content/] that end with [/] and carry the folder flag; every other
    entry stays, with its contents and in its place in the order of the
    table. *)
Theorem repair_is_a_filter :
  forall files,
    NoDup (Zip.keys files) ->
    Repair.run files = filter (fun p => negb (isRemoved p)) files.
Proof.
  intros files Hnd. rewrite (RepairFilter.run_filter files Hnd).
  reflexivity.
Qed.

Lemma repair_is_a_filter_witness :
  Repair.run [("h5p.json", mkZipObject false "{}");
              ("content/", mkZipObject true "");
              ("content/images/", mkZipObject true "");
              ("content/content.json", mkZipObject false "{}")] =
    [("h5p.json", mkZipObject false "{}");
     ("content/content.json", mkZipObject false "{}")].
Proof.
  apply (repair_is_a_filter
           [("h5p.json", mkZipObject false "{}");
            ("content/", mkZipObject true "");
            ("content/images/", mkZipObject true "");
            ("content/content.json", mkZipObject false "{}")]).
  repeat constructor; simpl; intuition discriminate.
Defined.

(** X14.  Repairing a repaired table changes nothing. *)
Theorem repair_is_idempotent :
  forall files,
    NoDup (Zip.keys files) ->
    Repair.run (Repair.run files) = Repair.run files.
Proof.
  intros files Hnd.
  rewrite (RepairFilter.run_filter files Hnd).
  rewrite RepairFilter.run_filter
    by (apply RepairFilter.NoDup_keys_filter, Hnd).
  rewrite RepairFilter.filter_twice. apply filter_ext.
  intros p. apply andb_diag.
Qed.

Lemma repair_is_idempotent_witness :
  Repair.run (Repair.run [("content/", mkZipObject true "");
                          ("content/a/", mkZipObject true "");
                          ("content/a/b.txt", mkZipObject false "b")]) =
    Repair.run [("content/", mkZipObject true "");
                ("content/a/", mkZipObject true "");
                ("content/a/b.txt", mkZipObject false "b")].
Proof.
  apply (repair_is_idempotent
           [("content/", mkZipObject true "");
            ("content/a/", mkZipObject true "");
            ("content/a/b.txt", mkZipObject false "b")]).
  repeat constructor; simpl; intuition discriminate.
Defined.

(** X15.  The repair touches nothing outside the content root: an entry
    name that does not start with [content/] is looked up after the
    repair as before it, the folder entries of the libraries
    included. *)
Theorem repair_leaves_other_roots :
  forall files k,
    startsWith k "content/" = false ->
    Zip.get k (Repair.run files) = Zip.get k files.
Proof.
  intros files k Hk.
  assert (Hne : k <> "content/") by (intros ->; discriminate Hk).
  unfold Repair.run. rewrite RepairFilter.first_step.
  destruct (Zip.get k files) as [e|] eqn:Hget.
  - apply RepairFacts.scan_keeps_entry.
    + rewrite RepairFacts.get_delete_other by exact Hne. exact Hget.
    + unfold isContentFolder. rewrite Hk. reflexivity.
  - apply RepairFacts.scan_keeps_none.
    rewrite RepairFacts.get_delete_other by exact Hne. exact Hget.
Qed.

Lemma repair_leaves_other_roots_witness :
  Zip.get "H5P.Column-1.13/"
    (Repair.run [("content/", mkZipObject true "");
                 ("H5P.Column-1.13/", mkZipObject true "")]) =
    Some (mkZipObject true "").
Proof.
  apply (repair_leaves_other_roots
           [("content/", mkZipObject true "");
            ("H5P.Column-1.13/", mkZipObject true "")] "H5P.Column-1.13/").
  reflexivity.
Defined.

(** ** Quiz and accordion builders: every question, every panel *)

Module QuizAll.
Import Quiz QuizLoop.

(** A step adds the question of a question line and changes no
    question already there. *)
Lemma step_questions st l n :
  map question (close (fst (step st l n))) =
    (map question (close st)
     ++ (if isQuestion l then [markedText l] else []))%list.
Proof.
  unfold step. destruct (isQuestion l).
  - unfold bind, uuidv4, ret. cbn [fst]. unfold close at 1.
    cbn [currentChoice choices]. rewrite map_app. reflexivity.
  - rewrite app_nil_r. unfold close, ret.
    destruct (currentChoice st) as [c|] eqn:Hc.
    + destruct (isCorrect l); [|destruct (isWrong l)];
        cbn [fst currentChoice choices]; rewrite ?Hc, ?map_app;
        reflexivity.
    + cbn [fst]. rewrite Hc. reflexivity.
Qed.

Lemma scan_questions ls : forall st n,
  map question (close (fst (foldM step ls st n))) =
    (map question (close st)
     ++ map markedText (filter isQuestion ls))%list.
Proof.
  induction ls as [|l ls IH]; intros st n.
  - simpl. rewrite app_nil_r. reflexivity.
  - rewrite QuizRun.foldM_cons, IH, step_questions. cbn [filter].
    destruct (isQuestion l); cbn [map]; rewrite <- app_assoc; reflexivity.
Qed.

End QuizAll.

Module AccordionAll.
Import AccordionLoop.

Lemma pushLine_titles i l ps :
  map title (pushLine i l ps) = map title ps.
Proof.
  revert i. induction ps as [|p ps IH]; intros i; [destruct i; reflexivity|].
  destruct i; simpl; [|rewrite IH]; reflexivity.
Qed.

Lemma scan_titles ls : forall st,
  map title (panels (fold_left step ls st)) =
    (map title (panels st) ++ map panelTitle (filter isMarker ls))%list.
Proof.
  induction ls as [|l ls IH]; intros st; simpl.
  - rewrite app_nil_r. reflexivity.
  - rewrite IH. unfold step. destruct (isMarker l); cbn [panels map].
    + rewrite map_app, <- app_assoc. reflexivity.
    + destruct (currentPanel st); cbn [panels];
        rewrite ?pushLine_titles; reflexivity.
Qed.

(** With the panel pushed last as the current one, the lines that are
    no markers go to the bodies, in order. *)
Lemma scan_bodies ls : forall ps p,
  concat (map markdownLines
            (panels (fold_left step ls
                       (mkState (ps ++ [p]) (Some (length ps)))))) =
    (concat (map markdownLines (ps ++ [p]))
     ++ filter (fun l => negb (isMarker l)) ls)%list.
Proof.
  induction ls as [|l ls IH]; intros ps p; simpl.
  - rewrite app_nil_r. reflexivity.
  - unfold step at 2. destruct (isMarker l) eqn:Hm;
      cbn [panels currentPanel negb].
    + rewrite (IH (ps ++ [p])%list (mkPanel (panelTitle l) [])).
      rewrite (map_app _ (ps ++ [p])), concat_app. simpl.
      rewrite !app_nil_r. reflexivity.
    + rewrite AccordionFacts.pushLine_last, IH.
      rewrite !map_app, !concat_app. simpl. rewrite !app_nil_r.
      rewrite <- !app_assoc. reflexivity.
Qed.

Lemma run_bodies ls :
  concat (map markdownLines (run ls)) =
    filter (fun l => negb (isMarker l)) (afterFirstMarker ls).
Proof.
  unfold run. induction ls as [|l ls IH]; [reflexivity|].
  simpl. unfold step at 2. destruct (isMarker l) eqn:Hm.
  - change (panels init ++ [mkPanel (panelTitle l) []])%list
      with ([] ++ [mkPanel (panelTitle l) []])%list.
    change (length (panels init)) with (@length panel []).
    rewrite scan_bodies. reflexivity.
  - exact IH.
Qed.

End AccordionAll.

(** The panels [buildAccordionObject] makes keep the titles of the
    loop. *)
Lemma processPanels_titles marked_parse processHtmlContent libs ps :
  forall n,
    map Accordion.title
        (fst (mapM (processPanel marked_parse processHtmlContent libs) ps n))
    = map AccordionLoop.title ps.
Proof.
  induction ps as [|p ps IH]; intros n; [reflexivity|].
  simpl. unfold bind at 1. unfold processPanel at 1.
  unfold bind at 1. unfold uuidv4, ret. unfold bind.
  specialize (IH (S n)).
  destruct (mapM (processPanel marked_parse processHtmlContent libs) ps (S n)).
  cbn [fst map Accordion.title] in *. rewrite IH. reflexivity.
Qed.

(** X16.  A quiz block builds one choice for each question line, in
    source order, with the text of that line as its question; a
    question line followed by no answer line still makes a choice. *)
Theorem one_choice_per_question_line :
  forall libs lib ls n,
    available (singleChoice libs) = Some lib ->
    exists obj,
      fst (buildQuizObject ls libs n) = Some obj
      /\ map Quiz.question (quizChoices obj) =
           map QuizLoop.markedText (filter QuizLoop.isQuestion ls)
      /\ length (quizChoices obj) = countQuestions ls.
Proof.
  intros libs lib ls n Hlib.
  destruct (buildQuizObject_available ls libs lib n Hlib)
    as [obj [Hobj Hchoices]].
  exists obj. split; [exact Hobj|].
  assert (H : map Quiz.question (quizChoices obj) =
              map QuizLoop.markedText (filter QuizLoop.isQuestion ls)).
  { rewrite Hchoices. unfold QuizLoop.run, bind.
    pose proof (QuizAll.scan_questions ls QuizLoop.init n) as Hs.
    destruct (foldM QuizLoop.step ls QuizLoop.init n). exact Hs. }
  split; [exact H|].
  unfold countQuestions.
  rewrite <- (length_map Quiz.question), H, length_map. reflexivity.
Qed.

Lemma one_choice_per_question_line_witness :
  exists obj,
    fst (buildQuizObject ["? First"; "* yes"; "? Second"; "stray"; "? Third"]
           (resolveLibs [] []) 0) = Some obj
    /\ map Quiz.question (quizChoices obj) = ["First"; "Second"; "Third"]
    /\ length (quizChoices obj) = 3.
Proof.
  apply (one_choice_per_question_line (resolveLibs [] [])
           "H5P.SingleChoiceSet 1.11"
           ["? First"; "* yes"; "? Second"; "stray"; "? Third"] 0).
  reflexivity.
Defined.

(** X17.  An accordion block builds one panel for each marker line, in
    source order, titled by that line; a block without a marker line
    builds an accordion without panels, and its lines are in no
    panel. *)
Theorem one_panel_per_marker_line :
  forall marked_parse processHtmlContent libs lib ls n,
    available (accordion libs) = Some lib ->
    exists obj,
      fst (buildAccordionObject marked_parse processHtmlContent ls libs n)
        = Some obj
      /\ map Accordion.title (accordionPanels obj) =
           map AccordionLoop.panelTitle (filter AccordionLoop.isMarker ls)
      /\ (noMarker ls = true -> accordionPanels obj = []).
Proof.
  intros mp ph libs lib ls n Hlib.
  unfold buildAccordionObject. rewrite Hlib. unfold bind.
  pose proof (processPanels_titles mp ph libs (AccordionLoop.run ls) n) as Ht.
  pose proof (AccordionAll.scan_titles ls AccordionLoop.init) as Hs.
  destruct (mapM (processPanel mp ph libs) (AccordionLoop.run ls) n)
    as [panels n1] eqn:Hm.
  eexists. split; [reflexivity|]. cbn [accordionPanels params
    Accordion.panels fst] in *.
  split.
  - rewrite Ht. exact Hs.
  - intros Hno. unfold AccordionLoop.run in Hm.
    rewrite (AccordionFacts.scan_no_marker ls Hno) in Hm.
    simpl in Hm. injection Hm as <- _. reflexivity.
Qed.

Lemma one_panel_per_marker_line_witness :
  exists obj,
    fst (buildAccordionObject (fun s => s) (fun s => s)
           ["lost"; "+++ A"; "a"; "+++"; "+++ C"] (resolveLibs [] []) 0)
      = Some obj
    /\ map Accordion.title (accordionPanels obj) = ["A"; "Panel"; "C"]
    /\ (noMarker ["lost"; "+++ A"; "a"; "+++"; "+++ C"] = true ->
        accordionPanels obj = []).
Proof.
  apply (one_panel_per_marker_line (fun s => s) (fun s => s)
           (resolveLibs [] []) "H5P.Accordion 1.0"
           ["lost"; "+++ A"; "a"; "+++"; "+++ C"] 0).
  reflexivity.
Defined.

(** X18.  The bodies of the panels, one after the other, are the lines
    of the block after its first marker line that are no marker lines,
    in source order: none of them is lost or repeated, and the lines
    before the first marker are in no body. *)
Theorem panel_bodies_keep_the_lines :
  forall ls,
    concat (map AccordionLoop.markdownLines (AccordionLoop.run ls)) =
      filter (fun l => negb (AccordionLoop.isMarker l)) (afterFirstMarker ls).
Proof.
  intros ls. rewrite (AccordionAll.run_bodies ls). reflexivity.
Qed.

(** ** Image, blanks and chapter builders *)

Module ImageFacts.

(** The second group closes at the first [)]. *)
Lemma closes_path path rest :
  noLineEnd path = true -> ImageRegex.closes (path ++ ")" ++ rest) = true.
Proof.
  induction path as [|c path IH]; intros H; [reflexivity|].
  cbn [noLineEnd] in H. apply andb_prop in H as [Hc Hp].
  apply negb_true_iff in Hc.
  change (String c path ++ ")" ++ rest)
    with (String c (path ++ ")" ++ rest)).
  cbn [ImageRegex.closes]. rewrite Hc, (IH Hp).
  destruct (Ascii.eqb c ")"); reflexivity.
Qed.

(** The first group is the text up to the first [](]. *)
Lemma alt_found alt path rest :
  noCloseBracket alt = true ->
  noLineEnd alt = true ->
  noLineEnd path = true ->
  ImageRegex.alt (alt ++ "](" ++ path ++ ")" ++ rest) = Some alt.
Proof.
  intros Hb Hl Hp. unfold noCloseBracket in Hb.
  induction alt as [|c alt IH].
  - change ("" ++ "](" ++ path ++ ")" ++ rest)
      with (String "]" (String "(" (path ++ ")" ++ rest))).
    cbn [ImageRegex.alt]. rewrite Ascii.eqb_refl.
    cbn [substring1 andb]. rewrite (closes_path path rest Hp).
    assert (Hs : forall s, startsWith (String "(" s) "(" = true).
    { intros s. simpl. destruct s; reflexivity. }
    rewrite Hs. reflexivity.
  - cbn [allChars noLineEnd] in Hb, Hl.
    apply andb_prop in Hb as [Hc Hb]. apply andb_prop in Hl as [Hc' Hl].
    apply negb_true_iff in Hc. apply negb_true_iff in Hc'.
    change (String c alt ++ "](" ++ path ++ ")" ++ rest)
      with (String c (alt ++ "](" ++ path ++ ")" ++ rest)).
    cbn [ImageRegex.alt]. rewrite Hc, Hc'. cbn [andb].
    rewrite (IH Hb Hl). reflexivity.
Qed.

End ImageFacts.

Module TrimFacts.

Lemma trimEnd_idem s : trimEnd (trimEnd s) = trimEnd s.
Proof.
  induction s as [|c s IH]; [reflexivity|].
  cbn [trimEnd]. destruct (is_ws c && isEmpty (trimEnd s)) eqn:E;
    [reflexivity|].
  cbn [trimEnd]. rewrite IH, E. reflexivity.
Qed.

(** What [trimStart] leaves starts with no white space. *)
Lemma trimStart_head s :
  trimStart s = "" \/
  exists c r, trimStart s = String c r /\ is_ws c = false.
Proof.
  induction s as [|c s IH]; [left; reflexivity|].
  cbn [trimStart]. destruct (is_ws c) eqn:E; [exact IH|].
  right. exists c, s. split; [reflexivity | exact E].
Qed.

Lemma trim_idem s : trim (trim s) = trim s.
Proof.
  unfold trim.
  assert (H : trimStart (trimEnd (trimStart s)) = trimEnd (trimStart s)).
  { destruct (trimStart_head s) as [->|[c [r [-> Hc]]]]; [reflexivity|].
    cbn [trimEnd]. rewrite Hc. cbn [andb trimStart]. rewrite Hc.
    reflexivity. }
  rewrite H. apply trimEnd_idem.
Qed.

End TrimFacts.

Lemma mapM_length {A B} (f : A -> M B) xs :
  forall n, length (fst (mapM f xs n)) = length xs.
Proof.
  induction xs as [|x xs IH]; intros n; [reflexivity|].
  simpl. unfold bind at 1. destruct (f x n) as [y n1].
  unfold bind. specialize (IH n1). destruct (mapM f xs n1).
  simpl in *. rewrite IH. reflexivity.
Qed.

(** X19.  An image line written from an alternative text and a path is
    read back to that text: the line is of the image syntax, and the
    built image object carries the alternative text and, whatever the
    path written, the path of the placeholder image. *)
Theorem image_line_gives_back_its_alt_text :
  forall alt path rest libs lib n,
    noCloseBracket alt = true ->
    noLineEnd alt = true ->
    noLineEnd path = true ->
    available (image libs) = Some lib ->
    ImageRegex.test ("![" ++ alt ++ "](" ++ path ++ ")" ++ rest) = true
    /\ exists obj p,
         fst (buildImageObject ("![" ++ alt ++ "](" ++ path ++ ")" ++ rest)
                libs n) = Some obj
         /\ imageParams obj = Some p
         /\ Image.alt p = alt
         /\ Image.path (Image.file_ p) = "images/missing.jpg".
Proof.
  intros alt path rest libs lib n Hb Hl Hp Hlib.
  assert (He : ImageRegex.exec ("![" ++ alt ++ "](" ++ path ++ ")" ++ rest)
               = Some alt).
  { exact (ImageFacts.alt_found alt path rest Hb Hl Hp). }
  split.
  - unfold ImageRegex.test. rewrite He. reflexivity.
  - unfold buildImageObject. rewrite Hlib, He.
    eexists. eexists. repeat split.
Qed.

Lemma image_line_gives_back_its_alt_text_witness :
  ImageRegex.test "![A (small) cat](pics/cat.png) and more" = true
  /\ exists obj p,
       fst (buildImageObject "![A (small) cat](pics/cat.png) and more"
              (resolveLibs [] []) 0) = Some obj
       /\ imageParams obj = Some p
       /\ Image.alt p = "A (small) cat"
       /\ Image.path (Image.file_ p) = "images/missing.jpg".
Proof.
  apply (image_line_gives_back_its_alt_text "A (small) cat" "pics/cat.png"
           " and more" (resolveLibs [] []) "H5P.Image 1.1" 0);
    reflexivity.
Defined.

(** X20.  In a fill-in-the-blanks block the blank lines and the white
    space around the lines do not count: there is one question for each
    line that is not blank, and the builder returns for the block what
    it returns for its lines trimmed and for the block without a blank
    line. *)
Theorem blanks_ignore_blank_lines_and_margins :
  forall ls libs n,
    buildBlanksObject (map trim ls) libs n = buildBlanksObject ls libs n
    /\ (forall pre l post,
          ls = (pre ++ l :: post)%list ->
          isBlank l = true ->
          buildBlanksObject ls libs n = buildBlanksObject (pre ++ post) libs n)
    /\ (forall lib, available (blanks libs) = Some lib ->
          exists obj,
            fst (buildBlanksObject ls libs n) = Some obj
            /\ length (blanksQuestions obj) =
                 length (filter (fun l => negb (isBlank l)) ls)).
Proof.
  intros ls libs n. split; [|split].
  - unfold buildBlanksObject.
    destruct (available (blanks libs)); [|reflexivity].
    assert (H : map (fun l => "<p>" ++ trim l ++ "</p>")
                  (filter (fun l => negb (String.eqb (trim l) ""))
                     (map trim ls)) =
                map (fun l => "<p>" ++ trim l ++ "</p>")
                  (filter (fun l => negb (String.eqb (trim l) "")) ls)).
    { induction ls as [|l ls IH]; [reflexivity|].
      cbn [map filter]. rewrite TrimFacts.trim_idem.
      destruct (negb (String.eqb (trim l) "")); cbn [map];
        rewrite ?TrimFacts.trim_idem, IH; reflexivity. }
    rewrite H. reflexivity.
  - intros pre l post -> Hl. unfold buildBlanksObject.
    destruct (available (blanks libs)); [|reflexivity].
    rewrite !filter_app. cbn [filter]. unfold isBlank in Hl. rewrite Hl.
    reflexivity.
  - intros lib Hlib. unfold buildBlanksObject. rewrite Hlib.
    eexists. split; [reflexivity|].
    cbn [blanksQuestions params Blanks.questions].
    rewrite length_map. reflexivity.
Qed.

Lemma blanks_ignore_blank_lines_and_margins_witness :
  buildBlanksObject ["The *sky* is blue."; "  "; "  Water boils at *100*. "]
                    (resolveLibs [] []) 0 =
    buildBlanksObject (["The *sky* is blue."]
                       ++ ["  Water boils at *100*. "])
                      (resolveLibs [] []) 0.
Proof.
  apply (proj1 (proj2 (blanks_ignore_blank_lines_and_margins
           ["The *sky* is blue."; "  "; "  Water boils at *100*. "]
           (resolveLibs [] []) 0))
           ["The *sky* is blue."] "  " ["  Water boils at *100*. "]);
    reflexivity.
Defined.

(** X21.  A chapter is never empty: it holds one content wrapper for
    each block of its body, or, when the body has no block, the one
    wrapper of the "(Empty Chapter)" text; every wrapper has the
    separator mode "auto". *)
Theorem chapter_holds_a_wrapper_per_block :
  forall marked_parse processHtmlContent title markdown libs n,
    let ch := fst (createChapterStructure marked_parse processHtmlContent
                     title markdown libs n) in
    length (params ch) = Nat.max 1 (length (parseChapterSegments markdown))
    /\ Forall (fun w => useSeparator w = "auto") (params ch)
    /\ (parseChapterSegments markdown = [] ->
        map (fun w => textHtml (wrapped w)) (params ch) =
          [Some (orElse (processHtmlContent
                           (marked_parse "<p>(Empty Chapter)</p>"))
                        "<p>&nbsp;</p>")]).
Proof.
  intros mp ph title markdown libs n. cbv zeta.
  unfold createChapterStructure, bind.
  pose proof (mapM_length (buildSegment mp ph libs)
                (parseChapterSegments markdown) n) as Hlen.
  destruct (mapM (buildSegment mp ph libs) (parseChapterSegments markdown) n)
    as [objs n1].
  cbn [fst] in Hlen.
  destruct objs as [|o objs].
  - cbn [map nonEmpty]. unfold buildTextObject, bind, uuidv4, ret.
    cbn [fst params length]. simpl in Hlen.
    destruct (parseChapterSegments markdown); [|discriminate Hlen].
    repeat split. repeat constructor.
  - cbn [map nonEmpty]. unfold ret, uuidv4. cbn [fst params].
    split; [|split].
    + cbn [length]. rewrite length_map. cbn [length] in Hlen.
      rewrite <- Hlen. reflexivity.
    + constructor; [reflexivity|]. apply Forall_map.
      apply Forall_forall. reflexivity.
    + intros Hnil. rewrite Hnil in Hlen. discriminate Hlen.
Qed.

Lemma chapter_holds_a_wrapper_per_block_witness :
  map (fun w => textHtml (wrapped w))
      (params (fst (createChapterStructure (fun s => s) (fun s => s)
                      "A" (" " ++ NL ++ "") (resolveLibs [] []) 0))) =
    [Some "<p>(Empty Chapter)</p>"].
Proof.
  apply (proj2 (proj2 (chapter_holds_a_wrapper_per_block
           (fun s => s) (fun s => s) "A" (" " ++ NL ++ "")
           (resolveLibs [] []) 0))).
  reflexivity.
Defined.

(** ** File names *)

Module NameFacts.

Lemma lower_dot c : Ascii.eqb (lowerChar c) "." = Ascii.eqb c ".".
Proof. destruct c as [[] [] [] [] [] [] [] []]; reflexivity. Qed.

Lemma lower_m c :
  Ascii.eqb (lowerChar c) "m" = Ascii.eqb c "m" || Ascii.eqb c "M".
Proof. destruct c as [[] [] [] [] [] [] [] []]; reflexivity. Qed.

Lemma lower_d c :
  Ascii.eqb (lowerChar c) "d" = Ascii.eqb c "d" || Ascii.eqb c "D".
Proof. destruct c as [[] [] [] [] [] [] [] []]; reflexivity. Qed.

(** The lowered name is [.md] exactly when the name is [.md] in some
    letter case. *)
Lemma lower_is_dotMd s : String.eqb (toLowerCase s) ".md" = isDotMd s.
Proof.
  destruct s as [|a [|b [|c [|d s]]]];
    cbn [toLowerCase String.eqb isDotMd];
    rewrite ?lower_dot, ?lower_m, ?lower_d;
    repeat match goal with
           | |- context [Ascii.eqb ?x ?y] => destruct (Ascii.eqb x y)
           end;
    reflexivity.
Qed.

Lemma endsWith_eq s p :
  endsWith s p =
    String.eqb s p
    || match s with
       | EmptyString => false
       | String _ s' => endsWith s' p
       end.
Proof. destruct s; reflexivity. Qed.

Lemma stripMd_eq s :
  stripMd s =
    if isDotMd s then EmptyString
    else match s with
         | EmptyString => EmptyString
         | String c r => String c (stripMd r)
         end.
Proof. destruct s; reflexivity. Qed.

(** A name longer than three characters is not [.md]. *)
Lemma isDotMd_longer c s ext :
  isDotMd ext = true -> isDotMd (String c (s ++ ext)) = false.
Proof.
  intros H.
  destruct ext as [|x [|y [|z [|w ext]]]]; try discriminate H.
  destruct s as [|s1 [|s2 [|s3 s]]]; reflexivity.
Qed.

(** The names the upload accepts and what [stripMd] makes of them. *)
Lemma accepted_name s :
  endsWith (toLowerCase s) ".md" = true ->
  exists base ext,
    s = base ++ ext /\ isDotMd ext = true /\ stripMd s = base.
Proof.
  induction s as [|c s IH]; [discriminate|].
  rewrite endsWith_eq, lower_is_dotMd. cbn [toLowerCase].
  destruct (isDotMd (String c s)) eqn:Hd.
  - intros _. exists "", (String c s). repeat split; [exact Hd|].
    rewrite stripMd_eq, Hd. reflexivity.
  - cbn [orb]. intros H. destruct (IH H) as [base [ext [-> [Hext Hstrip]]]].
    exists (String c base), ext. repeat split; [exact Hext|].
    rewrite stripMd_eq, Hd, Hstrip. reflexivity.
Qed.

Lemma stripMd_suffix base ext :
  isDotMd ext = true -> stripMd (base ++ ext) = base.
Proof.
  intros H. induction base as [|c base IH].
  - change ("" ++ ext) with ext. rewrite stripMd_eq, H. reflexivity.
  - change (String c base ++ ext) with (String c (base ++ ext)).
    rewrite stripMd_eq, (isDotMd_longer c base ext H), IH. reflexivity.
Qed.

(** The names the upload refuses are left whole by [stripMd]. *)
Lemma refused_name s :
  endsWith (toLowerCase s) ".md" = false -> stripMd s = s.
Proof.
  induction s as [|c s IH]; [reflexivity|].
  rewrite endsWith_eq, lower_is_dotMd. cbn [toLowerCase].
  intros H. apply orb_false_elim in H as [Hd H].
  rewrite stripMd_eq, Hd, (IH H). reflexivity.
Qed.

Lemma length_app_string a b :
  String.length (a ++ b) = String.length a + String.length b.
Proof. induction a as [|c a IH]; simpl; [|rewrite IH]; reflexivity. Qed.

End NameFacts.

(** X22.  The package is named after the Markdown file: a name that
    ends with [.md], in any letter case, gets that ending replaced by
    [.h5p], also when [.md] occurs earlier in the name; any other name
    is kept whole and [.h5p] is put after it. *)
Theorem package_name_replaces_md :
  (forall base ext,
     isDotMd ext = true -> outputName (base ++ ext) = base ++ ".h5p")
  /\
  (forall name,
     endsWith (toLowerCase name) ".md" = false ->
     outputName name = name ++ ".h5p").
Proof.
  split.
  - intros base ext H. unfold outputName.
    rewrite (NameFacts.stripMd_suffix base ext H). reflexivity.
  - intros name H. unfold outputName.
    rewrite (NameFacts.refused_name name H). reflexivity.
Qed.

Lemma package_name_replaces_md_witness :
  outputName ("notes.md.draft" ++ ".MD") = "notes.md.draft" ++ ".h5p"
  /\ outputName "notes.txt" = "notes.txt" ++ ".h5p".
Proof.
  split.
  - apply (proj1 package_name_replaces_md "notes.md.draft" ".MD").
    reflexivity.
  - apply (proj2 package_name_replaces_md "notes.txt"). reflexivity.
Defined.

(** X23.  The upload hands a file on exactly when its name ends with
    [.md] in some letter case, and then without an error message; the
    package built from a file handed on has the name of the file with
    its last three characters replaced by [.h5p].  A file with another
    name is refused with the error message and is not selected. *)
Theorem upload_accepts_md_names :
  forall file,
    (snd (Upload.validateAndSetFile file) = Some file
     \/ snd (Upload.validateAndSetFile file) = None)
    /\ (snd (Upload.validateAndSetFile file) = Some file ->
        Upload.error (fst (Upload.validateAndSetFile file)) = None
        /\ exists base ext,
             Upload.name file = base ++ ext
             /\ isDotMd ext = true
             /\ outputName (Upload.name file) = base ++ ".h5p"
             /\ String.length (Upload.name file) = String.length base + 3)
    /\ (snd (Upload.validateAndSetFile file) = None ->
        Upload.error (fst (Upload.validateAndSetFile file)) =
          Some "Please upload a .md (Markdown) file."
        /\ Upload.selectedFile (fst (Upload.validateAndSetFile file)) = None
        /\ forall base ext,
             isDotMd ext = true -> Upload.name file <> base ++ ext).
Proof.
  intros file. unfold Upload.validateAndSetFile.
  destruct (endsWith (toLowerCase (Upload.name file)) ".md") eqn:E;
    cbn [negb fst snd Upload.error Upload.selectedFile].
  - split; [left; reflexivity|]. split; [|discriminate].
    intros _. split; [reflexivity|].
    destruct (NameFacts.accepted_name _ E) as [base [ext [Hn [Hext Hs]]]].
    exists base, ext. repeat split; try assumption.
    + unfold outputName. rewrite Hs. reflexivity.
    + rewrite Hn, NameFacts.length_app_string.
      destruct ext as [|x [|y [|z [|w ext]]]]; try discriminate Hext.
      reflexivity.
  - split; [right; reflexivity|]. split; [discriminate|].
    intros _. repeat split.
    intros base ext Hext Hn.
    pose proof (NameFacts.refused_name _ E) as Hs.
    rewrite Hn, (NameFacts.stripMd_suffix base ext Hext) in Hs.
    assert (Hl : String.length base = String.length (base ++ ext))
      by (rewrite <- Hs; reflexivity).
    rewrite NameFacts.length_app_string in Hl.
    destruct ext as [|x [|y [|z [|w ext]]]]; try discriminate Hext.
    simpl in Hl. lia.
Qed.

Lemma upload_accepts_md_names_witness :
  Upload.error (fst (Upload.validateAndSetFile
                       (Upload.mkFile "Course.Md" "# A"))) = None
  /\ exists base ext,
       "Course.Md" = base ++ ext
       /\ isDotMd ext = true
       /\ outputName "Course.Md" = base ++ ".h5p"
       /\ String.length "Course.Md" = String.length base + 3.
Proof.
  apply (proj1 (proj2 (upload_accepts_md_names
                         (Upload.mkFile "Course.Md" "# A")))).
  reflexivity.
Defined.

(** ** Accordion builder: a block of two markers *)

Module AccordionTitles.
Import AccordionLoop.

(** A marker at the start of its line is removed by the pattern: the
    title is made of what follows the plus signs. *)
Lemma panelTitle_unindented m :
  startsWith m "+++" = true -> panelTitle m = markerTitle m.
Proof.
  intros H. unfold panelTitle, titleText, stripMarker, markerTitle.
  rewrite H.
  assert (E : trim (trimStart (skipPlus m)) = trim (skipPlus m))
    by (unfold trim; rewrite trimStart_idem; reflexivity).
  rewrite E. unfold truthy. rewrite trim_empty.
  destruct (allWs (skipPlus m)); reflexivity.
Qed.

End AccordionTitles.

(** X26.  An accordion block with exactly two marker lines (lines that
    once trimmed start with [+++]) builds exactly two panels, in source
    order.  The lines before the first marker are in no panel; each
    panel renders the lines after its marker and before the next
    marker, or the end of the block.  A marker that starts at the first
    character of its line titles its panel by the text after its plus
    signs, trimmed, and by "Panel" where nothing but white space
    follows them. *)
Theorem two_markers_make_two_panels :
  forall marked_parse processHtmlContent libs lib pre m1 b1 m2 b2 n,
    available (accordion libs) = Some lib ->
    noMarker pre = true ->
    AccordionLoop.isMarker m1 = true -> noMarker b1 = true ->
    AccordionLoop.isMarker m2 = true -> noMarker b2 = true ->
    exists obj p1 p2,
      fst (buildAccordionObject marked_parse processHtmlContent
             (pre ++ m1 :: b1 ++ m2 :: b2) libs n) = Some obj
      /\ accordionPanels obj = [p1; p2]
      /\ params (Accordion.content p1) =
           orElse (processHtmlContent (marked_parse (join NL b1))) "<p></p>"
      /\ params (Accordion.content p2) =
           orElse (processHtmlContent (marked_parse (join NL b2))) "<p></p>"
      /\ (startsWith m1 "+++" = true -> Accordion.title p1 = markerTitle m1)
      /\ (startsWith m2 "+++" = true -> Accordion.title p2 = markerTitle m2).
Proof.
  intros mp ph libs lib pre m1 b1 m2 b2 n Hlib Hpre Hm1 Hb1 Hm2 Hb2.
  pose proof (AccordionFacts.run_two_markers pre m1 b1 m2 b2
                Hpre Hm1 Hb1 Hm2 Hb2) as Hrun.
  unfold buildAccordionObject. rewrite Hlib, Hrun.
  eexists. eexists. eexists.
  split; [reflexivity|]. split; [reflexivity|].
  split; [reflexivity|]. split; [reflexivity|].
  split; intros Hs; cbn [Accordion.title];
    apply AccordionTitles.panelTitle_unindented; exact Hs.
Qed.

Lemma two_markers_make_two_panels_witness :
  exists obj p1 p2,
    fst (buildAccordionObject (fun s => s) (fun s => s)
           (["dropped"] ++
            "+++ What is H5P?" :: ["Free software."; ""] ++
            "+++  " :: ["Use it."])
           (resolveLibs [] []) 0) = Some obj
    /\ accordionPanels obj = [p1; p2]
    /\ params (Accordion.content p1) =
         orElse (join NL ["Free software."; ""]) "<p></p>"
    /\ params (Accordion.content p2) =
         orElse (join NL ["Use it."]) "<p></p>"
    /\ (startsWith "+++ What is H5P?" "+++" = true ->
        Accordion.title p1 = markerTitle "+++ What is H5P?")
    /\ (startsWith "+++  " "+++" = true ->
        Accordion.title p2 = markerTitle "+++  ").
Proof.
  apply (two_markers_make_two_panels (fun s => s) (fun s => s)
           (resolveLibs [] []) "H5P.Accordion 1.0"
           ["dropped"] "+++ What is H5P?" ["Free software."; ""]
           "+++  " ["Use it."] 0); reflexivity.
Defined.
